(** * gin-chat-room: the real-time messaging fabric

    A shallow embedding of the Go sources

      - internal/services/hub.go      (Hub, Client, registerClient,
                                       unregisterClient, broadcastToRoom)
      - internal/services/redis.go    (presence cache)
      - internal/websocket            (handleChatMessage, handleJoinRoom)
      - internal/handlers             (HandleWebSocket)

    Pointers to clients are addresses into an explicit heap, Go maps are
    finite maps, the buffered [Send] channel is a bounded FIFO with a
    closed flag, and the hub's [sync.RWMutex] is part of the hub state.
    Every Go function becomes a state transformer that either returns,
    blocks for ever on the mutex, or panics.

    The mutex matters: [registerClient] and [unregisterClient] hold the
    write lock while they call [broadcastToRoom], which starts by taking
    the read lock of the same mutex.  The pumps of a connection are
    represented by what they do to this state: the reader by the dispatch
    of one inbound frame, the writer not at all (a queue that is never
    drained is a stalled writer). *)

From stdpp Require Import gmap strings list fin_maps.
From Stdlib Require Import NArith ZArith.

Open Scope N_scope.

(** Go's [uint]; identifiers are only compared, never computed with. *)
Abbreviation uint := N (only parsing).
(** A [*Client]. *)
Abbreviation ptr := positive (only parsing).

(** ** Models (internal/models) *)

Module User.
Record t := mk {
  ID : uint;
  Username : string;
  IsOnline : bool;
  LastSeen : option Z
}.
End User.

Inductive MessageType :=
  MessageTypeText | MessageTypeImage | MessageTypeFile | MessageTypeSystem.

Module Message.
Record t := mk {
  ID : uint;
  RoomID : uint;
  UserID : uint;
  Type_ : MessageType;
  Content : string;
  CreatedAt : Z
}.
End Message.

Module RoomMember.
Record t := mk {
  RoomID : uint;
  UserID : uint;
  Role : string;
  JoinedAt : Z
}.
End RoomMember.

(** ** Wire frames (hub.go, [WebSocketMessage]) *)

(** The [Data interface{}] payloads the sources build. *)
Inductive payload :=
| NoData
| MessageData (m : Message.t)          (* message.ToJSON() *)
| UserData (u : User.t)                (* {"user": user.ToJSON()} *)
| UserIDData (user_id : uint)          (* {"user_id": client.UserID} *)
| UsersData (users : list User.t).     (* {"users": userList} *)

Module WebSocketMessage.
Record t := mk {
  Type_ : string;
  RoomID : uint;
  Content : string;
  Data : payload
}.
End WebSocketMessage.

(** [json.Marshal] of a [WebSocketMessage] cannot fail and is injective on
    the values above; a marshalled frame is represented by the value it
    was marshalled from. *)
Abbreviation frame := WebSocketMessage.t (only parsing).

(** ** Buffered channels ([chan []byte] of capacity 256) *)

Module Chan.
Record t := mk { buf : list frame; closed : bool }.

Definition capacity : nat := 256.

(** [make(chan []byte, 256)] *)
Definition make : t := mk [] false.

Inductive send_result :=
| Sent (ch : t)        (* the send case was taken *)
| WouldBlock           (* buffer full: the default case is taken *)
| SendOnClosed.        (* run-time panic *)

(** [select { case ch <- v: ... default: ... }] *)
Definition try_send (v : frame) (ch : t) : send_result :=
  if closed ch then SendOnClosed
  else if bool_decide (length (buf ch) < capacity)%nat
       then Sent (mk (buf ch ++ [v]) false)
       else WouldBlock.

(** [close(ch)]; closing a closed channel panics ([None]). *)
Definition close (ch : t) : option t :=
  if closed ch then None else Some (mk (buf ch) true).

Definition full (ch : t) : bool :=
  negb (bool_decide (length (buf ch) < capacity)%nat).
End Chan.

(** ** Client and Hub (hub.go)

    Of the fields of [Client], [Conn] (the socket) and [Hub] (the
    back-reference to the one hub of the process) carry no state of their
    own here; the [Send] channel lives in the client record. *)

Module Client.
Record t := mk {
  ID : string;
  UserID : uint;
  RoomID : uint;
  Send : Chan.t
}.

Definition with_Send (ch : Chan.t) (c : t) : t :=
  mk (ID c) (UserID c) (RoomID c) ch.
Definition with_RoomID (r : uint) (c : t) : t :=
  mk (ID c) (UserID c) r (Send c).
End Client.

(** [sync.RWMutex]: free, held by a writer, or held by [n+1] readers. *)
Inductive RWMutex := Free | Write | Read (n : nat).

Module Hub.
Record t := mk {
  clients : gset ptr;               (* map[*Client]bool, values always true *)
  rooms : gmap uint (gset ptr);     (* map[uint]map[*Client]bool *)
  users : gmap uint ptr;            (* map[uint]*Client *)
  mutex : RWMutex
}.

Definition with_clients (x : gset ptr) (h : t) : t :=
  mk x (rooms h) (users h) (mutex h).
Definition with_rooms (x : gmap uint (gset ptr)) (h : t) : t :=
  mk (clients h) x (users h) (mutex h).
Definition with_users (x : gmap uint ptr) (h : t) : t :=
  mk (clients h) (rooms h) x (mutex h).
Definition with_mutex (x : RWMutex) (h : t) : t :=
  mk (clients h) (rooms h) (users h) x.
End Hub.

(** [NewHub] *)
Definition NewHub : Hub.t := Hub.mk ∅ ∅ ∅ Free.

(** ** The store behind [database.DB] *)

Module DB.
Record t := mk {
  Users : gmap uint User.t;          (* live rows of the users table *)
  Rooms : gset uint;                 (* ids of live rows of the rooms table *)
  RoomMembers : list RoomMember.t;
  Messages : list Message.t;
  Up : bool;                         (* false: every statement returns an error *)
  Accepts : Message.t → bool         (* whether the insert of this message row
                                        succeeds: a store refuses a row by its
                                        columns, as PostgreSQL does a text
                                        with a NUL byte *)
}.

Definition with_Users (x : gmap uint User.t) (d : t) : t :=
  mk x (Rooms d) (RoomMembers d) (Messages d) (Up d) (Accepts d).
Definition with_RoomMembers (x : list RoomMember.t) (d : t) : t :=
  mk (Users d) (Rooms d) x (Messages d) (Up d) (Accepts d).
Definition with_Messages (x : list Message.t) (d : t) : t :=
  mk (Users d) (Rooms d) (RoomMembers d) x (Up d) (Accepts d).

(** [DB.First(&user, id)] *)
Definition FirstUser (id : uint) (d : t) : option User.t :=
  if Up d then Users d !! id else None.

(** [DB.First(&room, id)] *)
Definition FirstRoom (id : uint) (d : t) : bool :=
  Up d && bool_decide (id ∈ Rooms d).

Definition member_row (room_id user_id : uint) (m : RoomMember.t) : bool :=
  (RoomMember.RoomID m =? room_id) && (RoomMember.UserID m =? user_id).

(** [DB.Where("room_id = ? AND user_id = ?", r, u).First(&roomMember)] *)
Definition FirstRoomMember (room_id user_id : uint) (d : t)
  : option RoomMember.t :=
  if Up d then find (member_row room_id user_id) (RoomMembers d) else None.

(** [DB.Where("id IN ?", ids).Find(&users)] *)
Definition FindUsers (ids : list uint) (d : t) : list User.t :=
  if Up d then omap (fun id => Users d !! id) (remove_dups ids) else [].
End DB.

(** ** The presence cache behind [RedisClient] (redis.go) *)

(** Values of a decoded JSON object, as [map[string]interface{}] sees
    them.  A number decodes to [float64]: [JNumber n] is the decoded
    value, a natural number here. *)
Inductive jval := JNumber (n : N) | JString (s : string) | JNull.

(** What [GET key] followed by [json.Unmarshal] yields. *)
Inductive rval :=
| NotJSON
| Object (fields : gmap string jval).

Module Redis.
Record t := mk {
  Online : gmap uint rval;            (* key "user:online:<user id>" *)
  RoomMessages : gmap uint (list payload); (* key "room:messages:<room id>" *)
  Reachable : bool                    (* false: every command returns an error *)
}.

Definition with_Online (x : gmap uint rval) (r : t) : t :=
  mk x (RoomMessages r) (Reachable r).
Definition with_RoomMessages (x : gmap uint (list payload)) (r : t) : t :=
  mk (Online r) x (Reachable r).
End Redis.

(** ** The whole process state *)

Record World := mkWorld {
  hub : Hub.t;
  heap : gmap ptr Client.t;
  db : DB.t;
  RedisClient : option Redis.t;       (* None: the nil client *)
  now : Z                             (* time.Now().Unix() *)
}.

Definition with_hub (x : Hub.t) (w : World) : World :=
  mkWorld x (heap w) (db w) (RedisClient w) (now w).
Definition with_heap (x : gmap ptr Client.t) (w : World) : World :=
  mkWorld (hub w) x (db w) (RedisClient w) (now w).
Definition with_db (x : DB.t) (w : World) : World :=
  mkWorld (hub w) (heap w) x (RedisClient w) (now w).
Definition with_redis (x : option Redis.t) (w : World) : World :=
  mkWorld (hub w) (heap w) (db w) x (now w).

(** ** Outcomes of running a Go function on the hub goroutine *)

Inductive outcome (A : Type) :=
| Done (a : A) (w : World)     (* the function returned *)
| Blocked (w : World)          (* it waits for ever on the mutex *)
| Panicked (w : World).        (* run-time panic *)
Arguments Done {A} a w.
Arguments Blocked {A} w.
Arguments Panicked {A} w.

Definition M (A : Type) : Type := World → outcome A.

Definition ret {A} (a : A) : M A := fun w => Done a w.

Definition bind {A B} (m : M A) (k : A → M B) : M B :=
  fun w =>
    match m w with
    | Done a w' => k a w'
    | Blocked w' => Blocked w'
    | Panicked w' => Panicked w'
    end.

Notation "'let*' x ':=' m 'in' k" := (bind m (fun x => k))
  (at level 10, x pattern, m at level 100, k at level 200).
Notation "m ;; k" := (bind m (fun _ => k))
  (at level 100, k at level 200, right associativity).

Definition get : M World := fun w => Done w w.
Definition modify (f : World → World) : M unit := fun w => Done tt (f w).
Definition panic {A} : M A := fun w => Panicked w.

(** The state in which the goroutine is left, however it ended. *)
Definition world_of {A} (o : outcome A) : World :=
  match o with Done _ w | Blocked w | Panicked w => w end.

(** [*client]: every pointer the sources pass around is live. *)
Definition deref (client : ptr) : M Client.t :=
  fun w => match heap w !! client with
           | Some c => Done c w
           | None => Panicked w
           end.

Definition store (client : ptr) (c : Client.t) : M unit :=
  modify (fun w => with_heap (<[client := c]> (heap w)) w).

Definition modify_hub (f : Hub.t → Hub.t) : M unit :=
  modify (fun w => with_hub (f (hub w)) w).

(** ** sync.RWMutex on [h.mutex] *)

Definition Lock : M unit := fun w =>
  match Hub.mutex (hub w) with
  | Free => Done tt (with_hub (Hub.with_mutex Write (hub w)) w)
  | _ => Blocked w
  end.

Definition Unlock : M unit := fun w =>
  match Hub.mutex (hub w) with
  | Write => Done tt (with_hub (Hub.with_mutex Free (hub w)) w)
  | _ => Panicked w
  end.

Definition RLock : M unit := fun w =>
  match Hub.mutex (hub w) with
  | Free => Done tt (with_hub (Hub.with_mutex (Read 0) (hub w)) w)
  | Read n => Done tt (with_hub (Hub.with_mutex (Read (S n)) (hub w)) w)
  | Write => Blocked w
  end.

Definition RUnlock : M unit := fun w =>
  match Hub.mutex (hub w) with
  | Read 0 => Done tt (with_hub (Hub.with_mutex Free (hub w)) w)
  | Read (S n) => Done tt (with_hub (Hub.with_mutex (Read n) (hub w)) w)
  | _ => Panicked w
  end.

(** ** redis.go *)

Inductive error := nil | failure.

(** The [float64] nearest to a natural number, ties to the even
    significand: what [json.Unmarshal] makes of an integer literal.  A
    number of at most 53 bits is kept; a longer one keeps its 53 leading
    bits, rounded. *)
Definition float64 (n : N) : N :=
  let bits := N.size n in
  if bits <=? 53 then n
  else
    let shift := bits - 53 in
    let q := N.shiftr n shift in
    let r := N.land n (N.ones shift) in
    let half := N.shiftl 1 (shift - 1) in
    let q := if (half <? r) || ((r =? half) && N.odd q) then q + 1 else q in
    N.shiftl q shift.

(** The JSON object [SetUserOnline] marshals, as [GetOnlineUsers] decodes
    it: the integers are written out exactly and read back as
    [float64]. *)
Definition presence_entry (userID roomID : uint) (timestamp : Z) : rval :=
  Object (<["user_id" := JNumber (float64 userID)]>
         (<["room_id" := JNumber (float64 roomID)]>
         (<["timestamp" := JNumber (float64 (Z.to_N timestamp))]> ∅))).

Definition SetUserOnline (userID roomID : uint) (w : World) : error * World :=
  match RedisClient w with
  | None => (nil, w)
  | Some r =>
      if Redis.Reachable r
      then (nil, with_redis
                   (Some (Redis.with_Online
                            (<[userID := presence_entry userID roomID (now w)]>
                               (Redis.Online r)) r)) w)
      else (failure, w)
  end.

Definition SetUserOffline (userID : uint) (w : World) : error * World :=
  match RedisClient w with
  | None => (nil, w)
  | Some r =>
      if Redis.Reachable r
      then (nil, with_redis
                   (Some (Redis.with_Online (delete userID (Redis.Online r)) r)) w)
      else (failure, w)
  end.

(** [v, ok := userInfo[key].(float64)] *)
Definition float64_field (key : string) (userInfo : gmap string jval)
  : option N :=
  match userInfo !! key with
  | Some (JNumber n) => Some n
  | _ => None
  end.

(** One iteration of the loop of [GetOnlineUsers]: the user id the key
    contributes, if any. *)
Definition online_user (roomID : uint) (data : rval) : option uint :=
  match data with
  | NotJSON => None                                  (* Unmarshal fails: continue *)
  | Object userInfo =>
      match float64_field "room_id" userInfo with
      | Some userRoomID =>
          if userRoomID =? roomID
          then float64_field "user_id" userInfo
          else None
      | None => None
      end
  end.

Definition GetOnlineUsers (roomID : uint) (w : World) : list uint * error :=
  match RedisClient w with
  | None => ([], nil)
  | Some r =>
      if Redis.Reachable r
      then (omap (fun kv => online_user roomID kv.2)
                 (map_to_list (Redis.Online r)), nil)
      else ([], failure)
  end.

(** [LPUSH], [LTRIM 0 99]; the expiry is not modelled. *)
Definition CacheMessage (roomID : uint) (message : payload) (w : World)
  : error * World :=
  match RedisClient w with
  | None => (nil, w)
  | Some r =>
      if Redis.Reachable r
      then (nil, with_redis
                   (Some (Redis.with_RoomMessages
                            (<[roomID :=
                                 take 100 (message ::
                                   default [] (Redis.RoomMessages r !! roomID))]>
                               (Redis.RoomMessages r)) r)) w)
      else (failure, w)
  end.

(** A call whose returned error the caller drops. *)
Definition ignore_error (f : World → error * World) : M unit :=
  modify (fun w => (f w).2).

(** ** hub.go *)

(** [DB.Model(&models.User{}).Where("id = ?", id).Update("is_online", true)] *)
Definition UpdateOnline (id : uint) (w : World) : World :=
  if DB.Up (db w)
  then with_db (DB.with_Users
                  (alter (fun u => User.mk (User.ID u) (User.Username u) true
                                     (User.LastSeen u)) id (DB.Users (db w)))
                  (db w)) w
  else w.

(** [...Updates({"is_online": false, "last_seen": &now})] *)
Definition UpdateOffline (id : uint) (w : World) : World :=
  if DB.Up (db w)
  then with_db (DB.with_Users
                  (alter (fun u => User.mk (User.ID u) (User.Username u) false
                                     (Some (now w))) id (DB.Users (db w)))
                  (db w)) w
  else w.

Fixpoint for_each {A} (l : list A) (body : A → M unit) : M unit :=
  match l with
  | [] => ret tt
  | x :: l' => body x ;; for_each l' body
  end.

(** The body of the loop of [broadcastToRoom] for one client of the room:
    [select { case client.Send <- jsonData: default: close(client.Send);
    delete(h.clients, client); delete(room, client) }].  [room] is the map
    stored under [h.rooms[roomID]], so the last deletion is seen there. *)
Definition enqueue_or_evict (roomID : uint) (jsonData : frame) (client : ptr)
  : M unit :=
  let* c := deref client in
  match Chan.try_send jsonData (Client.Send c) with
  | Chan.Sent ch => store client (Client.with_Send ch c)
  | Chan.WouldBlock =>
      match Chan.close (Client.Send c) with
      | Some ch =>
          store client (Client.with_Send ch c) ;;
          modify_hub (fun h =>
            Hub.with_clients (Hub.clients h ∖ {[client]}) h) ;;
          modify_hub (fun h =>
            Hub.with_rooms
              (alter (fun room => room ∖ {[client]}) roomID (Hub.rooms h)) h)
      | None => panic
      end
  | Chan.SendOnClosed => panic
  end.

(** [broadcastToRoom]: the read lock is taken first and released by the
    deferred [RUnlock].  Go visits the entries of [room] in an unspecified
    order; the order of [elements] stands for it, and the state the loop
    ends in is the same for every order. *)
Definition broadcastToRoom (roomID : uint) (message : frame) : M unit :=
  RLock ;;
  let* w := get in
  match Hub.rooms (hub w) !! roomID with
  | Some room => for_each (elements room) (enqueue_or_evict roomID message)
  | None => ret tt
  end ;;
  RUnlock.

Definition notifyUserJoined (client : ptr) : M unit :=
  let* c := deref client in
  let* w := get in
  match DB.FirstUser (Client.UserID c) (db w) with
  | None => ret tt
  | Some user =>
      broadcastToRoom (Client.RoomID c)
        (WebSocketMessage.mk "user_joined" (Client.RoomID c) "" (UserData user))
  end.

Definition notifyUserLeft (client : ptr) : M unit :=
  let* c := deref client in
  broadcastToRoom (Client.RoomID c)
    (WebSocketMessage.mk "user_left" (Client.RoomID c) ""
       (UserIDData (Client.UserID c))).

Definition sendOnlineUsers (client : ptr) : M unit :=
  let* c := deref client in
  let* w := get in
  match GetOnlineUsers (Client.RoomID c) w with
  | (_, failure) => ret tt
  | (onlineUsers, nil) =>
      let users :=
        if bool_decide (0 < length onlineUsers)%nat
        then DB.FindUsers onlineUsers (db w) else [] in
      let message :=
        WebSocketMessage.mk "online_users" (Client.RoomID c) ""
          (UsersData users) in
      match Chan.try_send message (Client.Send c) with
      | Chan.Sent ch => store client (Client.with_Send ch c)
      | Chan.WouldBlock =>
          match Chan.close (Client.Send c) with
          | Some ch => store client (Client.with_Send ch c)
          | None => panic
          end
      | Chan.SendOnClosed => panic
      end
  end.

(** The three map updates at the head of [registerClient]. *)
Definition index_client (client : ptr) (c : Client.t) (h : Hub.t) : Hub.t :=
  let h1 := Hub.with_clients ({[client]} ∪ Hub.clients h) h in
  let h2 :=
    match Hub.rooms h1 !! Client.RoomID c with
    | None => Hub.with_rooms (<[Client.RoomID c := ∅]> (Hub.rooms h1)) h1
    | Some _ => h1
    end in
  let h3 :=
    Hub.with_rooms
      (alter (fun room => {[client]} ∪ room) (Client.RoomID c) (Hub.rooms h2))
      h2 in
  Hub.with_users (<[Client.UserID c := client]> (Hub.users h3)) h3.

Definition registerClient (client : ptr) : M unit :=
  Lock ;;
  let* c := deref client in
  modify_hub (index_client client c) ;;
  ignore_error (SetUserOnline (Client.UserID c) (Client.RoomID c)) ;;
  modify (UpdateOnline (Client.UserID c)) ;;
  notifyUserJoined client ;;
  sendOnlineUsers client ;;
  Unlock.

(** The three map deletions of [unregisterClient]. *)
Definition unindex_client (client : ptr) (c : Client.t) (h : Hub.t) : Hub.t :=
  let h1 := Hub.with_clients (Hub.clients h ∖ {[client]}) h in
  let h2 :=
    match Hub.rooms h1 !! Client.RoomID c with
    | Some room =>
        let room' := room ∖ {[client]} in
        if bool_decide (size room' = 0%nat)
        then Hub.with_rooms (delete (Client.RoomID c) (Hub.rooms h1)) h1
        else Hub.with_rooms (<[Client.RoomID c := room']> (Hub.rooms h1)) h1
    | None => h1
    end in
  Hub.with_users (delete (Client.UserID c) (Hub.users h2)) h2.

(** [close(client.Send)] *)
Definition close_Send (client : ptr) : M unit :=
  let* c := deref client in
  match Chan.close (Client.Send c) with
  | Some ch => store client (Client.with_Send ch c)
  | None => panic
  end.

Definition unregisterClient (client : ptr) : M unit :=
  Lock ;;
  let* w := get in
  (if bool_decide (client ∈ Hub.clients (hub w))
   then
     let* c := deref client in
     modify_hub (unindex_client client c) ;;
     close_Send client ;;
     ignore_error (SetUserOffline (Client.UserID c)) ;;
     modify (UpdateOffline (Client.UserID c)) ;;
     notifyUserLeft client
   else ret tt) ;;
  Unlock.

(** What the hub goroutine receives on its three channels. *)
Inductive Command :=
| Register (client : ptr)
| Unregister (client : ptr)
| Broadcast (roomID : uint) (message : frame).

(** One turn of the [select] of [Run]. *)
Definition Run_step (cmd : Command) : M unit :=
  match cmd with
  | Register client => registerClient client
  | Unregister client => unregisterClient client
  | Broadcast roomID message => broadcastToRoom roomID message
  end.

(** [Run] fed with the commands in the order the hub receives them. *)
Definition Run (cmds : list Command) : M unit := for_each cmds Run_step.

(** ** Sends on the channels of the hub

    [h.register], [h.unregister] and [h.broadcast] are unbuffered: a send
    on one of them ([RegisterClient], [UnregisterClient],
    [BroadcastMessage]) returns when the hub goroutine receives in the
    select of [Run].  The hub goroutine is the only one to take
    [h.mutex]; it takes it at the head of each of its three functions
    and releases it when the function returns.  In a state of the
    process it is therefore in its select when the lock is free, and
    stopped inside one of its functions when it is not.

    [offer pending cmd] is the send of [cmd] by a goroutine.  [pending]
    is the command this goroutine sent before, which the hub has taken
    and not run yet; the hub runs it now and, when it comes back to its
    select, takes [cmd].  When it does not come back, or was stopped
    already, the sender waits in its send for good (or dies with the
    process).  The state of that outcome is the one the sender had
    reached itself: what the hub goroutine did in the function it is
    stopped in is the outcome of [Run] on that command, not of the
    sender.  The schedule is the one in which the sender's own work
    between two sends comes before the hub's run of the earlier
    command. *)
Definition offer (pending : option Command) (cmd : Command) : M unit :=
  fun w =>
    match Hub.mutex (hub w) with
    | Free =>
        match pending with
        | None => Done tt w
        | Some p =>
            match Run_step p w with
            | Done _ w' => Done tt w'
            | Blocked _ => Blocked w
            | Panicked _ => Panicked w
            end
        end
    | _ => Blocked w
    end.

(** The commands of a handler, sent one after the other; the result is
    the command the hub took last. *)
Fixpoint offer_all (pending : option Command) (cmds : list Command)
  : M (option Command) :=
  match cmds with
  | [] => ret pending
  | cmd :: rest => offer pending cmd ;; offer_all (Some cmd) rest
  end.

(** ** internal/websocket: the dispatch of inbound frames

    These run on the reader goroutine of the connection.  The call of
    [client.Hub.BroadcastMessage] or [client.Hub.UnregisterClient] is the
    last statement of a handler: a handler returns the command it sends
    there, and [ReadPump] below does the send. *)

(** [DB.Create(&message)]: the row gets the next id and the current time.
    The insert returns an error when the store is down or refuses the
    row. *)
Definition CreateMessage (m : Message.t) (w : World)
  : option (Message.t * World) :=
  let row :=
    Message.mk (N.of_nat (length (DB.Messages (db w))) + 1)
      (Message.RoomID m) (Message.UserID m) (Message.Type_ m)
      (Message.Content m) (now w) in
  if DB.Up (db w) && DB.Accepts (db w) row
  then Some (row, with_db (DB.with_Messages (DB.Messages (db w) ++ [row]) (db w)) w)
  else None.

(** [DB.Create(&roomMember)], its error dropped. *)
Definition CreateRoomMember (m : RoomMember.t) (w : World) : World :=
  if DB.Up (db w)
  then with_db (DB.with_RoomMembers (DB.RoomMembers (db w) ++ [m]) (db w)) w
  else w.

Definition handleChatMessage (client : ptr) (wsMessage : frame)
  : M (list Command) :=
  let* c := deref client in
  let* w := get in
  match DB.FirstRoomMember (Client.RoomID c) (Client.UserID c) (db w) with
  | None => ret []                       (* logged, return *)
  | Some _ =>
      let message :=
        Message.mk 0 (Client.RoomID c) (Client.UserID c) MessageTypeText
          (WebSocketMessage.Content wsMessage) 0 in
      match CreateMessage message w with
      | None => ret []                   (* logged, return *)
      | Some (message, w') =>
          modify (fun _ => w') ;;
          ignore_error (CacheMessage (Client.RoomID c) (MessageData message)) ;;
          ret [Broadcast (Client.RoomID c)
                 (WebSocketMessage.mk "message" (Client.RoomID c) ""
                    (MessageData message))]
      end
  end.

Definition handleJoinRoom (client : ptr) (wsMessage : frame)
  : M (list Command) :=
  if WebSocketMessage.RoomID wsMessage =? 0 then ret []
  else
    let* w := get in
    if negb (DB.FirstRoom (WebSocketMessage.RoomID wsMessage) (db w))
    then ret []                          (* logged, return *)
    else
      let* c := deref client in
      (match DB.FirstRoomMember (WebSocketMessage.RoomID wsMessage)
               (Client.UserID c) (db w) with
       | None =>
           modify (CreateRoomMember
                     (RoomMember.mk (WebSocketMessage.RoomID wsMessage)
                        (Client.UserID c) "member" (now w)))
       | Some _ => ret tt
       end) ;;
      store client (Client.with_RoomID (WebSocketMessage.RoomID wsMessage) c) ;;
      ignore_error (SetUserOnline (Client.UserID c)
                      (WebSocketMessage.RoomID wsMessage)) ;;
      ret [].

Definition handleLeaveRoom (client : ptr) (wsMessage : frame)
  : M (list Command) :=
  let* c := deref client in
  ignore_error (SetUserOffline (Client.UserID c)) ;;
  ret [Unregister client].

Definition handleMessage (client : ptr) (wsMessage : frame)
  : M (list Command) :=
  if String.eqb (WebSocketMessage.Type_ wsMessage) "message"
  then handleChatMessage client wsMessage
  else if String.eqb (WebSocketMessage.Type_ wsMessage) "join_room"
  then handleJoinRoom client wsMessage
  else if String.eqb (WebSocketMessage.Type_ wsMessage) "leave_room"
  then handleLeaveRoom client wsMessage
  else ret [].                           (* unknown type: logged *)

(** ** internal/handlers: the attach endpoint *)

(** [strconv.ParseUint(s, 10, 32)], following the loop of the Go library:
    the empty string and any byte that is not a decimal digit are syntax
    errors, a value above [1<<32 - 1] is a range error. *)
Definition maxVal : N := 2 ^ 32 - 1.
Definition cutoff : N := (2 ^ 64 - 1) / 10 + 1.

Fixpoint ParseUint_loop (s : string) (n : N) : N * error :=
  match s with
  | EmptyString => (n, nil)
  | String c s' =>
      let b := Ascii.N_of_ascii c in
      if (48 <=? b) && (b <=? 57)
      then
        let d := b - 48 in
        if cutoff <=? n then (maxVal, failure)
        else
          let n10 := (n * 10) mod 2 ^ 64 in
          let n1 := (n10 + d) mod 2 ^ 64 in
          if (n1 <? n10) || (maxVal <? n1) then (maxVal, failure)
          else ParseUint_loop s' n1
      else (0, failure)
  end.

Definition ParseUint (s : string) : N * error :=
  match s with
  | EmptyString => (0, failure)
  | _ => ParseUint_loop s 0
  end.

(** What the handler reads from the [gin.Context]. *)
Record Request := mkRequest {
  current_user : option uint;     (* middleware.GetCurrentUserID *)
  room_id_param : option string;  (* the room_id query parameter, if present *)
  upgradable : bool;              (* whether upgrader.Upgrade succeeds *)
  uuid : string                   (* uuid.New().String() *)
}.

(** [c.Query(key)]: the value, or the empty string when the key is absent. *)
Definition Query (r : Request) : string := default "" (room_id_param r).

Inductive Response :=
| StatusUnauthorized                (* 401, {"error": "User not authenticated"} *)
| StatusBadRequest                  (* 400, {"error": "Invalid room ID"} *)
| UpgradeError                      (* the upgrader answered; logged *)
| Upgraded (client : ptr).          (* the hub took the registration of
                                       [client]; its pumps are started *)

Definition HandleWebSocket (r : Request) : M (Response * list Command) :=
  match current_user r with
  | None => ret (StatusUnauthorized, [])
  | Some userID =>
      let roomIDStr := Query r in
      let roomIDStr := if String.eqb roomIDStr "" then "1" else roomIDStr in
      match ParseUint roomIDStr with
      | (_, failure) => ret (StatusBadRequest, [])
      | (roomID, nil) =>
          if negb (upgradable r) then ret (UpgradeError, [])
          else
            let* w := get in
            let client := fresh (dom (heap w)) in
            store client (Client.mk (uuid r) userID roomID Chan.make) ;;
            offer None (Register client) ;;   (* hub.RegisterClient(client) *)
            ret (Upgraded client, [Register client])
      end
  end.

(** ** redis.go: reading the message cache *)

(** Go's [int64]: the value a wrapped-around computation yields. *)
Definition int64_wrap (z : Z) : Z := ((z + 2 ^ 63) mod 2 ^ 64 - 2 ^ 63)%Z.

(** [LRANGE key start stop] on the list stored under a key: indexes are
    zero-based and inclusive, a negative index counts from the end of the
    list, and an index out of range is clamped. *)
Definition LRange {A} (l : list A) (start stop : Z) : list A :=
  let llen := Z.of_nat (length l) in
  let start := if (start <? 0)%Z then (llen + start)%Z else start in
  let stop := if (stop <? 0)%Z then (llen + stop)%Z else stop in
  let start := if (start <? 0)%Z then 0%Z else start in
  if ((stop <? start) || (llen <=? start))%Z then []
  else
    let stop := if (llen <=? stop)%Z then (llen - 1)%Z else stop in
    take (Z.to_nat (stop - start + 1)) (drop (Z.to_nat start) l).

(** [GetCachedMessages]: [LRange(ctx, key, 0, int64(limit-1))]; a key
    that does not exist reads as the empty list. *)
Definition GetCachedMessages (roomID : uint) (limit : Z) (w : World)
  : list payload * error :=
  match RedisClient w with
  | None => ([], nil)
  | Some r =>
      if Redis.Reachable r
      then (LRange (default [] (Redis.RoomMessages r !! roomID)) 0
              (int64_wrap (limit - 1)), nil)
      else ([], failure)
  end.

(** ** internal/websocket: the pumps *)

(** [ReadPump].  [inbound] is what [ReadMessage] yields until it fails
    (end of stream, a frame over the read limit, the read deadline): one
    entry per message, [None] when [json.Unmarshal] rejects its data.
    The loop hands each parsed frame to [handleMessage] and skips the
    others; the deferred [UnregisterClient] runs when the loop is left.
    Every command is sent with [offer]: the reader goes on when the hub
    has taken it, and the hub runs it when the reader waits in its next
    send.  The result lists the commands the hub took, in order; the
    last of them is still to be run when the reader returns. *)
Fixpoint ReadPump_loop (client : ptr) (inbound : list (option frame))
  (pending : option Command) : M (list Command * option Command) :=
  match inbound with
  | [] => ret ([], pending)
  | None :: rest => ReadPump_loop client rest pending
  | Some wsMessage :: rest =>
      let* cmds := handleMessage client wsMessage in
      let* pending := offer_all pending cmds in
      let* more := ReadPump_loop client rest pending in
      ret (cmds ++ more.1, more.2)
  end.

Definition ReadPump (client : ptr) (inbound : list (option frame))
  : M (list Command) :=
  let* taken := ReadPump_loop client inbound None in
  offer taken.2 (Unregister client) ;;
  ret (taken.1 ++ [Unregister client]).

(** How the socket answers the writer. *)
Inductive socket := Healthy | NextWriterFails | CloseFails.

(** What one turn of the writer puts on the socket. *)
Inductive written :=
| TextMessage (frames : list frame)  (* one text message: the frames, newline-separated *)
| CloseMessage                       (* the queue was closed: close frame, the pump ends *)
| WriteError                         (* the pump ends on a socket error *)
| Waiting.                           (* nothing queued: the select keeps waiting *)

(** The [client.Send] case of the select of [WritePump].  A receive takes
    the frame at the head of the queue, also from a closed queue as long
    as frames are buffered; [ok] is false only on a closed and empty
    queue.  After the first frame the writer drains the [len(client.Send)]
    frames queued behind it into the same message. *)
Definition WritePump_turn (s : socket) (client : ptr) : M written :=
  let* c := deref client in
  match Chan.buf (Client.Send c) with
  | [] =>
      if Chan.closed (Client.Send c) then ret CloseMessage else ret Waiting
  | message :: queued =>
      match s with
      | NextWriterFails =>
          store client
            (Client.with_Send (Chan.mk queued (Chan.closed (Client.Send c))) c) ;;
          ret WriteError
      | CloseFails =>
          store client
            (Client.with_Send (Chan.mk [] (Chan.closed (Client.Send c))) c) ;;
          ret WriteError
      | Healthy =>
          store client
            (Client.with_Send (Chan.mk [] (Chan.closed (Client.Send c))) c) ;;
          ret (TextMessage (message :: queued))
      end
  end.

(** ** internal/models: the queries of a room *)

Module Room.
Record t := mk {
  ID : uint;
  IsPrivate : bool;
  Password : string;
  MaxMembers : Z;
  CreatorID : uint
}.
End Room.

(** [DB.Model(&RoomMember{}).Where(cond).Count(&count)]: the error of a
    failed statement is dropped and [count] stays 0. *)
Definition Count (cond : RoomMember.t → bool) (d : DB.t) : Z :=
  if DB.Up d
  then Z.of_nat (length (List.filter cond (DB.RoomMembers d)))
  else 0%Z.

Definition GetMemberCount (r : Room.t) (d : DB.t) : Z :=
  Count (fun m => RoomMember.RoomID m =? Room.ID r) d.

Definition IsMember (r : Room.t) (d : DB.t) (userID : uint) : bool :=
  (0 <? Count (DB.member_row (Room.ID r) userID) d)%Z.

Definition IsAdmin (r : Room.t) (d : DB.t) (userID : uint) : bool :=
  (0 <? Count (fun m => DB.member_row (Room.ID r) userID m &&
                        String.eqb (RoomMember.Role m) "admin") d)%Z
  || (Room.CreatorID r =? userID).

(** [CreateSystemMessage] (internal/models, message.go) *)
Definition CreateSystemMessage (roomID : uint) (content : string) : Message.t :=
  Message.mk 0 roomID 0 MessageTypeSystem content 0.

(** ** internal/handlers: joining and leaving a room over HTTP

    A handler runs its statements one after the other on the store; the
    statements of two requests are not interleaved here.  [rooms] are the
    live rows of the rooms table in the order of their ids ([DB.Rooms] is
    the set of their ids), and [nickname] gives the Nickname column of a
    user row. *)

Inductive found (A : Type) :=
| Row (a : A)
| ErrRecordNotFound
| ErrDatabase.
Arguments Row {A} a.
Arguments ErrRecordNotFound {A}.
Arguments ErrDatabase {A}.

(** [database.DB.First(&room, roomID)] *)
Definition FirstRoomRow (rooms : list Room.t) (roomID : uint) (d : DB.t)
  : found Room.t :=
  if DB.Up d
  then match find (fun r => Room.ID r =? roomID) rooms with
       | Some room => Row room
       | None => ErrRecordNotFound
       end
  else ErrDatabase.

(** What the handler reads from the [gin.Context]. *)
Record RoomRequest := mkRoomRequest {
  id_param : string;        (* c.Param("id") *)
  user : option uint;       (* middleware.GetCurrentUserID *)
  body_password : string    (* req.Password after ShouldBindJSON, whose
                               error is dropped: empty when the body
                               does not bind *)
}.

(** The status code of the answer and the text of its body. *)
Definition reply : Type := N * string.

(** [database.DB.First(&user, userID)] followed by [user.Nickname]: the
    zero value when the row is not loaded. *)
Definition loaded_nickname (nickname : uint → string) (userID : uint)
  (w : World) : string :=
  match DB.FirstUser userID (db w) with
  | Some _ => nickname userID
  | None => ""
  end.

(** [database.DB.Create(systemMessage)], its error dropped.  The row
    names user 0, of which the users table has no row: a store that
    enforces the foreign key of [user_id] refuses it. *)
Definition store_system_message (enforced : bool) (m : Message.t)
  (w : World) : World :=
  if enforced then w
  else match CreateMessage m w with
       | Some (_, w') => w'
       | None => w
       end.

Definition JoinRoom (rooms : list Room.t) (nickname : uint → string)
  (enforced : bool) (r : RoomRequest) (w : World) : reply * World :=
  match ParseUint (id_param r) with
  | (_, failure) => ((400, "Invalid room ID"), w)
  | (roomID, nil) =>
      match user r with
      | None => ((401, "User not authenticated"), w)
      | Some userID =>
          match FirstRoomRow rooms roomID (db w) with
          | ErrRecordNotFound => ((404, "Room not found"), w)
          | ErrDatabase => ((500, "Database error"), w)
          | Row room =>
              if IsMember room (db w) userID
              then ((409, "Already a member of this room"), w)
              else if (Room.MaxMembers room <=? GetMemberCount room (db w))%Z
              then ((403, "Room is full"), w)
              else if Room.IsPrivate room &&
                      negb (String.eqb (Room.Password room) "") &&
                      negb (String.eqb (Room.Password room) (body_password r))
              then ((403, "Invalid password"), w)
              else if negb (DB.Up (db w))
              then ((500, "Failed to join room"), w)
              else
                let w1 :=
                  CreateRoomMember
                    (RoomMember.mk roomID userID "member" (now w)) w in
                let content :=
                  (loaded_nickname nickname userID w1 ++ " 加入了房间")%string in
                ((200, "Successfully joined room"),
                 store_system_message enforced
                   (CreateSystemMessage roomID content) w1)
          end
      end
  end.

(** [database.DB.Delete(&roomMember)]: the row is deleted by its primary
    key; it is the row [First] loaded, the earliest that matches. *)
Fixpoint delete_first {A} (f : A → bool) (l : list A) : list A :=
  match l with
  | [] => []
  | a :: l' => if f a then l' else a :: delete_first f l'
  end.

Definition LeaveRoom (rooms : list Room.t) (nickname : uint → string)
  (enforced : bool) (r : RoomRequest) (w : World) : reply * World :=
  match ParseUint (id_param r) with
  | (_, failure) => ((400, "Invalid room ID"), w)
  | (roomID, nil) =>
      match user r with
      | None => ((401, "User not authenticated"), w)
      | Some userID =>
          if negb (DB.Up (db w)) then ((500, "Database error"), w)
          else
            match DB.FirstRoomMember roomID userID (db w) with
            | None => ((404, "Not a member of this room"), w)
            | Some roomMember =>
                let CreatorID :=
                  match FirstRoomRow rooms roomID (db w) with
                  | Row room => Room.CreatorID room
                  | _ => 0          (* the error is dropped: the zero value *)
                  end in
                if CreatorID =? userID
                then ((403, "Room creator cannot leave the room"), w)
                else
                  let w1 :=
                    with_db (DB.with_RoomMembers
                               (delete_first (DB.member_row roomID userID)
                                  (DB.RoomMembers (db w))) (db w)) w in
                  let content :=
                    (loaded_nickname nickname userID w1 ++ " 离开了房间")%string in
                  ((200, "Successfully left room"),
                   store_system_message enforced
                     (CreateSystemMessage roomID content) w1)
            end
      end
  end.

(** [CreateRoom].  [bound] is what [ShouldBindJSON] makes of the body:
    the request, or the text of its error; the name and the description
    of a room, which no handler modelled here reads back, are left out.
    [next] is the id the store gives the new row. *)
Record CreateRoomRequest := mkCreateRoomRequest {
  req_IsPrivate : bool;
  req_Password : string;
  req_MaxMembers : Z
}.

Record CreateRequest := mkCreateRequest {
  creator : option uint;                  (* middleware.GetCurrentUserID *)
  bound : CreateRoomRequest + string
}.

Definition CreateRoom (next : uint) (rooms : list Room.t) (r : CreateRequest)
  (w : World) : reply * list Room.t * World :=
  match creator r with
  | None => ((401, "User not authenticated"), rooms, w)
  | Some userID =>
      match bound r with
      | inr err => ((400, ("Invalid request data: " ++ err)%string), rooms, w)
      | inl req =>
          let MaxMembers :=
            if (req_MaxMembers req <=? 0)%Z then 100%Z else req_MaxMembers req in
          let Password :=
            if req_IsPrivate req && negb (String.eqb (req_Password req) "")
            then req_Password req else "" in
          if negb (DB.Up (db w))
          then ((500, "Failed to create room"), rooms, w)
          else
            let room :=
              Room.mk next (req_IsPrivate req) Password MaxMembers userID in
            let w1 :=
              with_db (DB.mk (DB.Users (db w)) ({[next]} ∪ DB.Rooms (db w))
                         (DB.RoomMembers (db w)) (DB.Messages (db w))
                         (DB.Up (db w)) (DB.Accepts (db w))) w in
            (* the creator joins as admin; the error of this insert is dropped *)
            let w2 :=
              CreateRoomMember (RoomMember.mk next userID "admin" (now w)) w1 in
            ((201, ""), rooms ++ [room], w2)
      end
  end.

(** [GetRoom]: the answer and the room it shows.  The user id is read
    with [userID, _ := middleware.GetCurrentUserID(c)]: it is 0 when the
    request carries none. *)
Definition GetRoom (rooms : list Room.t) (r : RoomRequest) (w : World)
  : reply * option Room.t :=
  match ParseUint (id_param r) with
  | (_, failure) => ((400, "Invalid room ID"), None)
  | (roomID, nil) =>
      match FirstRoomRow rooms roomID (db w) with
      | ErrRecordNotFound => ((404, "Room not found"), None)
      | ErrDatabase => ((500, "Database error"), None)
      | Row room =>
          let userID := default 0 (user r) in
          if Room.IsPrivate room &&
             negb (Room.CreatorID room =? userID) &&
             negb (IsMember room (db w) userID)
          then ((403, "Access denied"), None)
          else ((200, ""), Some room)
      end
  end.

(** * Notions used in the statements *)

(** The number a string of decimal digits denotes, continuing from [n]. *)
Fixpoint decimal (s : string) (n : N) : N :=
  match s with
  | EmptyString => n
  | String c s' => decimal s' (n * 10 + (Ascii.N_of_ascii c - 48))
  end.

Fixpoint all_digits (s : string) : bool :=
  match s with
  | EmptyString => true
  | String c s' =>
      (48 <=? Ascii.N_of_ascii c) && (Ascii.N_of_ascii c <=? 57) &&
      all_digits s'
  end.

(** The room a value of the room_id parameter stands for: room 1 for the
    empty value (the value of an absent parameter), the number a
    non-empty string of decimal digits writes when it is below 2^32, and
    none otherwise. *)
Definition requested_room (s : string) : option uint :=
  if String.eqb s "" then Some 1
  else if all_digits s && (decimal s 0 <? 2 ^ 32) then Some (decimal s 0)
  else None.

(** The state after a successful attach: the new client is allocated at
    a fresh address with an empty queue of capacity 256. *)
Definition attached (r : Request) (userID roomID : uint) (w : World)
  : outcome (Response * list Command) :=
  let client := fresh (dom (heap w)) in
  Done (Upgraded client, [Register client])
       (with_heap (<[client := Client.mk (uuid r) userID roomID Chan.make]>
                     (heap w)) w).

(** What one turn of the loop does to the client it visits. *)
Definition after_broadcast (message : frame) (c : Client.t) : Client.t :=
  if Chan.full (Client.Send c)
  then Client.with_Send (Chan.mk (Chan.buf (Client.Send c)) true) c
  else Client.with_Send
         (Chan.mk (Chan.buf (Client.Send c) ++ [message]) false) c.

(** Whether the queue of client [x] is full in [w]. *)
Definition slow (w : World) (x : ptr) : bool :=
  match heap w !! x with
  | Some c => Chan.full (Client.Send c)
  | None => false
  end.

(** The clients of [l] whose queue is full in [w]. *)
Definition evicted (w : World) (l : list ptr) : gset ptr :=
  list_to_set (filter (fun x => slow w x = true) l).

(** The two deletions of the default branch of [broadcastToRoom]. *)
Definition evict (roomID : uint) (x : ptr) (h : Hub.t) : Hub.t :=
  Hub.with_rooms
    (alter (fun room => room ∖ {[x]}) roomID (Hub.rooms h))
    (Hub.with_clients (Hub.clients h ∖ {[x]}) h).

(** The state in which the loop of [broadcastToRoom] leaves the process
    after visiting the clients [l] of room [roomID]. *)
Definition loop_result (roomID : uint) (message : frame) (l : list ptr)
  (w : World) : World :=
  mkWorld
    (Hub.mk (Hub.clients (hub w) ∖ evicted w l)
       (alter (fun room => room ∖ evicted w l) roomID (Hub.rooms (hub w)))
       (Hub.users (hub w)) (Hub.mutex (hub w)))
    (foldl (fun hp x => alter (after_broadcast message) x hp) (heap w) l)
    (db w) (RedisClient w) (now w).

(** The state [registerClient] reaches before it notifies the room. *)
Definition registered (client : ptr) (c : Client.t) (w : World) : World :=
  UpdateOnline (Client.UserID c)
    (SetUserOnline (Client.UserID c) (Client.RoomID c)
       (with_hub (index_client client c (Hub.with_mutex Write (hub w))) w)).2.

(** The state [unregisterClient] reaches before it notifies the room:
    the client is out of the three maps, its queue is closed, presence is
    cleared, and the write lock is still held. *)
Definition unregistered (client : ptr) (c : Client.t) (w : World) : World :=
  UpdateOffline (Client.UserID c)
    (SetUserOffline (Client.UserID c)
       (with_heap
          (<[client := Client.with_Send
                         (Chan.mk (Chan.buf (Client.Send c)) true) c]>
             (heap w))
          (with_hub (unindex_client client c (Hub.with_mutex Write (hub w)))
             w))).2.

(** I2 on a hub: no room is indexed with an empty set. *)
Definition no_empty_rooms (h : Hub.t) : Prop :=
  ∀ r room, Hub.rooms h !! r = Some room → room ≠ ∅.

(** The row [handleChatMessage] inserts for a frame. *)
Definition chat_record (c : Client.t) (wsMessage : frame) (w : World)
  : Message.t :=
  Message.mk (N.of_nat (length (DB.Messages (db w))) + 1)
    (Client.RoomID c) (Client.UserID c) MessageTypeText
    (WebSocketMessage.Content wsMessage) (now w).

(** I1 on a process state: every registered client is in the set of the
    room its record names, and [users] maps its user id back to it. *)
Definition registry_consistent (w : World) : Prop :=
  ∀ client c,
    client ∈ Hub.clients (hub w) → heap w !! client = Some c →
    (∃ room, Hub.rooms (hub w) !! Client.RoomID c = Some room ∧ client ∈ room) ∧
    Hub.users (hub w) !! Client.UserID c = Some client.

(** The part of I1 the hub maintains by itself: every registered client
    has a record and is in the set of the room its record names. *)
Definition indexed (w : World) : Prop :=
  ∀ client,
    client ∈ Hub.clients (hub w) →
    ∃ c room, heap w !! client = Some c ∧
              Hub.rooms (hub w) !! Client.RoomID c = Some room ∧
              client ∈ room.

(** I4 on a process state: no queue holds more frames than its
    capacity. *)
Definition bounded (w : World) : Prop :=
  ∀ x c, heap w !! x = Some c →
         (length (Chan.buf (Client.Send c)) ≤ Chan.capacity)%nat.

(** What the hub may do to the record of a client: its identity and room
    stay, the frames already queued stay at the head of the queue in
    their order, and a closed queue stays closed. *)
Definition grown (c c' : Client.t) : Prop :=
  Client.ID c' = Client.ID c ∧
  Client.UserID c' = Client.UserID c ∧
  Client.RoomID c' = Client.RoomID c ∧
  Chan.buf (Client.Send c) `prefix_of` Chan.buf (Client.Send c') ∧
  (Chan.closed (Client.Send c) = true → Chan.closed (Client.Send c') = true).

(** [w'] comes after [w] in the life of the heap: no record disappeared
    and every record has only [grown]. *)
Definition heap_grown (w w' : World) : Prop :=
  ∀ x c, heap w !! x = Some c → ∃ c', heap w' !! x = Some c' ∧ grown c c'.

(** What a handler of the reader goroutine may do to the state [w] of
    the process, seen from the registry: the hub is as it was, no record
    appears or disappears, the identity and the queue of every record are
    as they were, and only the record of the reader's own client may
    differ at all (in its room id). *)
Definition reader_step (client : ptr) (w w' : World) : Prop :=
  hub w' = hub w ∧
  dom (heap w') = dom (heap w) ∧
  ∀ x c, heap w !! x = Some c →
    ∃ c', heap w' !! x = Some c' ∧
          Client.ID c' = Client.ID c ∧
          Client.UserID c' = Client.UserID c ∧
          Client.Send c' = Client.Send c ∧
          (x ≠ client → c' = c).

(** A presence store as [SetUserOnline] builds it: the object under the
    key of a user carries that user's id. *)
Definition well_keyed (r : Redis.t) : Prop :=
  ∀ key fields, Redis.Online r !! key = Some (Object fields) →
                fields !! "user_id" = Some (JNumber key).

(** What the reader of the connection of user [userID] may do to the
    store while it handles [n] frames: the users and the rooms are as
    they were, no stored message and no membership is removed or
    rewritten, at most [n] messages and [n] memberships are appended,
    and each of them is a row of [userID] (a membership with the role
    member). *)
Definition rows_appended (userID : uint) (n : nat) (w w' : World) : Prop :=
  DB.Users (db w') = DB.Users (db w) ∧
  DB.Rooms (db w') = DB.Rooms (db w) ∧
  DB.Up (db w') = DB.Up (db w) ∧
  (∃ rows, DB.Messages (db w') = DB.Messages (db w) ++ rows ∧
           (length rows ≤ n)%nat ∧
           Forall (fun m => Message.UserID m = userID) rows) ∧
  (∃ rows, DB.RoomMembers (db w') = DB.RoomMembers (db w) ++ rows ∧
           (length rows ≤ n)%nat ∧
           Forall (fun m => RoomMember.UserID m = userID ∧
                            RoomMember.Role m = "member") rows).

(** How a hub function leaves the lock, by the way it ended: free when
    it returned, write-locked when it blocked. *)
Definition lock_after (o : outcome unit) : Prop :=
  match o with
  | Done _ w => Hub.mutex (hub w) = Free
  | Blocked w => Hub.mutex (hub w) = Write
  | Panicked _ => True
  end.

(** [w'] is a state the hub reached from [w] by running commands that
    all returned. *)
Definition hub_ran (w w' : World) : Prop := ∃ cmds, Run cmds w = Done tt w'.

(** * Scenarios

    Two users with a membership row for room 1, Alice (id 7) and Bob
    (id 8), a user without one (id 9), and rooms 1 and 2. *)

Definition alice : User.t := User.mk 7 "alice" false None.
Definition bob : User.t := User.mk 8 "bob" false None.

Definition store0 : DB.t :=
  DB.mk (<[7 := alice]> (<[8 := bob]> ∅)) {[1; 2]}
    [RoomMember.mk 1 7 "member" 0; RoomMember.mk 1 8 "member" 0] [] true
    (fun _ => true).

Definition conn_a : Client.t := Client.mk "conn-a" 7 1 Chan.make.
Definition conn_b : Client.t := Client.mk "conn-b" 8 1 Chan.make.
Definition conn_a2 : Client.t := Client.mk "conn-a2" 7 2 Chan.make.
Definition conn_c : Client.t := Client.mk "conn-c" 9 1 Chan.make.

(** A chat frame as the hub receives it for broadcast. *)
Definition hi : frame :=
  WebSocketMessage.mk "message" 1 ""
    (MessageData (Message.mk 1 1 8 MessageTypeText "hi" 100)).

(** Alice's connection when its writer has stalled: 256 frames wait. *)
Definition conn_a_stalled : Client.t :=
  Client.mk "conn-a" 7 1 (Chan.mk (replicate 256 hi) false).

(** Alice has just attached to room 1: her client exists, the hub has
    not yet processed the registration. *)
Definition w_attached : World :=
  mkWorld NewHub {[1%positive := conn_a]} store0 None 100.

(** Alice and Bob are both registered in room 1, the hub is idle. *)
Definition hub_ab : Hub.t :=
  Hub.mk {[1%positive; 2%positive]}
    {[1 := {[1%positive; 2%positive]}]}
    (<[7 := 1%positive]> {[8 := 2%positive]}) Free.

Definition w_ab : World :=
  mkWorld hub_ab (<[1%positive := conn_a]> {[2%positive := conn_b]})
    store0 None 100.

(** The same, with Alice's writer stalled. *)
Definition w_ab_stalled : World :=
  mkWorld hub_ab (<[1%positive := conn_a_stalled]> {[2%positive := conn_b]})
    store0 None 100.

(** Alice alone in room 1. *)
Definition hub_a : Hub.t :=
  Hub.mk {[1%positive]} {[1 := {[1%positive]}]} {[7 := 1%positive]} Free.

(** Alice alone in room 1 with a stalled writer. *)
Definition w_a_stalled : World :=
  mkWorld hub_a {[1%positive := conn_a_stalled]} store0 None 100.

(** Alice is registered in room 1 and attaches a second time, to room 2:
    the second client is allocated at address 3. *)
Definition w_second_attach : World :=
  mkWorld hub_a (<[1%positive := conn_a]> {[3%positive := conn_a2]})
    store0 None 100.

(** User 9, who has no membership row, is registered in room 1. *)
Definition w_stranger : World :=
  mkWorld
    (Hub.mk {[4%positive]} {[1 := {[4%positive]}]} {[9 := 4%positive]} Free)
    {[4%positive := conn_c]} store0 None 100.

(** A reachable cache that knows Alice in room 1 and Bob in room 2. *)
Definition cache0 : Redis.t :=
  Redis.mk (<[7 := presence_entry 7 1 100]> {[8 := presence_entry 8 2 100]})
    ∅ true.

Definition w_cached : World :=
  mkWorld hub_ab (<[1%positive := conn_a]> {[2%positive := conn_b]})
    store0 (Some cache0) 100.

(** The store does not answer: every statement returns an error, so
    [notifyUserJoined] finds no profile and registrations run to their
    end. *)
Definition store_down : DB.t :=
  DB.mk (DB.Users store0) (DB.Rooms store0) (DB.RoomMembers store0) [] false
    (DB.Accepts store0).

(** A fresh hub, Alice's and Bob's clients just built by the attach
    endpoint, the store down. *)
Definition w_fresh : World :=
  mkWorld NewHub (<[1%positive := conn_a]> {[2%positive := conn_b]})
    store_down None 100.

(** A fresh hub and Alice's two clients, the store down. *)
Definition w_fresh_twice : World :=
  mkWorld NewHub (<[1%positive := conn_a]> {[3%positive := conn_a2]})
    store_down None 100.

(** The frame [sendOnlineUsers] sends when the listing is empty. *)
Definition online_users_none : frame :=
  WebSocketMessage.mk "online_users" 1 "" (UsersData []).

(** Alice registered while the store was down, and the store is back. *)
Definition w_alice_idle : World :=
  with_db store0 (world_of (Run [Register 1%positive] w_fresh)).

(** A chat frame for room 2. *)
Definition hi_room_2 : frame :=
  WebSocketMessage.mk "message" 2 ""
    (MessageData (Message.mk 2 2 8 MessageTypeText "hi" 100)).

Definition join_room_2 : frame := WebSocketMessage.mk "join_room" 2 "" NoData.
Definition join_room_5 : frame := WebSocketMessage.mk "join_room" 5 "" NoData.
Definition empty_message : frame := WebSocketMessage.mk "message" 1 "" NoData.

(** The registry after the map updates of Alice's registration; the hub
    goroutine still holds the write lock. *)
Definition w_alice : World :=
  mkWorld
    (Hub.mk {[1%positive]} {[1 := {[1%positive]}]} {[7 := 1%positive]} Write)
    {[1%positive := conn_a]}
    (DB.with_Users
       (<[7 := User.mk 7 "alice" true None]> (DB.Users store0)) store0)
    None 100.

(** The same after Alice's join_room frame for room 2 was handled. *)
Definition w_alice_joined : World :=
  mkWorld (hub w_alice)
    {[1%positive := Client.with_RoomID 2 conn_a]}
    (DB.with_RoomMembers
       (DB.RoomMembers store0 ++ [RoomMember.mk 2 7 "member" 100]) (db w_alice))
    None 100.

Definition stranger_message : frame := WebSocketMessage.mk "message" 1 "x" NoData.

Definition w_idle : World := mkWorld NewHub ∅ store0 None 100.

Definition req_default : Request := mkRequest (Some 7) None true "uuid-1".
Definition req_bad : Request := mkRequest (Some 7) (Some "abc") true "uuid-2".
Definition req_42 : Request := mkRequest (Some 7) (Some "42") true "uuid-3".
Definition req_empty : Request := mkRequest (Some 7) (Some "") true "uuid-4".
Definition req_big : Request :=
  mkRequest (Some 7) (Some "4294967296") true "uuid-5".

Definition join_room_1 : frame := WebSocketMessage.mk "join_room" 1 "" NoData.

(** The rows of the rooms table: room 1 is public, was created by Alice
    and takes two members (Alice and Bob fill it); room 2 is private,
    was created by Bob and has a password. *)
Definition rooms0 : list Room.t :=
  [Room.mk 1 false "" 2 7; Room.mk 2 true "s3cret" 10 8].

Definition nickname0 (userID : uint) : string :=
  if userID =? 7 then "Alice" else if userID =? 8 then "Bob" else "".

(** Alice asks to join room 2 with its password; user 9 asks to join
    room 1; Bob asks for room 2, which he created. *)
Definition join_2_alice : RoomRequest := mkRoomRequest "2" (Some 7) "s3cret".
Definition join_1_stranger : RoomRequest := mkRoomRequest "1" (Some 9) "".

(** A cache that holds three messages of room 1, the newest first. *)
Definition cached_message (id : uint) (content : string) : payload :=
  MessageData (Message.mk id 1 7 MessageTypeText content 100).

Definition cache_messages : Redis.t :=
  Redis.mk ∅
    {[1 := [cached_message 3 "c"; cached_message 2 "b"; cached_message 1 "a"]]}
    true.

Definition w_messages : World :=
  mkWorld NewHub ∅ store0 (Some cache_messages) 100.

(** User 9 creates a private room without giving a capacity; the store
    gives it the id 3. *)
Definition create_private : CreateRequest :=
  mkCreateRequest (Some 9) (inl (mkCreateRoomRequest true "pw" 0)).
Definition room_3_stranger : RoomRequest := mkRoomRequest "3" (Some 9) "".

(** A store that refuses a message whose content holds a NUL byte, and
    a frame with such a content. *)
Fixpoint has_nul (s : string) : bool :=
  match s with
  | EmptyString => false
  | String c s' => (Ascii.N_of_ascii c =? 0) || has_nul s'
  end.

Definition store_strict : DB.t :=
  DB.mk (DB.Users store0) (DB.Rooms store0) (DB.RoomMembers store0) [] true
    (fun m => negb (has_nul (Message.Content m))).

Definition w_strict : World := with_db store_strict w_cached.

Definition nul_message : frame :=
  WebSocketMessage.mk "message" 1 (String (Ascii.ascii_of_N 0) "") NoData.

(** * Properties *)

(** ** The outcome monad *)

Lemma bind_Done {A B} (m : M A) (k : A → M B) w a w' :
  m w = Done a w' → bind m k w = k a w'.
Proof. intros E. unfold bind. by rewrite E. Qed.

Lemma bind_Blocked {A B} (m : M A) (k : A → M B) w w' :
  m w = Blocked w' → bind m k w = Blocked w'.
Proof. intros E. unfold bind. by rewrite E. Qed.

Lemma bind_Panicked {A B} (m : M A) (k : A → M B) w w' :
  m w = Panicked w' → bind m k w = Panicked w'.
Proof. intros E. unfold bind. by rewrite E. Qed.

Lemma deref_Some client c w :
  heap w !! client = Some c → deref client w = Done c w.
Proof. intros E. unfold deref. by rewrite E. Qed.

(** ** Message ingestion (handleChatMessage) *)

Lemma FirstRoomMember_None room_id user_id d :
  (∀ m, m ∈ DB.RoomMembers d →
        ¬ (RoomMember.RoomID m = room_id ∧ RoomMember.UserID m = user_id)) →
  DB.FirstRoomMember room_id user_id d = None.
Proof.
  intros Hno. unfold DB.FirstRoomMember. destruct (DB.Up d); [|done].
  destruct (find _ _) as [m|] eqn:E; [|done].
  apply find_some in E as [Hin Hrow]. exfalso.
  apply (Hno m); [by apply list_elem_of_In|].
  unfold DB.member_row in Hrow. apply andb_true_iff in Hrow as [H1 H2].
  by apply N.eqb_eq in H1, H2.
Qed.

(** C7.  A message frame arriving on a connection whose user has no
    membership row for the connection's room is dropped: the handler
    returns without handing anything to the hub and the whole state (store,
    cache, registry, every outbound queue, the sender's own connection) is
    what it was. *)
Theorem handleChatMessage_non_member client c wsMessage w :
  heap w !! client = Some c →
  (∀ m, m ∈ DB.RoomMembers (db w) →
        ¬ (RoomMember.RoomID m = Client.RoomID c ∧
           RoomMember.UserID m = Client.UserID c)) →
  handleChatMessage client wsMessage w = Done [] w.
Proof.
  intros Hc Hno. unfold handleChatMessage.
  rewrite (bind_Done _ _ _ _ _ (deref_Some _ _ _ Hc)).
  unfold bind at 1, get.
  by rewrite (FirstRoomMember_None _ _ _ Hno).
Qed.

(** ** join_room (handleJoinRoom) *)

(** C9.  A join_room frame whose room id is 0, or names no live row of the
    rooms table, leaves everything as it was: the connection keeps its
    room id, no membership row is inserted, the presence cache is not
    written, and nothing is handed to the hub. *)
Theorem handleJoinRoom_rejected client wsMessage w :
  WebSocketMessage.RoomID wsMessage = 0 ∨
  WebSocketMessage.RoomID wsMessage ∉ DB.Rooms (db w) →
  handleJoinRoom client wsMessage w = Done [] w.
Proof.
  intros H. unfold handleJoinRoom.
  destruct (N.eqb_spec (WebSocketMessage.RoomID wsMessage) 0) as [E|NE];
    [done|].
  destruct H as [H|H]; [done|].
  unfold bind, get, DB.FirstRoom.
  rewrite (bool_decide_eq_false_2 _ H), andb_false_r. done.
Qed.

(** ** The presence listing (GetOnlineUsers) *)

Lemma float64_field_Some key userInfo n :
  float64_field key userInfo = Some n ↔ userInfo !! key = Some (JNumber n).
Proof.
  unfold float64_field. destruct (userInfo !! key) as [[]|]; naive_solver.
Qed.

Lemma online_user_Some roomID data u :
  online_user roomID data = Some u ↔
  ∃ fields, data = Object fields ∧
            fields !! "room_id" = Some (JNumber roomID) ∧
            fields !! "user_id" = Some (JNumber u).
Proof.
  unfold online_user. split.
  - destruct data as [|fields]; [done|].
    destruct (float64_field "room_id" fields) as [r|] eqn:Er; [|done].
    destruct (N.eqb_spec r roomID) as [->|]; [|done].
    intros Eu. exists fields.
    by rewrite <- !float64_field_Some.
  - intros (fields & -> & Hr & Hu).
    apply float64_field_Some in Hr, Hu. rewrite Hr, N.eqb_refl. done.
Qed.

(** C10.  With a nil cache client the listing is empty and carries no
    error.  With a reachable cache it returns no error and exactly the
    user ids of the presence entries whose room id is the one asked for. *)
Theorem GetOnlineUsers_exact roomID w :
  (RedisClient w = None → GetOnlineUsers roomID w = ([], nil)) ∧
  (∀ r, RedisClient w = Some r → Redis.Reachable r = true →
     (GetOnlineUsers roomID w).2 = nil ∧
     ∀ u, u ∈ (GetOnlineUsers roomID w).1 ↔
          ∃ key fields,
            Redis.Online r !! key = Some (Object fields) ∧
            fields !! "room_id" = Some (JNumber roomID) ∧
            fields !! "user_id" = Some (JNumber u)).
Proof.
  unfold GetOnlineUsers. split.
  - by intros ->.
  - intros r -> ->. split; [done|]. intros u. simpl.
    rewrite list_elem_of_omap. split.
    + intros ([key data] & Hin & Hu). simpl in Hu.
      apply elem_of_map_to_list in Hin.
      apply online_user_Some in Hu as (fields & -> & ? & ?).
      by exists key, fields.
    + intros (key & fields & Hk & Hr & Hu).
      exists (key, Object fields). split.
      * by apply elem_of_map_to_list.
      * apply online_user_Some. by exists fields.
Qed.

(** ** The attach endpoint (HandleWebSocket) *)

Lemma decimal_ge s : ∀ n, n ≤ decimal s n.
Proof.
  induction s as [|c s IH]; intros n; simpl; [lia|].
  etrans; [|apply IH]. lia.
Qed.

Lemma ParseUint_loop_spec s : ∀ n v,
  n ≤ maxVal →
  ParseUint_loop s n = (v, nil) ↔
  all_digits s = true ∧ decimal s n = v ∧ v ≤ maxVal.
Proof.
  induction s as [|c s IH]; intros n v Hn; simpl.
  - split; [intros [= <-]; done|intros (_ & <- & _); done].
  - assert (Hmax : maxVal = 4294967295) by reflexivity.
    assert (Hcut : cutoff = 1844674407370955162) by reflexivity.
    assert (Hpow : 2 ^ 64 = 18446744073709551616) by reflexivity.
    set (b := Ascii.N_of_ascii c).
    destruct (N.leb_spec 48 b) as [H48|H48]; simpl;
      [|split; [done|intros ([=] & _)]].
    destruct (N.leb_spec b 57) as [H57|H57]; simpl;
      [|split; [done|intros ([=] & _)]].
    destruct (N.leb_spec cutoff n) as [Hc|Hc]; [lia|].
    rewrite (N.mod_small (n * 10)) by lia.
    rewrite (N.mod_small (n * 10 + (b - 48))) by lia.
    destruct (N.ltb_spec (n * 10 + (b - 48)) (n * 10)) as [Hw|Hw]; [lia|].
    destruct (N.ltb_spec maxVal (n * 10 + (b - 48))) as [Hr|Hr]; simpl.
    + split; [done|]. intros (_ & <- & Hv).
      pose proof (decimal_ge s (n * 10 + (b - 48))). lia.
    + by apply IH.
Qed.

(** [ParseUint] succeeds exactly on the non-empty strings of decimal
    digits whose value fits 32 bits, and returns that value. *)
Lemma ParseUint_spec s v :
  ParseUint s = (v, nil) ↔
  s ≠ EmptyString ∧ all_digits s = true ∧ decimal s 0 = v ∧ v < 2 ^ 32.
Proof.
  assert (Hmax : maxVal = 4294967295) by reflexivity.
  assert (Hpow : 2 ^ 32 = 4294967296) by reflexivity.
  destruct s as [|c s]; [split; [done|intros (? & _); done]|].
  unfold ParseUint. rewrite ParseUint_loop_spec by (rewrite Hmax; lia).
  split.
  - intros (? & ? & ?). repeat split; try done. lia.
  - intros (? & ? & ? & ?). repeat split; try done. lia.
Qed.

(** C8 (as the code has it).  For an authenticated request, the value of
    the room_id parameter decides.  The empty value, which is also what
    an absent parameter reads as, stands for room 1.  Any other value
    that is not a string of decimal digits writing a number below 2^32
    is answered with 400: no client is allocated and nothing is sent to
    the hub.  A value that stands for a room becomes the room id of the
    new client when the upgrade succeeds; the client is allocated, its
    registration is sent to the hub, and the handler returns once the
    hub has taken it.  When the hub is stopped the handler waits in that
    send for good. *)
Theorem HandleWebSocket_room_id r userID w :
  current_user r = Some userID →
  match requested_room (Query r) with
  | None => HandleWebSocket r w = Done (StatusBadRequest, []) w
  | Some roomID =>
      (upgradable r = true → Hub.mutex (hub w) = Free →
       HandleWebSocket r w = attached r userID roomID w) ∧
      (upgradable r = true → Hub.mutex (hub w) ≠ Free →
       HandleWebSocket r w =
         Blocked (with_heap
                    (<[fresh (dom (heap w)) :=
                         Client.mk (uuid r) userID roomID Chan.make]> (heap w))
                    w)) ∧
      (upgradable r = false →
       HandleWebSocket r w = Done (UpgradeError, []) w)
  end.
Proof.
  intros Hu.
  assert (Hparse :
    ParseUint (if String.eqb (Query r) "" then "1" else Query r) =
    match requested_room (Query r) with
    | Some roomID => (roomID, nil)
    | None => ((ParseUint (Query r)).1, failure)
    end).
  { unfold requested_room.
    destruct (String.eqb_spec (Query r) "") as [_|Hne]; [done|].
    destruct (ParseUint (Query r)) as [v e] eqn:Hp.
    destruct (all_digits (Query r) && (decimal (Query r) 0 <? 2 ^ 32)) eqn:Hv.
    - apply andb_true_iff in Hv as [Hd Hlt]. apply N.ltb_lt in Hlt.
      rewrite <- Hp. by apply ParseUint_spec.
    - destruct e; [|done]. apply ParseUint_spec in Hp as (_ & Hd & <- & Hlt).
      apply N.ltb_lt in Hlt. by rewrite Hd, Hlt in Hv. }
  unfold HandleWebSocket, attached. rewrite Hu. cbv zeta. rewrite Hparse.
  destruct (requested_room (Query r)) as [roomID|]; [|done].
  split; [|split]; intros ->; [intros Hm|intros Hm|done];
    unfold bind, get, store, modify, ret, offer; simpl;
    by destruct (Hub.mutex (hub w)).
Qed.

(** ** Fan-out (broadcastToRoom) *)

Lemma enqueue_or_evict_open roomID message x c w :
  heap w !! x = Some c →
  Chan.closed (Client.Send c) = false →
  enqueue_or_evict roomID message x w =
  Done tt
    (let w1 := with_heap (<[x := after_broadcast message c]> (heap w)) w in
     if Chan.full (Client.Send c)
     then with_hub (evict roomID x (hub w1)) w1 else w1).
Proof.
  intros Hc Hopen. unfold enqueue_or_evict.
  rewrite (bind_Done _ _ _ _ _ (deref_Some _ _ _ Hc)).
  unfold Chan.try_send, Chan.close, after_broadcast, Chan.full.
  rewrite Hopen. by case_bool_decide.
Qed.

Lemma elem_of_evicted w l y :
  y ∈ evicted w l ↔ y ∈ l ∧ slow w y = true.
Proof.
  unfold evicted. rewrite elem_of_list_to_set, list_elem_of_filter. tauto.
Qed.

Lemma evicted_cons w x l :
  evicted w (x :: l) =
  (if slow w x then {[x]} else ∅) ∪ evicted w l.
Proof.
  apply set_eq. intros y.
  rewrite elem_of_union, !elem_of_evicted, elem_of_cons.
  destruct (slow w x) eqn:E.
  - rewrite elem_of_singleton. split.
    + intros [[->|Hy] Hs]; [by left|by right].
    + intros [->|[Hy Hs]]; [by split; [left|]|by split; [right|]].
  - rewrite elem_of_empty. split.
    + intros [[->|Hy] Hs]; [congruence|by right].
    + intros [[]|[Hy Hs]]. by split; [right|].
Qed.

Lemma evicted_ext w w' l :
  (∀ y, y ∈ l → heap w' !! y = heap w !! y) → evicted w' l = evicted w l.
Proof.
  intros H. apply set_eq. intros y. rewrite !elem_of_evicted.
  unfold slow. split; intros [Hy Hs]; (split; [done|]).
  - by rewrite <- (H y Hy).
  - by rewrite (H y Hy).
Qed.

Lemma alter_difference_twice (roomID : uint) (X Y : gset ptr)
  (m : gmap uint (gset ptr)) :
  alter (fun room => room ∖ Y) roomID (alter (fun room => room ∖ X) roomID m) =
  alter (fun room => room ∖ (X ∪ Y)) roomID m.
Proof.
  apply map_eq. intros i.
  destruct (decide (roomID = i)) as [->|].
  - rewrite !lookup_alter_eq.
    destruct (m !! i) as [room|]; simpl; [|done].
    f_equal. set_solver.
  - by rewrite !lookup_alter_ne.
Qed.

Lemma for_each_enqueue_or_evict roomID message l : ∀ w,
  NoDup l →
  (∀ x, x ∈ l →
        ∃ c, heap w !! x = Some c ∧ Chan.closed (Client.Send c) = false) →
  for_each l (enqueue_or_evict roomID message) w =
  Done tt (loop_result roomID message l w).
Proof.
  induction l as [|x l IH]; intros w Hnd Hopen.
  - simpl. unfold ret, loop_result, evicted. simpl. f_equal.
    destruct w as [[cl rm us mx] hp d rc t]; simpl. f_equal. f_equal.
    + set_solver.
    + apply map_eq. intros i.
      destruct (decide (roomID = i)) as [->|].
      * rewrite lookup_alter_eq. destruct (rm !! i); simpl; [|done].
        f_equal. set_solver.
      * by rewrite lookup_alter_ne.
  - apply NoDup_cons in Hnd as [Hx Hnd].
    destruct (Hopen x) as (c & Hc & Hcl); [left|].
    simpl for_each.
    rewrite (bind_Done _ _ _ _ _
               (enqueue_or_evict_open roomID message x c w Hc Hcl)).
    match goal with |- for_each _ _ ?w = _ => set (w1 := w) end.
    assert (Hheap1 : heap w1 = <[x := after_broadcast message c]> (heap w)).
    { subst w1. simpl. by destruct (Chan.full _). }
    assert (Hother : ∀ y, y ∈ l → heap w1 !! y = heap w !! y).
    { intros y Hy. rewrite Hheap1, lookup_insert_ne; [done|].
      intros ->. done. }
    rewrite IH; [|done|].
    2:{ intros y Hy. rewrite (Hother y Hy). apply Hopen. by right. }
    f_equal. unfold loop_result.
    rewrite (evicted_ext w w1 l Hother), evicted_cons.
    assert (Hslow : slow w x = Chan.full (Client.Send c)).
    { unfold slow. by rewrite Hc. }
    rewrite Hslow, Hheap1. simpl foldl.
    assert (Halter : alter (after_broadcast message) x (heap w) =
                     <[x := after_broadcast message c]> (heap w)).
    { apply map_eq. intros i.
      destruct (decide (x = i)) as [->|].
      - by rewrite lookup_alter_eq, lookup_insert_eq, Hc.
      - by rewrite lookup_alter_ne, lookup_insert_ne. }
    rewrite Halter.
    subst w1. destruct w as [[cl rm us mx] hp d rc t]; simpl in *.
    destruct (Chan.full (Client.Send c)); simpl.
    + f_equal. f_equal.
      * set_solver.
      * apply alter_difference_twice.
    + by rewrite (left_id_L ∅ (∪)).
Qed.

Lemma lookup_foldl_alter (f : Client.t → Client.t) (l : list ptr) :
  ∀ (hp : gmap ptr Client.t) y,
  NoDup l →
  foldl (fun hp x => alter f x hp) hp l !! y =
  if decide (y ∈ l) then f <$> hp !! y else hp !! y.
Proof.
  induction l as [|x l IH]; intros hp y Hnd; simpl.
  - destruct (decide (y ∈ [])) as [Hy|_]; [|done].
    by apply elem_of_nil in Hy.
  - apply NoDup_cons in Hnd as [Hx Hnd]. rewrite IH by done.
    destruct (decide (y ∈ l)) as [Hy|Hy];
      destruct (decide (y ∈ x :: l)) as [Hy'|Hy'].
    + rewrite lookup_alter_ne; [done|]. intros ->. done.
    + exfalso. apply Hy'. by right.
    + apply elem_of_cons in Hy' as [->|?]; [|done].
      by rewrite lookup_alter_eq.
    + rewrite lookup_alter_ne; [done|]. intros ->. apply Hy'. by left.
Qed.

(** The order in which the loop visits the clients of the room does not
    matter for the state it ends in. *)
Lemma loop_result_order roomID message l l' w :
  NoDup l → l ≡ₚ l' →
  loop_result roomID message l w = loop_result roomID message l' w.
Proof.
  intros Hnd Hperm.
  assert (Hnd' : NoDup l') by (by rewrite <- Hperm).
  assert (Hev : evicted w l = evicted w l').
  { apply set_eq. intros y. rewrite !elem_of_evicted. by rewrite Hperm. }
  unfold loop_result. rewrite Hev. f_equal.
  apply map_eq. intros y. rewrite !lookup_foldl_alter by done.
  destruct (decide (y ∈ l)) as [Hy|Hy]; destruct (decide (y ∈ l')) as [Hy'|Hy'];
    try done; exfalso.
  - apply Hy'. by rewrite <- Hperm.
  - apply Hy. by rewrite Hperm.
Qed.

(** From an unlocked hub, a broadcast to an indexed room whose members
    all have an open queue returns, in the state [loop_result]. *)
Lemma broadcastToRoom_Done roomID message w room :
  Hub.mutex (hub w) = Free →
  Hub.rooms (hub w) !! roomID = Some room →
  (∀ x, x ∈ room →
        ∃ c, heap w !! x = Some c ∧ Chan.closed (Client.Send c) = false) →
  broadcastToRoom roomID message w =
  Done tt (loop_result roomID message (elements room) w).
Proof.
  intros Hm Hroom Hopen. unfold broadcastToRoom.
  unfold bind at 1. unfold RLock. rewrite Hm.
  unfold bind at 1. unfold get. simpl. rewrite Hroom.
  unfold bind at 1.
  rewrite for_each_enqueue_or_evict.
  - unfold RUnlock, loop_result, evicted, slow, with_hub, Hub.with_mutex.
    simpl. by rewrite Hm.
  - apply NoDup_elements.
  - intros x Hx%elem_of_elements. simpl. by apply Hopen.
Qed.

(** A broadcast to a room the hub does not index only takes and releases
    the read lock. *)
Lemma broadcastToRoom_no_room roomID message w :
  Hub.mutex (hub w) = Free →
  Hub.rooms (hub w) !! roomID = None →
  broadcastToRoom roomID message w = Done tt w.
Proof.
  intros Hm Hroom. unfold broadcastToRoom.
  unfold bind at 1. unfold RLock. rewrite Hm.
  unfold bind at 1. unfold get. simpl. rewrite Hroom.
  unfold bind, ret, RUnlock. simpl.
  destruct w as [[cl rm us mx] hp d rc t]; simpl in *. by subst mx.
Qed.

(** While the write lock is held, [broadcastToRoom] never gets past its
    [RLock]: the goroutine that holds the lock waits for itself. *)
Lemma broadcastToRoom_Blocked roomID message w :
  Hub.mutex (hub w) = Write →
  broadcastToRoom roomID message w = Blocked w.
Proof.
  intros Hm. unfold broadcastToRoom, bind, RLock. by rewrite Hm.
Qed.

(** Unregistering a connection that is not in [clients] changes nothing. *)
Lemma unregisterClient_absent client w :
  Hub.mutex (hub w) = Free →
  client ∉ Hub.clients (hub w) →
  unregisterClient client w = Done tt w.
Proof.
  intros Hm Hnot. unfold unregisterClient.
  unfold bind at 1. unfold Lock. rewrite Hm.
  unfold bind at 1. unfold get at 1. simpl.
  rewrite bool_decide_eq_false_2 by done.
  unfold bind, ret, Unlock. simpl.
  destruct w as [[cl rm us mx] hp d rc t]; simpl in *. by subst mx.
Qed.

(** C3 (what the code does).  A broadcast from the unlocked hub to a room
    whose members all have an open queue returns.  Every member whose
    queue is full has its queue closed (its pending frames kept) and is
    deleted from [clients] and from the room's set; every other member
    gets exactly the broadcast frame appended to its queue and stays
    indexed.  No other queue changes and [users] is not touched: the
    eviction sends no user_left frame to anyone and leaves the evicted
    client's [users] entry in place.  The unregistration that the reader
    of an evicted client sends afterwards finds the client gone from
    [clients] and returns without doing anything, so the user_left frame
    of the ordinary unregistration is never sent either. *)
Theorem broadcastToRoom_evicts_silently roomID message w room :
  Hub.mutex (hub w) = Free →
  Hub.rooms (hub w) !! roomID = Some room →
  (∀ x, x ∈ room →
        ∃ c, heap w !! x = Some c ∧ Chan.closed (Client.Send c) = false) →
  ∃ w' room',
    broadcastToRoom roomID message w = Done tt w' ∧
    Hub.rooms (hub w') !! roomID = Some room' ∧
    (∀ x c, x ∈ room → heap w !! x = Some c →
       if Chan.full (Client.Send c)
       then (heap w' !! x =
               Some (Client.with_Send
                       (Chan.mk (Chan.buf (Client.Send c)) true) c) ∧
             (x ∉ Hub.clients (hub w')) ∧ x ∉ room' ∧
             unregisterClient x w' = Done tt w')
       else (heap w' !! x =
               Some (Client.with_Send
                       (Chan.mk (Chan.buf (Client.Send c) ++ [message]) false)
                       c) ∧
             (x ∈ Hub.clients (hub w') ↔ x ∈ Hub.clients (hub w)) ∧
             x ∈ room')) ∧
    (∀ x, x ∉ room → heap w' !! x = heap w !! x) ∧
    Hub.users (hub w') = Hub.users (hub w) ∧
    Hub.mutex (hub w') = Free.
Proof.
  intros Hm Hroom Hopen.
  exists (loop_result roomID message (elements room) w),
         (room ∖ evicted w (elements room)).
  split; [by apply broadcastToRoom_Done|].
  split; [unfold loop_result; simpl; by rewrite lookup_alter_eq, Hroom|].
  split; [|split; [|split; [done|done]]].
  - intros x c Hx Hc.
    assert (Hheap : heap (loop_result roomID message (elements room) w) !! x =
                    Some (after_broadcast message c)).
    { unfold loop_result. simpl.
      rewrite lookup_foldl_alter by apply NoDup_elements.
      rewrite decide_True by (by apply elem_of_elements). by rewrite Hc. }
    assert (Hev : x ∈ evicted w (elements room) ↔
                  Chan.full (Client.Send c) = true).
    { rewrite elem_of_evicted, elem_of_elements. unfold slow. rewrite Hc.
      tauto. }
    rewrite Hheap.
    destruct (Chan.full (Client.Send c)) eqn:Hfull.
    + assert (Hgone : x ∉ Hub.clients
                        (hub (loop_result roomID message (elements room) w))).
      { unfold loop_result. simpl.
        intros [_ Hn]%elem_of_difference. apply Hn, Hev. done. }
      split; [unfold after_broadcast; by rewrite Hfull|].
      split; [done|].
      split; [intros [_ Hn]%elem_of_difference; apply Hn, Hev; done|].
      by apply unregisterClient_absent.
    + assert (Hn : x ∉ evicted w (elements room)).
      { intros H%Hev. done. }
      split; [unfold after_broadcast; by rewrite Hfull|].
      unfold loop_result. simpl. rewrite !elem_of_difference. tauto.
  - intros x Hx. unfold loop_result. simpl.
    rewrite lookup_foldl_alter by apply NoDup_elements.
    rewrite decide_False; [done|]. by rewrite elem_of_elements.
Qed.

(** ** Registration (registerClient) *)

Lemma index_client_eq client c h :
  index_client client c h =
  Hub.mk ({[client]} ∪ Hub.clients h)
    (<[Client.RoomID c :=
         {[client]} ∪ default ∅ (Hub.rooms h !! Client.RoomID c)]>
       (Hub.rooms h))
    (<[Client.UserID c := client]> (Hub.users h))
    (Hub.mutex h).
Proof.
  unfold index_client, Hub.with_users, Hub.with_rooms, Hub.with_clients.
  destruct h as [cl rm us mx]; simpl.
  destruct (rm !! Client.RoomID c) as [room|] eqn:E; simpl; f_equal.
  - apply map_eq. intros i. destruct (decide (Client.RoomID c = i)) as [<-|].
    + by rewrite lookup_alter_eq, lookup_insert_eq, E.
    + by rewrite lookup_alter_ne, lookup_insert_ne.
  - apply map_eq. intros i. destruct (decide (Client.RoomID c = i)) as [<-|].
    + rewrite lookup_alter_eq, !lookup_insert_eq. simpl. done.
    + by rewrite lookup_alter_ne, !lookup_insert_ne.
Qed.

(** The cache and the store do not reach into the registry. *)
Lemma SetUserOnline_registry userID roomID w :
  hub (SetUserOnline userID roomID w).2 = hub w ∧
  heap (SetUserOnline userID roomID w).2 = heap w ∧
  db (SetUserOnline userID roomID w).2 = db w.
Proof.
  unfold SetUserOnline. destruct (RedisClient w) as [r|]; [|done].
  by destruct (Redis.Reachable r).
Qed.

Lemma SetUserOffline_registry userID w :
  hub (SetUserOffline userID w).2 = hub w ∧
  heap (SetUserOffline userID w).2 = heap w ∧
  db (SetUserOffline userID w).2 = db w.
Proof.
  unfold SetUserOffline. destruct (RedisClient w) as [r|]; [|done].
  by destruct (Redis.Reachable r).
Qed.

Lemma UpdateOnline_registry id w :
  hub (UpdateOnline id w) = hub w ∧ heap (UpdateOnline id w) = heap w.
Proof. unfold UpdateOnline. by destruct (DB.Up (db w)). Qed.

Lemma UpdateOffline_registry id w :
  hub (UpdateOffline id w) = hub w ∧ heap (UpdateOffline id w) = heap w.
Proof. unfold UpdateOffline. by destruct (DB.Up (db w)). Qed.

(** [sendOnlineUsers] touches nothing but the queue of the client it is
    called for. *)
Lemma sendOnlineUsers_frame client w :
  hub (world_of (sendOnlineUsers client w)) = hub w ∧
  (∀ y, y ≠ client →
        heap (world_of (sendOnlineUsers client w)) !! y = heap w !! y).
Proof.
  unfold sendOnlineUsers, bind, deref, get.
  destruct (heap w !! client) as [c|]; [|done].
  destruct (GetOnlineUsers (Client.RoomID c) w) as [onlineUsers []]; [|done].
  destruct (Chan.try_send _ _) as [ch| |]; [| |done].
  - simpl. split; [done|]. intros y Hy. by rewrite lookup_insert_ne.
  - destruct (Chan.close _) as [ch|]; [|done].
    simpl. split; [done|]. intros y Hy. by rewrite lookup_insert_ne.
Qed.

(** [registerClient] by cases on the profile lookup of [notifyUserJoined]:
    when the user row is found the broadcast is attempted under the write
    lock and the hub goroutine blocks; otherwise the online list is sent
    and the lock released. *)
Lemma registerClient_cases client c w :
  Hub.mutex (hub w) = Free →
  heap w !! client = Some c →
  registerClient client w =
  match DB.FirstUser (Client.UserID c) (db (registered client c w)) with
  | Some _ => Blocked (registered client c w)
  | None => (sendOnlineUsers client ;; Unlock) (registered client c w)
  end.
Proof.
  intros Hm Hc. unfold registerClient.
  unfold bind at 1. unfold Lock. rewrite Hm.
  unfold bind at 1. unfold deref at 1. simpl. rewrite Hc.
  unfold bind at 1. unfold modify_hub, modify at 1.
  unfold bind at 1. unfold ignore_error, modify at 1.
  unfold bind at 1. unfold modify at 1.
  set (w2 := UpdateOnline _ _).
  assert (Ew : w2 = registered client c w) by reflexivity.
  clearbody w2. subst w2.
  assert (Hreg : hub (registered client c w) =
                 index_client client c (Hub.with_mutex Write (hub w)) ∧
                 heap (registered client c w) = heap w).
  { unfold registered.
    destruct (UpdateOnline_registry (Client.UserID c)
      (SetUserOnline (Client.UserID c) (Client.RoomID c)
         (with_hub (index_client client c (Hub.with_mutex Write (hub w))) w)).2)
      as [-> ->].
    destruct (SetUserOnline_registry (Client.UserID c) (Client.RoomID c)
         (with_hub (index_client client c (Hub.with_mutex Write (hub w))) w))
      as (-> & -> & _). done. }
  destruct Hreg as [Hhub Hheap].
  unfold bind at 1. unfold notifyUserJoined.
  unfold bind at 1. unfold deref at 1. rewrite Hheap, Hc.
  unfold bind at 1. unfold get at 1.
  destruct (DB.FirstUser _ _) as [user|]; [|done].
  rewrite broadcastToRoom_Blocked; [done|].
  rewrite Hhub, index_client_eq. done.
Qed.

Lemma registered_registry client c w :
  hub (registered client c w) =
  index_client client c (Hub.with_mutex Write (hub w)) ∧
  heap (registered client c w) = heap w.
Proof.
  unfold registered.
  destruct (UpdateOnline_registry (Client.UserID c)
    (SetUserOnline (Client.UserID c) (Client.RoomID c)
       (with_hub (index_client client c (Hub.with_mutex Write (hub w))) w)).2)
    as [-> ->].
  destruct (SetUserOnline_registry (Client.UserID c) (Client.RoomID c)
       (with_hub (index_client client c (Hub.with_mutex Write (hub w))) w))
    as (-> & -> & _). done.
Qed.

Lemma sendOnlineUsers_Unlock_frame client w :
  let w' := world_of ((sendOnlineUsers client ;; Unlock) w) in
  Hub.clients (hub w') = Hub.clients (hub w) ∧
  Hub.rooms (hub w') = Hub.rooms (hub w) ∧
  Hub.users (hub w') = Hub.users (hub w) ∧
  (∀ y, y ≠ client → heap w' !! y = heap w !! y).
Proof.
  pose proof (sendOnlineUsers_frame client w) as [Hh Hp].
  unfold bind. destruct (sendOnlineUsers client w) as [[] w1|w1|w1];
    simpl in *; [|by rewrite Hh|by rewrite Hh].
  unfold Unlock. destruct (Hub.mutex (hub w1)); simpl; by rewrite Hh.
Qed.

(** The online list lands in the queue of the registering client or
    closes it; the record keeps its user id. *)
Lemma sendOnlineUsers_Unlock_own client c w :
  heap w !! client = Some c →
  Client.UserID <$>
    heap (world_of ((sendOnlineUsers client ;; Unlock) w)) !! client =
  Some (Client.UserID c).
Proof.
  intros Hc.
  assert (Hs : Client.UserID <$>
                 heap (world_of (sendOnlineUsers client w)) !! client =
               Some (Client.UserID c)).
  { unfold sendOnlineUsers, bind, deref, get. rewrite Hc.
    destruct (GetOnlineUsers (Client.RoomID c) w) as [onlineUsers []];
      [|simpl; by rewrite Hc].
    destruct (Chan.try_send _ _) as [ch| |]; [| |simpl; by rewrite Hc].
    - simpl. by rewrite lookup_insert_eq.
    - destruct (Chan.close _) as [ch|]; [|simpl; by rewrite Hc].
      simpl. by rewrite lookup_insert_eq. }
  unfold bind. destruct (sendOnlineUsers client w) as [[] w1|w1|w1];
    simpl in *; [|done|done].
  unfold Unlock. by destruct (Hub.mutex (hub w1)).
Qed.

(** C2 (as the code has it).  Registering a connection whose user id is
    already bound in [users] to another connection does not unregister
    that older connection.  In the state the hub goroutine is left in,
    [users] is rebound to the new connection, the new connection is in
    [clients] and in its room's set, and the older one is in [clients]
    exactly when it was before, still in every room set that held it,
    with its record (room id, queue contents, queue open) exactly as
    before: nothing was sent to it and nothing closed.  So when the older
    connection was registered and carries the user id, two distinct
    registered connections carry that user id afterwards; when [users]
    named a connection that had already left [clients], the new
    connection is the only one of the two that is registered. *)
Theorem registerClient_keeps_older client c old w :
  Hub.mutex (hub w) = Free →
  heap w !! client = Some c →
  Hub.users (hub w) !! Client.UserID c = Some old →
  old ≠ client →
  let w' := world_of (registerClient client w) in
  Hub.users (hub w') !! Client.UserID c = Some client ∧
  client ∈ Hub.clients (hub w') ∧
  Client.UserID <$> heap w' !! client = Some (Client.UserID c) ∧
  (∃ room, Hub.rooms (hub w') !! Client.RoomID c = Some room ∧ client ∈ room) ∧
  (old ∈ Hub.clients (hub w') ↔ old ∈ Hub.clients (hub w)) ∧
  (∀ r room, Hub.rooms (hub w) !! r = Some room → old ∈ room →
     ∃ room', Hub.rooms (hub w') !! r = Some room' ∧ old ∈ room') ∧
  heap w' !! old = heap w !! old ∧
  (∀ co, old ∈ Hub.clients (hub w) → heap w !! old = Some co →
     Client.UserID co = Client.UserID c →
     ∃ c', {[old; client]} ⊆ Hub.clients (hub w') ∧
           heap w' !! old = Some co ∧ heap w' !! client = Some c' ∧
           Client.UserID co = Client.UserID c').
Proof.
  intros Hm Hc Hold Hne w'.
  destruct (registered_registry client c w) as [Hhub Hheap].
  rewrite index_client_eq in Hhub. simpl in Hhub.
  assert (Hreg :
    Hub.clients (hub w') = {[client]} ∪ Hub.clients (hub w) ∧
    Hub.rooms (hub w') =
      <[Client.RoomID c :=
          {[client]} ∪ default ∅ (Hub.rooms (hub w) !! Client.RoomID c)]>
        (Hub.rooms (hub w)) ∧
    Hub.users (hub w') = <[Client.UserID c := client]> (Hub.users (hub w)) ∧
    heap w' !! old = heap w !! old ∧
    Client.UserID <$> heap w' !! client = Some (Client.UserID c)).
  { subst w'. rewrite (registerClient_cases client c w Hm Hc).
    destruct (DB.FirstUser _ _) as [user|].
    - simpl. by rewrite Hhub, Hheap, Hc.
    - pose proof (sendOnlineUsers_Unlock_own client c (registered client c w))
        as Hown.
      rewrite Hheap in Hown. specialize (Hown Hc).
      destruct (sendOnlineUsers_Unlock_frame client (registered client c w))
        as (-> & -> & -> & Hp).
      rewrite (Hp old Hne), Hhub, Hheap. done. }
  destruct Hreg as (Hcl & Hrm & Hus & Hhp & Hown).
  rewrite Hcl, Hrm, Hus, Hhp.
  split; [by rewrite lookup_insert_eq|].
  split; [set_solver|].
  split; [done|].
  split; [eexists; split; [by rewrite lookup_insert_eq|set_solver]|].
  split; [set_solver|].
  split; [|split; [done|]].
  - intros r room Hr Hin.
    destruct (decide (Client.RoomID c = r)) as [<-|Hr'].
    + eexists. split; [by rewrite lookup_insert_eq|].
      rewrite Hr. simpl. set_solver.
    + exists room. by rewrite lookup_insert_ne.
  - intros co Hin Hco Huid.
    destruct (heap w' !! client) as [c'|] eqn:Hc'; [|done].
    exists c'. split; [set_solver|]. split; [done|]. split; [done|].
    simpl in Hown. congruence.
Qed.

(** ** Unregistration (unregisterClient) *)

Lemma unregistered_registry client c w :
  hub (unregistered client c w) =
  unindex_client client c (Hub.with_mutex Write (hub w)) ∧
  heap (unregistered client c w) =
  <[client := Client.with_Send (Chan.mk (Chan.buf (Client.Send c)) true) c]>
    (heap w).
Proof.
  unfold unregistered.
  match goal with |- context [UpdateOffline ?u ?x] =>
    destruct (UpdateOffline_registry u x) as [-> ->] end.
  match goal with |- context [SetUserOffline ?u ?x] =>
    destruct (SetUserOffline_registry u x) as (-> & -> & _) end.
  done.
Qed.

Lemma unindex_client_mutex client c h :
  Hub.mutex (unindex_client client c h) = Hub.mutex h.
Proof.
  unfold unindex_client. simpl.
  destruct (Hub.rooms h !! Client.RoomID c); [|done].
  by case_bool_decide.
Qed.

(** Unregistering a registered connection never returns: after the maps
    are updated and the queue closed, [notifyUserLeft] calls
    [broadcastToRoom], whose [RLock] waits for the write lock that this
    very call holds. *)
Lemma unregisterClient_Blocked client c w :
  Hub.mutex (hub w) = Free →
  client ∈ Hub.clients (hub w) →
  heap w !! client = Some c →
  Chan.closed (Client.Send c) = false →
  unregisterClient client w = Blocked (unregistered client c w).
Proof.
  intros Hm Hin Hc Hopen. unfold unregisterClient.
  unfold bind at 1. unfold Lock. rewrite Hm.
  unfold bind at 1. unfold get at 1. simpl.
  rewrite bool_decide_eq_true_2 by done.
  unfold bind at 1. unfold bind at 1. unfold deref at 1. simpl. rewrite Hc.
  unfold bind at 1. unfold modify_hub, modify at 1.
  unfold bind at 1. unfold close_Send.
  unfold bind at 1. unfold deref at 1. simpl. rewrite Hc.
  unfold Chan.close. rewrite Hopen. unfold store, modify at 1.
  unfold bind at 1. unfold ignore_error, modify at 1.
  unfold bind at 1. unfold modify at 1.
  set (w2 := UpdateOffline _ _).
  assert (Ew : w2 = unregistered client c w) by reflexivity.
  clearbody w2. subst w2.
  destruct (unregistered_registry client c w) as [Hhub Hheap].
  unfold notifyUserLeft.
  unfold bind at 1. unfold deref at 1. rewrite Hheap, lookup_insert_eq.
  rewrite broadcastToRoom_Blocked; [done|].
  by rewrite Hhub, unindex_client_mutex.
Qed.

(** A registered connection never sees [unregisterClient] return. *)
Lemma unregisterClient_never_Done client w w' :
  Hub.mutex (hub w) = Free →
  client ∈ Hub.clients (hub w) →
  unregisterClient client w ≠ Done tt w'.
Proof.
  intros Hm Hin. unfold unregisterClient.
  unfold bind at 1. unfold Lock. rewrite Hm.
  unfold bind at 1. unfold get at 1. simpl.
  rewrite bool_decide_eq_true_2 by done.
  unfold bind at 1. unfold bind at 1. unfold deref at 1. simpl.
  destruct (heap w !! client) as [c|] eqn:Hc; [|done].
  unfold bind at 1. unfold modify_hub, modify at 1.
  unfold bind at 1. unfold close_Send.
  unfold bind at 1. unfold deref at 1. simpl. rewrite Hc.
  unfold Chan.close. destruct (Chan.closed (Client.Send c)); [done|].
  unfold store, modify at 1.
  unfold bind at 1. unfold ignore_error, modify at 1.
  unfold bind at 1. unfold modify at 1.
  set (w2 := UpdateOffline _ _).
  assert (Ew : w2 = unregistered client c w) by reflexivity.
  clearbody w2. subst w2.
  destruct (unregistered_registry client c w) as [Hhub Hheap].
  unfold notifyUserLeft.
  unfold bind at 1. unfold deref at 1. rewrite Hheap, lookup_insert_eq.
  rewrite broadcastToRoom_Blocked; [done|].
  by rewrite Hhub, unindex_client_mutex.
Qed.

(** What does hold of L1: handing the hub a second unregister for the
    same connection leaves the process in the state the first one left
    it in. *)
Lemma unregister_twice_state client w :
  Hub.mutex (hub w) = Free →
  world_of (Run [Unregister client; Unregister client] w) =
  world_of (Run [Unregister client] w).
Proof.
  intros Hm. unfold Run. simpl for_each.
  change (Run_step (Unregister client)) with (unregisterClient client).
  destruct (decide (client ∈ Hub.clients (hub w))) as [Hin|Hnot].
  - pose proof (unregisterClient_never_Done client w) as Hnd.
    unfold bind at 1 3.
    destruct (unregisterClient client w) as [[] w1|w1|w1]; [|done|done].
    by destruct (Hnd w1 Hm Hin).
  - unfold bind. by rewrite !(unregisterClient_absent _ _ Hm Hnot).
Qed.

(** ** Empty rooms *)

(** The map deletions of [unregisterClient] keep I2: a room emptied by
    the removal is deleted. *)
Lemma unindex_client_no_empty_rooms client c h :
  no_empty_rooms h → no_empty_rooms (unindex_client client c h).
Proof.
  intros Hinv r room. unfold unindex_client. simpl.
  destruct (Hub.rooms h !! Client.RoomID c) as [room0|] eqn:E; simpl;
    [|apply Hinv].
  case_bool_decide as Hsz; simpl.
  - destruct (decide (Client.RoomID c = r)) as [<-|Hr].
    + by rewrite lookup_delete_eq.
    + rewrite lookup_delete_ne by done. apply Hinv.
  - destruct (decide (Client.RoomID c = r)) as [<-|Hr].
    + rewrite lookup_insert_eq. intros [= <-] He. apply Hsz.
      rewrite He. apply size_empty.
    + rewrite lookup_insert_ne by done. apply Hinv.
Qed.

(** The map updates of [registerClient] keep I2. *)
Lemma index_client_no_empty_rooms client c h :
  no_empty_rooms h → no_empty_rooms (index_client client c h).
Proof.
  intros Hinv r room. rewrite index_client_eq. simpl.
  destruct (decide (Client.RoomID c = r)) as [<-|Hr].
  - rewrite lookup_insert_eq. intros [= <-]. set_solver.
  - rewrite lookup_insert_ne by done. apply Hinv.
Qed.

(** ** The room index *)

(** The map updates of [registerClient] keep every registered client in
    the set of its room, and put the new client there. *)
Lemma index_client_indexed client c w :
  heap w !! client = Some c →
  indexed w → indexed (with_hub (index_client client c (hub w)) w).
Proof.
  intros Hc Hinv x. rewrite index_client_eq. simpl.
  intros [->%elem_of_singleton|Hx]%elem_of_union.
  - exists c, ({[client]} ∪ default ∅ (Hub.rooms (hub w) !! Client.RoomID c)).
    split; [done|]. split; [by rewrite lookup_insert_eq|set_solver].
  - destruct (Hinv x Hx) as (cx & room & Hcx & Hr & Hin).
    exists cx. destruct (decide (Client.RoomID c = Client.RoomID cx)) as [E|NE].
    + eexists. split; [done|]. rewrite E, lookup_insert_eq. split; [done|].
      rewrite Hr. simpl. set_solver.
    + exists room. split; [done|]. by rewrite lookup_insert_ne.
Qed.

(** So do the map deletions of [unregisterClient], as long as the record
    of the client still names the room it was indexed under. *)
Lemma unindex_client_indexed client c w :
  heap w !! client = Some c →
  indexed w → indexed (with_hub (unindex_client client c (hub w)) w).
Proof.
  intros Hc Hinv x. unfold unindex_client. simpl.
  intros Hx.
  assert (Hx' : x ∈ Hub.clients (hub w) ∧ x ≠ client).
  { destruct (Hub.rooms (hub w) !! Client.RoomID c); [case_bool_decide|];
      simpl in Hx; set_solver. }
  destruct Hx' as [Hx1 Hne].
  destruct (Hinv x Hx1) as (cx & room & Hcx & Hr & Hin).
  exists cx.
  destruct (decide (Client.RoomID c = Client.RoomID cx)) as [E|NE].
  - rewrite E, Hr. case_bool_decide as Hsz; simpl.
    + apply size_empty_iff in Hsz. set_solver.
    + eexists. split; [done|]. rewrite lookup_insert_eq.
      split; [done|set_solver].
  - exists room. split; [done|].
    destruct (Hub.rooms (hub w) !! Client.RoomID c); [case_bool_decide|];
      simpl; rewrite ?lookup_delete_ne, ?lookup_insert_ne by done; done.
Qed.

(** And so does the loop of [broadcastToRoom], evictions included. *)
Lemma loop_result_indexed roomID message l w :
  NoDup l → indexed w → indexed (loop_result roomID message l w).
Proof.
  intros Hnd Hinv x. unfold loop_result. simpl.
  intros [Hx Hev]%elem_of_difference.
  destruct (Hinv x Hx) as (cx & room & Hcx & Hr & Hin).
  rewrite lookup_foldl_alter by done.
  assert (Hroom : Client.RoomID (after_broadcast message cx) = Client.RoomID cx).
  { unfold after_broadcast. by destruct (Chan.full _). }
  exists (if decide (x ∈ l) then after_broadcast message cx else cx).
  destruct (decide (Client.RoomID cx = roomID)) as [E|NE].
  - exists (room ∖ evicted w l).
    split; [by destruct (decide (x ∈ l)); rewrite Hcx|].
    split; [|by apply elem_of_difference].
    destruct (decide (x ∈ l)); rewrite ?Hroom, E, lookup_alter_eq; subst roomID;
      by rewrite Hr.
  - exists room.
    split; [by destruct (decide (x ∈ l)); rewrite Hcx|].
    split; [|done].
    destruct (decide (x ∈ l)); rewrite ?Hroom, lookup_alter_ne; done.
Qed.

(** An integer below 2^53 survives the round trip through [float64]. *)
Lemma float64_small n : n < 2 ^ 53 → float64 n = n.
Proof.
  intros Hn. unfold float64.
  destruct (N.leb_spec (N.size n) 53) as [|Hbig]; [done|]. exfalso.
  destruct (decide (n = 0)) as [->|Hn0]; [simpl in Hbig; lia|].
  rewrite N.size_log2 in Hbig by done.
  assert (N.log2 n < 53); [|lia].
  apply N.log2_lt_pow2; lia.
Qed.

(** The presence entry [SetUserOnline] writes for ids below 2^53 is
    listed by [GetOnlineUsers] for its room. *)
Lemma SetUserOnline_listed userID roomID w r :
  RedisClient w = Some r → Redis.Reachable r = true →
  userID < 2 ^ 53 → roomID < 2 ^ 53 →
  userID ∈ (GetOnlineUsers roomID (SetUserOnline userID roomID w).2).1.
Proof.
  intros Hr Hreach Hu Hroom. unfold SetUserOnline. rewrite Hr, Hreach. simpl.
  unfold GetOnlineUsers. simpl. rewrite Hreach. simpl.
  rewrite list_elem_of_omap.
  exists (userID, presence_entry userID roomID (now w)). split.
  - apply elem_of_map_to_list. by rewrite lookup_insert_eq.
  - apply online_user_Some. eexists. split; [reflexivity|].
    rewrite (float64_small _ Hu), (float64_small _ Hroom).
    split; reflexivity.
Qed.

(** ** Message ingestion of a member *)

(** C4 (as the code has it).  The handler never looks at the content.
    Whatever the content of the frame, when the sender has a membership
    row for its room the handler tries to insert a text record carrying
    the content verbatim.  When the store takes the row, the record is
    stored, pushed on the room's cache list when the cache can be
    reached, and one frame of type message for the room is handed to the
    hub; the registry and the queues are left to the hub.  When the
    insert fails, the handler returns with nothing stored, nothing
    cached and nothing handed to the hub. *)
Theorem handleChatMessage_any_content client c wsMessage w row :
  heap w !! client = Some c →
  DB.FirstRoomMember (Client.RoomID c) (Client.UserID c) (db w) = Some row →
  Message.Content (chat_record c wsMessage w) =
    WebSocketMessage.Content wsMessage ∧
  (DB.Accepts (db w) (chat_record c wsMessage w) = true →
   ∃ w',
     handleChatMessage client wsMessage w =
       Done [Broadcast (Client.RoomID c)
               (WebSocketMessage.mk "message" (Client.RoomID c) ""
                  (MessageData (chat_record c wsMessage w)))] w' ∧
     DB.Messages (db w') = DB.Messages (db w) ++ [chat_record c wsMessage w] ∧
     (∀ r, RedisClient w = Some r → Redis.Reachable r = true →
        ∃ r', RedisClient w' = Some r' ∧
              head (default [] (Redis.RoomMessages r' !! Client.RoomID c)) =
                Some (MessageData (chat_record c wsMessage w))) ∧
     hub w' = hub w ∧ heap w' = heap w) ∧
  (DB.Accepts (db w) (chat_record c wsMessage w) = false →
   handleChatMessage client wsMessage w = Done [] w).
Proof.
  intros Hc Hrow. split; [done|].
  assert (Hup : DB.Up (db w) = true).
  { unfold DB.FirstRoomMember in Hrow. by destruct (DB.Up (db w)). }
  assert (Hstep : handleChatMessage client wsMessage w =
    match CreateMessage
            (Message.mk 0 (Client.RoomID c) (Client.UserID c) MessageTypeText
               (WebSocketMessage.Content wsMessage) 0) w with
    | None => Done [] w
    | Some (message, w') =>
        (modify (fun _ => w') ;;
         ignore_error (CacheMessage (Client.RoomID c) (MessageData message)) ;;
         ret [Broadcast (Client.RoomID c)
                (WebSocketMessage.mk "message" (Client.RoomID c) ""
                   (MessageData message))]) w
    end).
  { unfold handleChatMessage.
    rewrite (bind_Done _ _ _ _ _ (deref_Some _ _ _ Hc)).
    unfold bind at 1, get. rewrite Hrow.
    by destruct (CreateMessage _ w) as [[message w']|]. }
  rewrite Hstep. unfold CreateMessage. rewrite Hup. simpl.
  fold (chat_record c wsMessage w).
  split; intros Hacc; rewrite Hacc; [|done].
  unfold bind, modify, ignore_error, ret. simpl.
  eexists. split; [reflexivity|].
  unfold CacheMessage. simpl.
  destruct (RedisClient w) as [r|] eqn:Er; simpl.
  - destruct (Redis.Reachable r) eqn:Ereach; simpl.
    + split; [done|]. split; [|done].
      intros r0 [= <-] _. eexists. split; [done|].
      simpl. rewrite lookup_insert_eq. reflexivity.
    + split; [done|]. split; [|done]. intros r0 [= <-] Ht. congruence.
  - split; [done|]. split; [|done]. intros r0 [=].
Qed.

(** ** The scenarios, evaluated *)

(** Alice's registration finds her profile row and blocks. *)
Lemma registerClient_alice : registerClient 1%positive w_attached = Blocked w_alice.
Proof. vm_compute. reflexivity. Qed.

(** C1.  Alice attaches to room 1 and then sends a join_room frame for
    room 2.  Before the frame the registry is consistent.  The handler
    rewrites the room id of her client record and leaves the hub's maps
    alone: afterwards she is still in [clients], her record names room 2,
    the hub has no entry for room 2, and she is still listed in the set
    of room 1.  The registry is no longer consistent. *)
Theorem join_room_breaks_registry :
  world_of (registerClient 1%positive w_attached) = w_alice ∧
  registry_consistent w_alice ∧
  handleJoinRoom 1%positive join_room_2 w_alice = Done [] w_alice_joined ∧
  1%positive ∈ Hub.clients (hub w_alice_joined) ∧
  Client.RoomID <$> heap w_alice_joined !! 1%positive = Some 2 ∧
  Hub.rooms (hub w_alice_joined) !! 2 = None ∧
  Hub.rooms (hub w_alice_joined) !! 1 = Some {[1%positive]} ∧
  ¬ registry_consistent w_alice_joined.
Proof.
  split; [by rewrite registerClient_alice|].
  split.
  { intros client c Hin Hc. simpl in Hin.
    apply elem_of_singleton in Hin as ->.
    simpl in Hc. rewrite lookup_singleton_eq in Hc. injection Hc as <-.
    split; [|reflexivity].
    exists {[1%positive]}. split; [reflexivity|by apply elem_of_singleton]. }
  split; [vm_compute; reflexivity|].
  split; [reflexivity|].
  split; [reflexivity|].
  split; [reflexivity|].
  split; [reflexivity|].
  intros Hinv.
  destruct (Hinv 1%positive (Client.with_RoomID 2 conn_a)) as [(room & Hr & _) _].
  - reflexivity.
  - reflexivity.
  - discriminate Hr.
Qed.

(** What broadcasts see after a join_room frame when the hub is idle:
    Alice's record names room 2, a broadcast to room 1 still lands in her
    queue, and a broadcast to room 2 reaches no queue at all. *)
Lemma stale_index_observed :
  Client.RoomID <$>
    heap (world_of (handleJoinRoom 1%positive join_room_2 w_alice_idle)) !! 1%positive =
    Some 2 ∧
  Client.Send <$>
    heap (world_of
            (Run [Broadcast 1 hi; Broadcast 2 hi_room_2]
               (world_of (handleJoinRoom 1%positive join_room_2 w_alice_idle))))
      !! 1%positive =
    Some (Chan.mk [online_users_none; hi] false).
Proof. split; vm_compute; reflexivity. Qed.

(** C5.  Alice and Bob are registered in room 1 and the hub is idle.
    Unregistering Alice removes her from the maps and closes her queue,
    and then blocks on the read lock inside the user_left notification:
    the call does not return, Bob's queue is still empty, and a second
    unregister handed to the hub is never taken up.  The same from a
    fresh hub: after both registrations ran to their end, the unregister
    blocks and the only frame Bob ever got is his online_users list. *)
Theorem unregister_blocks_before_user_left :
  unregisterClient 1%positive w_ab = Blocked (unregistered 1%positive conn_a w_ab) ∧
  Hub.mutex (hub (unregistered 1%positive conn_a w_ab)) = Write ∧
  Hub.clients (hub (unregistered 1%positive conn_a w_ab)) = {[2%positive]} ∧
  heap (unregistered 1%positive conn_a w_ab) !! 2%positive = Some conn_b ∧
  Run [Unregister 1%positive; Unregister 1%positive] w_ab =
    Blocked (unregistered 1%positive conn_a w_ab) ∧
  Run [Register 1%positive; Register 2%positive;
       Unregister 1%positive; Unregister 1%positive] w_fresh =
    Blocked (world_of (Run [Register 1%positive; Register 2%positive;
                            Unregister 1%positive] w_fresh)) ∧
  Client.Send <$>
    heap (world_of (Run [Register 1%positive; Register 2%positive;
                         Unregister 1%positive] w_fresh)) !! 2%positive =
    Some (Chan.mk [online_users_none] false).
Proof.
  assert (H : unregisterClient 1%positive w_ab =
              Blocked (unregistered 1%positive conn_a w_ab)).
  { by apply unregisterClient_Blocked. }
  split; [exact H|].
  split; [reflexivity|].
  split; [vm_compute; reflexivity|].
  split; [reflexivity|].
  split; [unfold Run; simpl for_each; apply bind_Blocked; exact H|].
  split; vm_compute; reflexivity.
Qed.

(** C6.  Alice is alone in room 1 and her queue is full.  A broadcast to
    room 1 evicts her and returns, leaving room 1 indexed with an empty
    set.  The same from a fresh hub: Alice is registered, her writer
    never runs, and 256 chat frames are broadcast to room 1; the last one
    finds the queue full. *)
Theorem eviction_leaves_empty_room :
  no_empty_rooms (hub w_a_stalled) ∧
  broadcastToRoom 1 hi w_a_stalled =
    Done tt (world_of (broadcastToRoom 1 hi w_a_stalled)) ∧
  Hub.rooms (hub (world_of (broadcastToRoom 1 hi w_a_stalled))) !! 1 = Some ∅ ∧
  ¬ no_empty_rooms (hub (world_of (broadcastToRoom 1 hi w_a_stalled))) ∧
  Run (Register 1%positive :: replicate 256 (Broadcast 1 hi)) w_fresh =
    Done tt (world_of (Run (Register 1%positive :: replicate 256 (Broadcast 1 hi))
                         w_fresh)) ∧
  Hub.rooms (hub (world_of (Run (Register 1%positive ::
                                 replicate 256 (Broadcast 1 hi)) w_fresh))) !! 1 =
    Some ∅.
Proof.
  split.
  { intros r room Hr. simpl in Hr.
    destruct (decide (r = 1)) as [->|Hne].
    - rewrite lookup_singleton_eq in Hr. injection Hr as <-.
      apply non_empty_singleton_L.
    - by rewrite lookup_singleton_ne in Hr. }
  assert (Hrooms :
    Hub.rooms (hub (world_of (broadcastToRoom 1 hi w_a_stalled))) !! 1 = Some ∅).
  { vm_compute. reflexivity. }
  split; [vm_compute; reflexivity|].
  split; [exact Hrooms|].
  split; [intros Hinv; by apply (Hinv 1 ∅ Hrooms)|].
  split; vm_compute; reflexivity.
Qed.

(** C2, counterexample.  Alice (user 7) is registered through client 1
    and [users] maps 7 to it.  Registering her second client, 3, leaves
    both clients in [clients]: two registered connections carry user id 7.
    Client 1 is untouched, its queue is open and empty, so it was neither
    unregistered nor was a user_left frame sent.  The same from a fresh
    hub: both registrations run to their end, both clients are
    registered, and the only frame client 1 got is its own online_users
    list. *)
Lemma duplicate_attach_keeps_both :
  Hub.users (hub w_second_attach) !! 7 = Some 1%positive ∧
  Client.UserID conn_a2 = 7 ∧
  1%positive ∈ Hub.clients (hub (world_of (registerClient 3%positive w_second_attach))) ∧
  3%positive ∈ Hub.clients (hub (world_of (registerClient 3%positive w_second_attach))) ∧
  heap (world_of (registerClient 3%positive w_second_attach)) !! 1%positive =
    Some conn_a ∧
  Client.UserID conn_a = 7 ∧
  Client.Send conn_a = Chan.mk [] false ∧
  Hub.rooms (hub (world_of (registerClient 3%positive w_second_attach))) !! 1 =
    Some {[1%positive]} ∧
  Run [Register 1%positive; Register 3%positive] w_fresh_twice =
    Done tt (world_of (Run [Register 1%positive; Register 3%positive]
                         w_fresh_twice)) ∧
  Hub.clients (hub (world_of (Run [Register 1%positive; Register 3%positive]
                                w_fresh_twice))) =
    {[1%positive; 3%positive]} ∧
  Client.Send <$>
    heap (world_of (Run [Register 1%positive; Register 3%positive]
                      w_fresh_twice)) !! 1%positive =
    Some (Chan.mk [online_users_none] false).
Proof. repeat split; vm_compute; reflexivity. Qed.

(** C3, the failing run.  Alice and Bob are in room 1 and Alice's queue
    is full.  The broadcast of one chat frame returns with Alice evicted
    from [clients]; Bob's queue holds that chat frame and nothing else,
    so no user_left frame was broadcast, and [users] still maps Alice's
    user id to the evicted client.  When the hub then takes the
    unregistration of Alice's client from her reader, nothing changes:
    Bob is never told that Alice left. *)
Lemma slow_consumer_evicted_silently :
  Chan.full (Client.Send conn_a_stalled) = true ∧
  Run [Broadcast 1 hi; Unregister 1%positive] w_ab_stalled =
    Done tt (world_of (broadcastToRoom 1 hi w_ab_stalled)) ∧
  broadcastToRoom 1 hi w_ab_stalled =
    Done tt (world_of (broadcastToRoom 1 hi w_ab_stalled)) ∧
  1%positive ∉ Hub.clients (hub (world_of (broadcastToRoom 1 hi w_ab_stalled))) ∧
  Client.Send <$> heap (world_of (broadcastToRoom 1 hi w_ab_stalled)) !! 2%positive =
    Some (Chan.mk [hi] false) ∧
  ¬ (∃ c m, heap (world_of (broadcastToRoom 1 hi w_ab_stalled)) !! 2%positive = Some c ∧
            m ∈ Chan.buf (Client.Send c) ∧
            WebSocketMessage.Type_ m = "user_left") ∧
  Hub.users (hub (world_of (broadcastToRoom 1 hi w_ab_stalled))) !! 7 =
    Some 1%positive.
Proof.
  assert (Hbob :
    heap (world_of (broadcastToRoom 1 hi w_ab_stalled)) !! 2%positive =
    Some (Client.with_Send (Chan.mk [hi] false) conn_b)).
  { vm_compute. reflexivity. }
  split; [vm_compute; reflexivity|].
  split; [vm_compute; reflexivity|].
  split; [vm_compute; reflexivity|].
  split; [intros Hin; vm_compute in Hin; discriminate Hin|].
  split; [by rewrite Hbob|].
  split; [|vm_compute; reflexivity].
  intros (c & m & Hc & Hm & Ht). rewrite Hbob in Hc. injection Hc as <-.
  simpl in Hm. apply list_elem_of_singleton in Hm as ->. discriminate Ht.
Qed.

(** C4, counterexample.  Alice is a member of room 1 and sends a message
    frame with empty content.  The handler inserts a record with empty
    content, pushes it on the cache list of room 1 and hands the hub a
    message frame; when the hub takes it up, the frame lands in Bob's
    queue. *)
Lemma empty_message_is_ingested :
  WebSocketMessage.Content empty_message = "" ∧
  handleChatMessage 1%positive empty_message w_cached =
    Done [Broadcast 1
            (WebSocketMessage.mk "message" 1 ""
               (MessageData (Message.mk 1 1 7 MessageTypeText "" 100)))]
         (world_of (handleChatMessage 1%positive empty_message w_cached)) ∧
  DB.Messages (db (world_of (handleChatMessage 1%positive empty_message w_cached))) =
    [Message.mk 1 1 7 MessageTypeText "" 100] ∧
  (Redis.RoomMessages <$>
     RedisClient (world_of (handleChatMessage 1%positive empty_message w_cached))) =
    Some {[1 := [MessageData (Message.mk 1 1 7 MessageTypeText "" 100)]]} ∧
  (Client.Send <$>
     heap (world_of
             (Run_step
                (Broadcast 1
                   (WebSocketMessage.mk "message" 1 ""
                      (MessageData (Message.mk 1 1 7 MessageTypeText "" 100))))
                (world_of (handleChatMessage 1%positive empty_message w_cached))))
       !! 2%positive) =
    Some (Chan.mk
            [WebSocketMessage.mk "message" 1 ""
               (MessageData (Message.mk 1 1 7 MessageTypeText "" 100))] false).
Proof. repeat split; vm_compute; reflexivity. Qed.

(** C8, counterexample.  A request with an empty room_id, which is no
    unsigned integer ([ParseUint] refuses the empty string), is not
    answered with 400: the client is built for room 1 and handed to the
    hub.  A request with room_id=4294967296, which is an unsigned
    integer, is answered with 400 and nothing is built. *)
Lemma empty_room_id_is_attached :
  room_id_param req_empty = Some "" ∧
  (ParseUint "").2 = failure ∧
  HandleWebSocket req_empty w_idle = attached req_empty 7 1 w_idle ∧
  all_digits "4294967296" = true ∧
  decimal "4294967296" 0 = 4294967296 ∧
  HandleWebSocket req_big w_idle = Done (StatusBadRequest, []) w_idle.
Proof. repeat split; vm_compute; reflexivity. Qed.

(** An identifier from 2^53 on may not survive the listing: the presence
    entry of user 2^53 + 1 is read back as user 2^53. *)
Lemma presence_rounds_large_ids :
  float64 9007199254740993 = 9007199254740992 ∧
  (GetOnlineUsers 2 w_cached).1 = [8] ∧
  (GetOnlineUsers 2 (SetUserOnline 9007199254740993 2 w_cached).2).1 =
    [8; 9007199254740992].
Proof. repeat split; vm_compute; reflexivity. Qed.

(** ** The general statements at the scenarios *)

(** C7 at the scenario of the stranger: user 9 sends a chat frame. *)
Lemma handleChatMessage_non_member_witness :
  heap w_stranger !! 4%positive = Some conn_c ∧
  handleChatMessage 4%positive stranger_message w_stranger = Done [] w_stranger.
Proof.
  split; [reflexivity|].
  apply (handleChatMessage_non_member 4%positive conn_c); [reflexivity|].
  intros m Hm [_ Hu]. simpl in Hm.
  apply elem_of_cons in Hm as [->|Hm]; [discriminate Hu|].
  apply list_elem_of_singleton in Hm as ->. discriminate Hu.
Defined.

(** C9 at a join_room frame for room 5, which does not exist. *)
Lemma handleJoinRoom_rejected_witness :
  5 ∉ DB.Rooms (db w_ab) ∧
  handleJoinRoom 1%positive join_room_5 w_ab = Done [] w_ab.
Proof.
  assert (H : 5 ∉ DB.Rooms (db w_ab)).
  { intros Hin. vm_compute in Hin. discriminate Hin. }
  split; [exact H|].
  apply (handleJoinRoom_rejected 1%positive join_room_5 w_ab). right. exact H.
Defined.

(** C10 without a cache client, and with the cache that knows Alice in
    room 1 and Bob in room 2. *)
Lemma GetOnlineUsers_exact_witness :
  GetOnlineUsers 1 w_ab = ([], nil) ∧
  (GetOnlineUsers 1 w_cached).2 = nil ∧
  ∀ u, u ∈ (GetOnlineUsers 1 w_cached).1 ↔
       ∃ key fields,
         Redis.Online cache0 !! key = Some (Object fields) ∧
         fields !! "room_id" = Some (JNumber 1) ∧
         fields !! "user_id" = Some (JNumber u).
Proof.
  split.
  - apply (proj1 (GetOnlineUsers_exact 1 w_ab)). reflexivity.
  - apply (proj2 (GetOnlineUsers_exact 1 w_cached) cache0); reflexivity.
Defined.

(** C8 at three requests of user 7 on an idle hub (no room_id,
    room_id=abc and room_id=42), and at the last of them while the hub
    is stopped in Alice's registration. *)
Lemma HandleWebSocket_room_id_witness :
  HandleWebSocket req_default w_idle = attached req_default 7 1 w_idle ∧
  HandleWebSocket req_bad w_idle = Done (StatusBadRequest, []) w_idle ∧
  HandleWebSocket req_42 w_idle = attached req_42 7 42 w_idle ∧
  ∃ w', HandleWebSocket req_42 w_alice = Blocked w'.
Proof.
  split; [|split; [|split]].
  - apply (proj1 (HandleWebSocket_room_id req_default 7 w_idle eq_refl));
      reflexivity.
  - exact (HandleWebSocket_room_id req_bad 7 w_idle eq_refl).
  - apply (proj1 (HandleWebSocket_room_id req_42 7 w_idle eq_refl));
      reflexivity.
  - eexists.
    apply (proj1 (proj2 (HandleWebSocket_room_id req_42 7 w_alice eq_refl)));
      [reflexivity|discriminate].
Defined.

(** C4 at Alice's frame with empty content, and at her frame with a NUL
    byte on a store that refuses it. *)
Lemma handleChatMessage_any_content_witness :
  (∃ w',
     handleChatMessage 1%positive empty_message w_cached =
       Done [Broadcast 1
               (WebSocketMessage.mk "message" 1 ""
                  (MessageData (chat_record conn_a empty_message w_cached)))] w' ∧
     DB.Messages (db w') =
       DB.Messages (db w_cached) ++ [chat_record conn_a empty_message w_cached]) ∧
  handleChatMessage 1%positive nul_message w_strict = Done [] w_strict.
Proof.
  split.
  - destruct (handleChatMessage_any_content 1%positive conn_a empty_message
                w_cached (RoomMember.mk 1 7 "member" 0) eq_refl eq_refl)
      as (_ & Htaken & _).
    destruct (Htaken eq_refl) as (w' & H1 & H2 & _).
    exists w'. split; [exact H1|exact H2].
  - apply (handleChatMessage_any_content 1%positive conn_a nul_message
             w_strict (RoomMember.mk 1 7 "member" 0) eq_refl eq_refl).
    reflexivity.
Defined.

(** C2 at Alice's second attach. *)
Lemma registerClient_keeps_older_witness :
  Hub.users (hub (world_of (registerClient 3%positive w_second_attach))) !! 7 =
    Some 3%positive ∧
  heap (world_of (registerClient 3%positive w_second_attach)) !! 1%positive =
    heap w_second_attach !! 1%positive ∧
  ∃ c', {[1%positive; 3%positive]} ⊆
          Hub.clients (hub (world_of (registerClient 3%positive w_second_attach))) ∧
        heap (world_of (registerClient 3%positive w_second_attach)) !! 1%positive =
          Some conn_a ∧
        heap (world_of (registerClient 3%positive w_second_attach)) !! 3%positive =
          Some c' ∧
        Client.UserID conn_a = Client.UserID c'.
Proof.
  destruct (registerClient_keeps_older 3%positive conn_a2 1%positive
              w_second_attach eq_refl eq_refl eq_refl)
    as (H1 & _ & _ & _ & _ & _ & H7 & H8); [discriminate|].
  split; [exact H1|]. split; [exact H7|].
  apply H8; [|reflexivity|reflexivity].
  vm_compute. reflexivity.
Defined.

(** C3 at the broadcast to room 1 while Alice's writer is stalled. *)
Lemma broadcastToRoom_evicts_silently_witness :
  ∃ w' room',
    broadcastToRoom 1 hi w_ab_stalled = Done tt w' ∧
    Hub.rooms (hub w') !! 1 = Some room' ∧
    Hub.users (hub w') = Hub.users (hub w_ab_stalled).
Proof.
  destruct (broadcastToRoom_evicts_silently 1 hi w_ab_stalled
              {[1%positive; 2%positive]} eq_refl eq_refl)
    as (w' & room' & H1 & H2 & _ & _ & H5 & _).
  - intros x Hx. apply elem_of_union in Hx as [Hx|Hx];
      apply elem_of_singleton in Hx as ->; eexists; split; reflexivity.
  - exists w', room'. split; [exact H1|]. split; [exact H2|exact H5].
Defined.

(** * What the hub goroutine keeps, whatever it is handed

    The statements below hold for every outcome of a hub function: for
    the state it returns in, and for the state it is left in when it
    blocks or panics. *)

(** ** Sequencing *)

Lemma world_of_bind {A B} (I : World → Prop) (m : M A) (k : A → M B) :
  (∀ w, I w → I (world_of (m w))) →
  (∀ a w, I w → I (world_of (k a w))) →
  ∀ w, I w → I (world_of (bind m k w)).
Proof.
  intros Hm Hk w Hw. unfold bind. specialize (Hm w Hw).
  destruct (m w) as [a w1|w1|w1]; simpl in *; [by apply Hk|done|done].
Qed.

Lemma world_of_for_each {A} (I : World → Prop) (body : A → M unit) :
  (∀ x w, I w → I (world_of (body x w))) →
  ∀ l w, I w → I (world_of (for_each l body w)).
Proof.
  intros Hbody l. induction l as [|x l IH]; intros w Hw; [done|].
  simpl for_each. apply world_of_bind; [apply Hbody|intros _; apply IH|done].
Qed.

(** The four operations on the mutex touch nothing but the mutex. *)
Lemma mutex_frame (op : M unit) w :
  op = Lock ∨ op = Unlock ∨ op = RLock ∨ op = RUnlock →
  Hub.clients (hub (world_of (op w))) = Hub.clients (hub w) ∧
  Hub.rooms (hub (world_of (op w))) = Hub.rooms (hub w) ∧
  Hub.users (hub (world_of (op w))) = Hub.users (hub w) ∧
  heap (world_of (op w)) = heap w.
Proof.
  intros [ -> | [ -> | [ -> | -> ] ] ]; unfold Lock, Unlock, RLock, RUnlock;
    destruct (Hub.mutex (hub w)) as [| |n]; try done; by destruct n.
Qed.

(** ** The room index *)

Lemma indexed_mutex (op : M unit) w :
  op = Lock ∨ op = Unlock ∨ op = RLock ∨ op = RUnlock →
  indexed w → indexed (world_of (op w)).
Proof.
  intros Hop Hinv x. destruct (mutex_frame op w Hop) as (-> & -> & _ & ->).
  apply Hinv.
Qed.

(** Rewriting the queue of a client does not move it in the index. *)
Lemma indexed_store_Send x c ch w :
  heap w !! x = Some c →
  indexed w → indexed (with_heap (<[x := Client.with_Send ch c]> (heap w)) w).
Proof.
  intros Hc Hinv y Hy. simpl in *.
  destruct (Hinv y Hy) as (cy & room & Hcy & Hr & Hin).
  destruct (decide (x = y)) as [->|Hne].
  - exists (Client.with_Send ch c), room. rewrite lookup_insert_eq.
    rewrite Hc in Hcy. injection Hcy as ->. done.
  - exists cy, room. by rewrite lookup_insert_ne.
Qed.

Lemma indexed_evict roomID x w :
  indexed w → indexed (with_hub (evict roomID x (hub w)) w).
Proof.
  intros Hinv y. unfold evict. simpl.
  intros [Hy Hne]%elem_of_difference.
  destruct (Hinv y Hy) as (cy & room & Hcy & Hr & Hin).
  exists cy. destruct (decide (roomID = Client.RoomID cy)) as [->|Hr'].
  - exists (room ∖ {[x]}). rewrite lookup_alter_eq, Hr.
    split; [done|]. split; [done|]. by apply elem_of_difference.
  - exists room. by rewrite lookup_alter_ne.
Qed.

Lemma enqueue_or_evict_indexed roomID message x w :
  indexed w → indexed (world_of (enqueue_or_evict roomID message x w)).
Proof.
  intros Hinv. unfold enqueue_or_evict, bind, deref.
  destruct (heap w !! x) as [c|] eqn:Hc; [|done].
  destruct (Chan.try_send message (Client.Send c)) as [ch| |]; [| |done].
  - by apply indexed_store_Send.
  - destruct (Chan.close (Client.Send c)) as [ch|]; [|done].
    simpl. apply (indexed_evict roomID x
      (with_heap (<[x := Client.with_Send ch c]> (heap w)) w)).
    by apply indexed_store_Send.
Qed.

Lemma broadcastToRoom_indexed roomID message w :
  indexed w → indexed (world_of (broadcastToRoom roomID message w)).
Proof.
  revert w. unfold broadcastToRoom.
  apply world_of_bind; [intros w; apply indexed_mutex; auto|].
  intros _ w Hw. unfold bind at 1, get.
  destruct (Hub.rooms (hub w) !! roomID) as [room|].
  - revert w Hw. apply world_of_bind.
    + apply world_of_for_each. intros x w. apply enqueue_or_evict_indexed.
    + intros _ w; apply indexed_mutex; auto.
  - revert w Hw. apply world_of_bind; [done|].
    intros _ w; apply indexed_mutex; auto.
Qed.

Lemma indexed_same w w' :
  hub w' = hub w → heap w' = heap w → indexed w → indexed w'.
Proof. intros Hh Hp Hinv x. rewrite Hh, Hp. apply Hinv. Qed.

Lemma sendOnlineUsers_indexed client w :
  indexed w → indexed (world_of (sendOnlineUsers client w)).
Proof.
  intros Hinv. unfold sendOnlineUsers, bind, deref, get.
  destruct (heap w !! client) as [c|] eqn:Hc; [|done].
  destruct (GetOnlineUsers (Client.RoomID c) w) as [onlineUsers []]; [|done].
  destruct (Chan.try_send _ _) as [ch| |]; [| |done].
  - by apply indexed_store_Send.
  - destruct (Chan.close _) as [ch|]; [|done]. by apply indexed_store_Send.
Qed.

Lemma notifyUserJoined_indexed client w :
  indexed w → indexed (world_of (notifyUserJoined client w)).
Proof.
  intros Hinv. unfold notifyUserJoined, bind at 1, deref.
  destruct (heap w !! client) as [c|]; [|done].
  unfold bind at 1, get. destruct (DB.FirstUser _ _); [|done].
  by apply broadcastToRoom_indexed.
Qed.

Lemma notifyUserLeft_indexed client w :
  indexed w → indexed (world_of (notifyUserLeft client w)).
Proof.
  intros Hinv. unfold notifyUserLeft, bind at 1, deref.
  destruct (heap w !! client) as [c|]; [|done].
  by apply broadcastToRoom_indexed.
Qed.

Lemma registerClient_indexed client w :
  indexed w → indexed (world_of (registerClient client w)).
Proof.
  revert w. unfold registerClient.
  apply world_of_bind; [intros w; apply indexed_mutex; auto|].
  intros _ w Hw. unfold bind at 1, deref.
  destruct (heap w !! client) as [c|] eqn:Hc; [|done].
  unfold bind at 1, modify_hub, modify at 1.
  pose proof (index_client_indexed client c w Hc Hw) as Hw1.
  revert Hw1. generalize (with_hub (index_client client c (hub w)) w).
  clear w Hw Hc. intros w Hw. revert w Hw.
  apply world_of_bind.
  { intros w. unfold ignore_error, modify. simpl.
    destruct (SetUserOnline_registry (Client.UserID c) (Client.RoomID c) w)
      as (Hh & Hp & _). by apply indexed_same. }
  intros _. apply world_of_bind.
  { intros w. unfold modify. simpl.
    destruct (UpdateOnline_registry (Client.UserID c) w) as [Hh Hp].
    by apply indexed_same. }
  intros _. apply world_of_bind; [apply notifyUserJoined_indexed|].
  intros _. apply world_of_bind; [apply sendOnlineUsers_indexed|].
  intros _ w. apply indexed_mutex. auto.
Qed.

Lemma close_Send_indexed client w :
  indexed w → indexed (world_of (close_Send client w)).
Proof.
  intros Hinv. unfold close_Send, bind, deref.
  destruct (heap w !! client) as [c|] eqn:Hc; [|done].
  destruct (Chan.close _) as [ch|]; [|done]. by apply indexed_store_Send.
Qed.

Lemma unregisterClient_indexed client w :
  indexed w → indexed (world_of (unregisterClient client w)).
Proof.
  revert w. unfold unregisterClient.
  apply world_of_bind; [intros w; apply indexed_mutex; auto|].
  intros _ w Hw. unfold bind at 1, get.
  revert w Hw. intros w0.
  generalize (bool_decide (client ∈ Hub.clients (hub w0))). intros b.
  revert w0. apply world_of_bind; [|intros _ w; apply indexed_mutex; auto].
  destruct b; [|done]. intros w Hw.
  unfold bind at 1, deref.
  destruct (heap w !! client) as [c|] eqn:Hc; [|done].
  unfold bind at 1, modify_hub, modify at 1.
  pose proof (unindex_client_indexed client c w Hc Hw) as Hw1.
  revert Hw1. generalize (with_hub (unindex_client client c (hub w)) w).
  clear w Hw Hc. intros w Hw. revert w Hw.
  apply world_of_bind; [apply close_Send_indexed|].
  intros _. apply world_of_bind.
  { intros w. unfold ignore_error, modify. simpl.
    destruct (SetUserOffline_registry (Client.UserID c) w) as (Hh & Hp & _).
    by apply indexed_same. }
  intros _. apply world_of_bind.
  { intros w. unfold modify. simpl.
    destruct (UpdateOffline_registry (Client.UserID c) w) as [Hh Hp].
    by apply indexed_same. }
  intros _. apply notifyUserLeft_indexed.
Qed.

(** X1.  Whatever commands the hub goroutine is handed, and however each
    of them ends, every client in [clients] stays in the set of the room
    its record names: if that holds of a state, it holds of the state
    [Run] leaves. *)
Theorem Run_keeps_index cmds w :
  indexed w → indexed (world_of (Run cmds w)).
Proof.
  revert w. unfold Run. apply world_of_for_each. intros [c|c|r m] w.
  - apply registerClient_indexed.
  - apply unregisterClient_indexed.
  - apply broadcastToRoom_indexed.
Qed.

(** ** Properties of the heap alone

    The hub functions write to the heap in two ways only: they replace
    the queue of a client by the result of a successful send, or by the
    result of a successful close.  A property of states that looks at the
    heap only and survives these two writes survives every hub command. *)

Section HeapInvariant.

Variable I : World → Prop.

Hypothesis I_heap : ∀ w w', heap w' = heap w → I w → I w'.

Hypothesis I_send : ∀ w x c v ch,
  heap w !! x = Some c →
  Chan.try_send v (Client.Send c) = Chan.Sent ch →
  I w → I (with_heap (<[x := Client.with_Send ch c]> (heap w)) w).

Hypothesis I_close : ∀ w x c ch,
  heap w !! x = Some c →
  Chan.close (Client.Send c) = Some ch →
  I w → I (with_heap (<[x := Client.with_Send ch c]> (heap w)) w).

Lemma heap_inv_mutex (op : M unit) w :
  op = Lock ∨ op = Unlock ∨ op = RLock ∨ op = RUnlock →
  I w → I (world_of (op w)).
Proof.
  intros Hop. destruct (mutex_frame op w Hop) as (_ & _ & _ & Hp).
  by apply I_heap.
Qed.

Lemma heap_inv_modify_hub f w : I w → I (world_of (modify_hub f w)).
Proof. by apply I_heap. Qed.

Lemma heap_inv_enqueue_or_evict roomID message x w :
  I w → I (world_of (enqueue_or_evict roomID message x w)).
Proof.
  intros Hinv. unfold enqueue_or_evict, bind, deref.
  destruct (heap w !! x) as [c|] eqn:Hc; [|done].
  destruct (Chan.try_send message (Client.Send c)) as [ch| |] eqn:Hs;
    [| |done].
  - by apply (I_send w x c message ch).
  - destruct (Chan.close (Client.Send c)) as [ch|] eqn:Hcl; [|done].
    simpl. eapply I_heap; [|by apply (I_close w x c ch)]. done.
Qed.

Lemma heap_inv_broadcastToRoom roomID message w :
  I w → I (world_of (broadcastToRoom roomID message w)).
Proof.
  revert w. unfold broadcastToRoom.
  apply world_of_bind; [intros w; apply heap_inv_mutex; auto|].
  intros _ w Hw. unfold bind at 1, get.
  destruct (Hub.rooms (hub w) !! roomID) as [room|].
  - revert w Hw. apply world_of_bind.
    + apply world_of_for_each. intros x w. apply heap_inv_enqueue_or_evict.
    + intros _ w; apply heap_inv_mutex; auto.
  - revert w Hw. apply world_of_bind; [done|].
    intros _ w; apply heap_inv_mutex; auto.
Qed.

Lemma heap_inv_sendOnlineUsers client w :
  I w → I (world_of (sendOnlineUsers client w)).
Proof.
  intros Hinv. unfold sendOnlineUsers, bind, deref, get.
  destruct (heap w !! client) as [c|] eqn:Hc; [|done].
  destruct (GetOnlineUsers (Client.RoomID c) w) as [onlineUsers []]; [|done].
  destruct (Chan.try_send _ _) as [ch| |] eqn:Hs; [| |done].
  - by eapply I_send.
  - destruct (Chan.close _) as [ch|] eqn:Hcl; [|done].
    by apply (I_close w client c ch).
Qed.

Lemma heap_inv_registerClient client w :
  I w → I (world_of (registerClient client w)).
Proof.
  revert w. unfold registerClient.
  apply world_of_bind; [intros w; apply heap_inv_mutex; auto|].
  intros _ w Hw. unfold bind at 1, deref.
  destruct (heap w !! client) as [c|] eqn:Hc; [|done].
  revert w Hw Hc. intros w Hw _. revert w Hw.
  apply world_of_bind; [intros w; apply heap_inv_modify_hub|].
  intros _. apply world_of_bind.
  { intros w. unfold ignore_error, modify. simpl.
    destruct (SetUserOnline_registry (Client.UserID c) (Client.RoomID c) w)
      as (_ & Hp & _). by apply I_heap. }
  intros _. apply world_of_bind.
  { intros w. unfold modify. simpl.
    destruct (UpdateOnline_registry (Client.UserID c) w) as [_ Hp].
    by apply I_heap. }
  intros _. apply world_of_bind.
  { intros w Hw. unfold notifyUserJoined, bind at 1, deref.
    destruct (heap w !! client) as [c'|]; [|done].
    unfold bind at 1, get. destruct (DB.FirstUser _ _); [|done].
    by apply heap_inv_broadcastToRoom. }
  intros _. apply world_of_bind; [apply heap_inv_sendOnlineUsers|].
  intros _ w. apply heap_inv_mutex. auto.
Qed.

Lemma heap_inv_unregisterClient client w :
  I w → I (world_of (unregisterClient client w)).
Proof.
  revert w. unfold unregisterClient.
  apply world_of_bind; [intros w; apply heap_inv_mutex; auto|].
  intros _ w Hw. unfold bind at 1, get.
  revert w Hw. intros w0.
  generalize (bool_decide (client ∈ Hub.clients (hub w0))). intros b.
  revert w0. apply world_of_bind; [|intros _ w; apply heap_inv_mutex; auto].
  destruct b; [|done]. intros w Hw.
  unfold bind at 1, deref.
  destruct (heap w !! client) as [c|] eqn:Hc; [|done].
  revert w Hw Hc. intros w Hw _. revert w Hw.
  apply world_of_bind; [intros w; apply heap_inv_modify_hub|].
  intros _. apply world_of_bind.
  { intros w Hw. unfold close_Send, bind, deref.
    destruct (heap w !! client) as [c'|] eqn:Hc'; [|done].
    destruct (Chan.close _) as [ch|] eqn:Hcl; [|done].
    by apply (I_close w client c' ch). }
  intros _. apply world_of_bind.
  { intros w. unfold ignore_error, modify. simpl.
    destruct (SetUserOffline_registry (Client.UserID c) w) as (_ & Hp & _).
    by apply I_heap. }
  intros _. apply world_of_bind.
  { intros w. unfold modify. simpl.
    destruct (UpdateOffline_registry (Client.UserID c) w) as [_ Hp].
    by apply I_heap. }
  intros _ w Hw. unfold notifyUserLeft, bind at 1, deref.
  destruct (heap w !! client) as [c'|]; [|done].
  by apply heap_inv_broadcastToRoom.
Qed.

Lemma heap_inv_Run cmds w : I w → I (world_of (Run cmds w)).
Proof.
  revert w. unfold Run. apply world_of_for_each. intros [c|c|r m] w.
  - apply heap_inv_registerClient.
  - apply heap_inv_unregisterClient.
  - apply heap_inv_broadcastToRoom.
Qed.

End HeapInvariant.

(** ** The queue bound *)

Lemma try_send_Sent v ch ch' :
  Chan.try_send v ch = Chan.Sent ch' →
  Chan.closed ch = false ∧ (length (Chan.buf ch) < Chan.capacity)%nat ∧
  ch' = Chan.mk (Chan.buf ch ++ [v]) false.
Proof.
  unfold Chan.try_send. destruct (Chan.closed ch); [done|].
  case_bool_decide; [|done]. by intros [= <-].
Qed.

Lemma close_Some ch ch' :
  Chan.close ch = Some ch' →
  Chan.closed ch = false ∧ ch' = Chan.mk (Chan.buf ch) true.
Proof.
  unfold Chan.close. destruct (Chan.closed ch); [done|]. by intros [= <-].
Qed.

Lemma bounded_store x c' w :
  (length (Chan.buf (Client.Send c')) ≤ Chan.capacity)%nat →
  bounded w → bounded (with_heap (<[x := c']> (heap w)) w).
Proof.
  intros Hlen Hinv y cy. simpl. destruct (decide (x = y)) as [->|Hne].
  - rewrite lookup_insert_eq. by intros [= <-].
  - rewrite lookup_insert_ne by done. apply Hinv.
Qed.

(** The reader side: whatever frame arrives, the handlers leave the hub
    alone and write at most the room id of their own client. *)
Lemma handleMessage_effect client wsMessage w :
  reader_step client w (world_of (handleMessage client wsMessage w)).
Proof.
  assert (Hid : ∀ w' : World, hub w' = hub w → heap w' = heap w →
                              reader_step client w w').
  { intros w' Hh Hp. split; [done|]. split; [by rewrite Hp|].
    intros x c Hx. exists c. by rewrite Hp. }
  unfold handleMessage.
  destruct (String.eqb _ "message"); [|destruct (String.eqb _ "join_room");
    [|destruct (String.eqb _ "leave_room")]].
  - unfold handleChatMessage, bind at 1, deref.
    destruct (heap w !! client) as [c|] eqn:Hc; [|simpl; by apply Hid].
    unfold bind at 1, get.
    destruct (DB.FirstRoomMember _ _ _); [|simpl; by apply Hid].
    destruct (CreateMessage _ w) as [[message w1]|] eqn:Hcm; [|simpl; by apply Hid].
    unfold bind, modify, ignore_error, ret. simpl.
    unfold CreateMessage in Hcm. destruct (_ && _) in Hcm; [|done].
    injection Hcm as _ <-.
    apply Hid; unfold CacheMessage; simpl;
      (destruct (RedisClient w) as [r|]; [destruct (Redis.Reachable r)|]; done).
  - unfold handleJoinRoom.
    destruct (WebSocketMessage.RoomID wsMessage =? 0); [by apply Hid|].
    unfold bind at 1, get.
    destruct (DB.FirstRoom _ _); simpl; [|simpl; by apply Hid].
    unfold bind at 1, deref.
    destruct (heap w !! client) as [c|] eqn:Hc; [|simpl; by apply Hid].
    assert (Hfin : ∀ w1, hub w1 = hub w → heap w1 = heap w →
      reader_step client w
        (SetUserOnline (Client.UserID c) (WebSocketMessage.RoomID wsMessage)
           (with_heap (<[client := Client.with_RoomID
                                     (WebSocketMessage.RoomID wsMessage) c]>
                         (heap w1)) w1)).2).
    { intros w1 Hh1 Hp1. unfold reader_step.
      match goal with |- context [SetUserOnline ?u ?r ?x] =>
        destruct (SetUserOnline_registry u r x) as (-> & -> & _) end.
      simpl. rewrite Hh1, Hp1. split; [done|]. split.
      { rewrite dom_insert_L.
        assert (client ∈ dom (heap w)) by (apply elem_of_dom; by eexists).
        set_solver. }
      intros x cx Hx.
      destruct (decide (client = x)) as [<-|Hne].
      - rewrite lookup_insert_eq. eexists. split; [done|].
        rewrite Hc in Hx. injection Hx as <-. done.
      - rewrite lookup_insert_ne by done. by exists cx. }
    destruct (DB.FirstRoomMember _ _ _).
    + by apply (Hfin w).
    + apply (Hfin (CreateRoomMember _ w));
        unfold CreateRoomMember; by destruct (DB.Up (db w)).
  - unfold handleLeaveRoom, bind at 1, deref.
    destruct (heap w !! client) as [c|] eqn:Hc; [|simpl; by apply Hid].
    unfold bind, ignore_error, modify, ret. simpl.
    destruct (SetUserOffline_registry (Client.UserID c) w) as (Hh & Hp & _).
    by apply Hid.
  - by apply Hid.
Qed.

Lemma bounded_send w x c v ch :
  heap w !! x = Some c →
  Chan.try_send v (Client.Send c) = Chan.Sent ch →
  bounded w → bounded (with_heap (<[x := Client.with_Send ch c]> (heap w)) w).
Proof.
  intros Hc (_ & Hlt & ->)%try_send_Sent Hinv. apply bounded_store; [|done].
  simpl. rewrite length_app. simpl. lia.
Qed.

Lemma bounded_close w x c ch :
  heap w !! x = Some c →
  Chan.close (Client.Send c) = Some ch →
  bounded w → bounded (with_heap (<[x := Client.with_Send ch c]> (heap w)) w).
Proof.
  intros Hc (_ & ->)%close_Some Hinv. apply bounded_store; [|done].
  simpl. by apply (Hinv x).
Qed.

Lemma bounded_heap w w' : heap w' = heap w → bounded w → bounded w'.
Proof. intros Hp Hinv x c. rewrite Hp. apply Hinv. Qed.

Lemma reader_step_refl client w : reader_step client w w.
Proof. split; [done|]. split; [done|]. intros x c Hx. by exists c. Qed.

Lemma reader_step_trans client w1 w2 w3 :
  reader_step client w1 w2 → reader_step client w2 w3 →
  reader_step client w1 w3.
Proof.
  intros (Hh1 & Hd1 & H1) (Hh2 & Hd2 & H2). split; [congruence|].
  split; [congruence|]. intros x c Hx.
  destruct (H1 x c Hx) as (c1 & Hx1 & ? & ? & ? & Hs1).
  destruct (H2 x c1 Hx1) as (c2 & Hx2 & ? & ? & ? & Hs2).
  exists c2. repeat split; try congruence.
  intros Hne. rewrite (Hs2 Hne). by apply Hs1.
Qed.

Lemma reader_step_bounded client w w' :
  reader_step client w w' → bounded w → bounded w'.
Proof.
  intros (_ & Hdom & Hstep) Hinv x c' Hx'.
  assert (Hx0 : x ∈ dom (heap w)).
  { rewrite <- Hdom. apply elem_of_dom. by eexists. }
  apply elem_of_dom in Hx0 as [c Hx].
  destruct (Hstep x c Hx) as (c1 & Hx1 & _ & _ & Hs & _).
  rewrite Hx' in Hx1. injection Hx1 as <-. rewrite Hs. by apply (Hinv x).
Qed.

(** A handler answers a frame whenever the reader's client exists. *)
Lemma handleMessage_Done client c wsMessage w :
  heap w !! client = Some c →
  ∃ cmds w', handleMessage client wsMessage w = Done cmds w' ∧
             dom (heap w') = dom (heap w).
Proof.
  intros Hc. unfold handleMessage.
  destruct (String.eqb _ "message"); [|destruct (String.eqb _ "join_room");
    [|destruct (String.eqb _ "leave_room")]].
  - unfold handleChatMessage, bind at 1, deref. rewrite Hc.
    unfold bind at 1, get.
    destruct (DB.FirstRoomMember _ _ _); [|by eexists _, _].
    destruct (CreateMessage _ w) as [[message w1]|] eqn:Hcm; [|by eexists _, _].
    unfold bind, modify, ignore_error, ret. simpl.
    eexists _, _. split; [done|].
    unfold CreateMessage in Hcm. destruct (_ && _) in Hcm; [|done].
    injection Hcm as _ <-. unfold CacheMessage. simpl.
    destruct (RedisClient w) as [r|]; [destruct (Redis.Reachable r)|]; done.
  - unfold handleJoinRoom.
    destruct (WebSocketMessage.RoomID wsMessage =? 0); [by eexists _, _|].
    unfold bind at 1, get.
    destruct (DB.FirstRoom _ _); simpl; [|by eexists _, _].
    unfold bind at 1, deref. rewrite Hc.
    assert (Hfin : ∀ w1, heap w1 = heap w →
      dom (heap (SetUserOnline (Client.UserID c)
                   (WebSocketMessage.RoomID wsMessage)
                   (with_heap (<[client := Client.with_RoomID
                                   (WebSocketMessage.RoomID wsMessage) c]>
                                 (heap w1)) w1)).2) = dom (heap w)).
    { intros w1 Hp1.
      match goal with |- context [SetUserOnline ?u ?r ?x] =>
        destruct (SetUserOnline_registry u r x) as (_ & -> & _) end.
      simpl. rewrite Hp1, dom_insert_L.
      assert (client ∈ dom (heap w)) by (apply elem_of_dom; by eexists).
      set_solver. }
    destruct (DB.FirstRoomMember _ _ _);
      unfold bind, ret, modify, store, ignore_error; simpl; eexists _, _;
      (split; [done|]).
    + by apply (Hfin w).
    + apply (Hfin (CreateRoomMember _ w)).
      unfold CreateRoomMember; by destruct (DB.Up (db w)).
  - unfold handleLeaveRoom, bind at 1, deref. rewrite Hc.
    unfold bind, ignore_error, modify, ret. simpl. eexists _, _.
    split; [done|].
    by destruct (SetUserOffline_registry (Client.UserID c) w) as (_ & -> & _).
  - by eexists _, _.
Qed.

(** ** Queued frames are never lost by the hub *)

Lemma grown_refl c : grown c c.
Proof. by repeat split. Qed.

Lemma grown_trans c1 c2 c3 : grown c1 c2 → grown c2 c3 → grown c1 c3.
Proof.
  intros (? & ? & ? & Hp1 & Hc1) (? & ? & ? & Hp2 & Hc2).
  repeat split; try congruence; [by etrans|auto].
Qed.

Lemma heap_grown_store w0 w x c c' :
  heap w !! x = Some c → grown c c' →
  heap_grown w0 w → heap_grown w0 (with_heap (<[x := c']> (heap w)) w).
Proof.
  intros Hc Hg Hinv y c0 Hy. simpl.
  destruct (Hinv y c0 Hy) as (c1 & Hy1 & Hg1).
  destruct (decide (x = y)) as [->|Hne].
  - exists c'. rewrite lookup_insert_eq. split; [done|].
    rewrite Hc in Hy1. injection Hy1 as ->. by eapply grown_trans.
  - exists c1. by rewrite lookup_insert_ne.
Qed.

Lemma heap_grown_Run cmds w : heap_grown w (world_of (Run cmds w)).
Proof.
  apply (heap_inv_Run (heap_grown w)).
  - intros w1 w2 Hp Hinv x c Hx. rewrite Hp. by apply Hinv.
  - intros w1 x c v ch Hc (Hopen & _ & ->)%try_send_Sent.
    apply (heap_grown_store w w1 x c); [done|].
    repeat split; simpl; [by apply prefix_app_r|congruence].
  - intros w1 x c ch Hc (_ & ->)%close_Some.
    apply (heap_grown_store w w1 x c); [done|]. by repeat split.
  - intros x c Hx. exists c. split; [done|apply grown_refl].
Qed.

(** X4.  The hub never takes anything back from a client.  Whatever
    commands it runs and however they end, every client record that
    existed still exists with the same id, user id and room id, the
    frames that were queued are still at the head of its queue in the
    same order, and a queue that was closed is still closed. *)
Theorem Run_never_drops_frames cmds w x c :
  heap w !! x = Some c →
  ∃ c', heap (world_of (Run cmds w)) !! x = Some c' ∧
        Client.ID c' = Client.ID c ∧
        Client.UserID c' = Client.UserID c ∧
        Client.RoomID c' = Client.RoomID c ∧
        Chan.buf (Client.Send c) `prefix_of` Chan.buf (Client.Send c') ∧
        (Chan.closed (Client.Send c) = true →
         Chan.closed (Client.Send c') = true).
Proof. apply heap_grown_Run. Qed.

(** X5.  Delivery follows the queue.  If frames wait in a client's queue
    and the hub then runs any commands, the next turn of that client's
    writer on a healthy socket sends one text message that starts with
    exactly those frames, in the order they were queued, and leaves the
    queue empty. *)
Theorem writer_delivers_in_order cmds w x c :
  heap w !! x = Some c →
  Chan.buf (Client.Send c) ≠ [] →
  ∃ batch w',
    WritePump_turn Healthy x (world_of (Run cmds w)) =
      Done (TextMessage batch) w' ∧
    Chan.buf (Client.Send c) `prefix_of` batch ∧
    (Chan.buf ∘ Client.Send) <$> heap w' !! x = Some [].
Proof.
  intros Hc Hne.
  destruct (heap_grown_Run cmds w x c Hc) as (c' & Hc' & _ & _ & _ & Hp & _).
  unfold WritePump_turn, bind at 1, deref. rewrite Hc'.
  destruct (Chan.buf (Client.Send c')) as [|message queued] eqn:Hb.
  - apply prefix_nil_inv in Hp. done.
  - unfold bind, store, modify, ret. simpl.
    eexists _, _. split; [done|]. split; [done|].
    simpl. by rewrite lookup_insert_eq.
Qed.

(** ** What registration and unregistration do to the others *)

Lemma registerClient_effect client w :
  (∀ y, y ≠ client →
        heap (world_of (registerClient client w)) !! y = heap w !! y) ∧
  (Hub.rooms (hub (world_of (registerClient client w))) = Hub.rooms (hub w) ∨
   ∃ c, heap w !! client = Some c ∧
        Hub.rooms (hub (world_of (registerClient client w))) =
        Hub.rooms (index_client client c (hub w))).
Proof.
  destruct (Hub.mutex (hub w)) eqn:Hm.
  - destruct (heap w !! client) as [c|] eqn:Hc.
    + rewrite (registerClient_cases client c w Hm Hc).
      destruct (registered_registry client c w) as [Hhub Hheap].
      assert (Hrooms : Hub.rooms (hub (registered client c w)) =
                       Hub.rooms (index_client client c (hub w))).
      { rewrite Hhub, !index_client_eq. done. }
      destruct (DB.FirstUser _ _).
      * simpl. rewrite Hheap. split; [done|]. right. by exists c.
      * destruct (sendOnlineUsers_Unlock_frame client (registered client c w))
          as (_ & Hr & _ & Hp).
        split.
        -- intros y Hy. by rewrite (Hp y Hy), Hheap.
        -- right. exists c. split; [done|]. by rewrite Hr.
    + assert (Hp : registerClient client w =
                   Panicked (with_hub (Hub.with_mutex Write (hub w)) w)).
      { unfold registerClient. unfold bind at 1. unfold Lock. rewrite Hm.
        unfold bind at 1. unfold deref at 1. simpl. by rewrite Hc. }
      rewrite Hp. simpl. split; [done|by left].
  - unfold registerClient, bind, Lock. rewrite Hm. simpl. split; [done|by left].
  - unfold registerClient, bind, Lock. rewrite Hm. simpl. split; [done|by left].
Qed.

(** Unregistering a registered client whose queue is already closed
    panics on the second [close], after the maps were updated. *)
Lemma unregisterClient_closed client c w :
  Hub.mutex (hub w) = Free →
  client ∈ Hub.clients (hub w) →
  heap w !! client = Some c →
  Chan.closed (Client.Send c) = true →
  unregisterClient client w =
  Panicked (with_hub (unindex_client client c (Hub.with_mutex Write (hub w))) w).
Proof.
  intros Hm Hin Hc Hcl. unfold unregisterClient.
  unfold bind at 1. unfold Lock. rewrite Hm.
  unfold bind at 1. unfold get at 1. simpl.
  rewrite bool_decide_eq_true_2 by done.
  unfold bind at 1. unfold bind at 1. unfold deref at 1. simpl. rewrite Hc.
  unfold bind at 1. unfold modify_hub, modify at 1.
  unfold bind at 1. unfold close_Send.
  unfold bind at 1. unfold deref at 1. simpl. rewrite Hc.
  unfold Chan.close. by rewrite Hcl.
Qed.

Lemma unregisterClient_no_record client w :
  Hub.mutex (hub w) = Free →
  client ∈ Hub.clients (hub w) →
  heap w !! client = None →
  unregisterClient client w =
  Panicked (with_hub (Hub.with_mutex Write (hub w)) w).
Proof.
  intros Hm Hin Hc. unfold unregisterClient.
  unfold bind at 1. unfold Lock. rewrite Hm.
  unfold bind at 1. unfold get at 1. simpl.
  rewrite bool_decide_eq_true_2 by done.
  unfold bind at 1. unfold bind at 1. unfold deref at 1. simpl.
  by rewrite Hc.
Qed.

Lemma unregisterClient_effect client w :
  (∀ y, y ≠ client →
        heap (world_of (unregisterClient client w)) !! y = heap w !! y) ∧
  (Hub.rooms (hub (world_of (unregisterClient client w))) = Hub.rooms (hub w) ∨
   ∃ c, heap w !! client = Some c ∧
        Hub.rooms (hub (world_of (unregisterClient client w))) =
        Hub.rooms (unindex_client client c (hub w))).
Proof.
  destruct (Hub.mutex (hub w)) eqn:Hm.
  - destruct (decide (client ∈ Hub.clients (hub w))) as [Hin|Hnot].
    + destruct (heap w !! client) as [c|] eqn:Hc.
      * destruct (Chan.closed (Client.Send c)) eqn:Hcl.
        -- rewrite (unregisterClient_closed client c w Hm Hin Hc Hcl). simpl.
           split; [done|]. right. exists c. split; [done|].
           unfold unindex_client. simpl.
           destruct (Hub.rooms (hub w) !! Client.RoomID c); [|done].
           by case_bool_decide.
        -- rewrite (unregisterClient_Blocked client c w Hm Hin Hc Hcl).
           destruct (unregistered_registry client c w) as [Hhub Hheap].
           simpl. rewrite Hhub, Hheap. split.
           ++ intros y Hy. by rewrite lookup_insert_ne.
           ++ right. exists c. split; [done|].
              unfold unindex_client. simpl.
              destruct (Hub.rooms (hub w) !! Client.RoomID c); [|done].
              by case_bool_decide.
      * rewrite (unregisterClient_no_record client w Hm Hin Hc). simpl.
        split; [done|by left].
    + rewrite (unregisterClient_absent client w Hm Hnot).
      split; [done|by left].
  - unfold unregisterClient, bind, Lock. rewrite Hm. simpl.
    split; [done|by left].
  - unfold unregisterClient, bind, Lock. rewrite Hm. simpl.
    split; [done|by left].
Qed.

(** X6.  A registration and an unregistration never reach another
    client.  In every outcome of [registerClient] and of
    [unregisterClient], the record of every client other than the one
    they are called for is exactly what it was: no queue of a peer got a
    user_joined or user_left frame, none was closed. *)
Theorem register_unregister_reach_nobody client w y :
  y ≠ client →
  heap (world_of (registerClient client w)) !! y = heap w !! y ∧
  heap (world_of (unregisterClient client w)) !! y = heap w !! y.
Proof.
  intros Hy. split.
  - by apply registerClient_effect.
  - by apply unregisterClient_effect.
Qed.

(** X7.  Registration and unregistration keep the rooms non-empty.  If
    no room is indexed with an empty set, none is in any outcome of
    [registerClient] or of [unregisterClient]. *)
Theorem register_unregister_keep_rooms_inhabited client w :
  no_empty_rooms (hub w) →
  no_empty_rooms (hub (world_of (registerClient client w))) ∧
  no_empty_rooms (hub (world_of (unregisterClient client w))).
Proof.
  intros Hinv. split.
  - destruct (registerClient_effect client w) as [_ [Hr|(c & _ & Hr)]];
      intros r room; rewrite Hr; [apply Hinv|].
    by apply index_client_no_empty_rooms.
  - destruct (unregisterClient_effect client w) as [_ [Hr|(c & _ & Hr)]];
      intros r room; rewrite Hr; [apply Hinv|].
    by apply unindex_client_no_empty_rooms.
Qed.

(** * The senders and the hub *)

(** ** What the hub did while a sender waited *)

Lemma Run_app cmds cmds' w w1 :
  Run cmds w = Done tt w1 → Run (cmds ++ cmds') w = Run cmds' w1.
Proof.
  unfold Run. revert w. induction cmds as [|cmd cmds IH]; intros w; simpl.
  - by intros [= ->].
  - unfold bind. destruct (Run_step cmd w) as [[] w2|w2|w2];
      [apply IH|done|done].
Qed.

Lemma hub_ran_refl w : hub_ran w w.
Proof. by exists []. Qed.

Lemma hub_ran_trans w1 w2 w3 : hub_ran w1 w2 → hub_ran w2 w3 → hub_ran w1 w3.
Proof.
  intros [l1 H1] [l2 H2]. exists (l1 ++ l2). by rewrite (Run_app _ _ _ _ H1).
Qed.

Lemma hub_ran_step cmd w w' : Run_step cmd w = Done tt w' → hub_ran w w'.
Proof.
  intros H. exists [cmd]. unfold Run. simpl. unfold bind. by rewrite H.
Qed.

Lemma hub_ran_world_of w w' :
  hub_ran w w' → ∃ cmds, w' = world_of (Run cmds w).
Proof. intros [cmds H]. exists cmds. by rewrite H. Qed.

Lemma offer_hub_ran pending cmd w : hub_ran w (world_of (offer pending cmd w)).
Proof.
  unfold offer. destruct (Hub.mutex (hub w)); try apply hub_ran_refl.
  destruct pending as [p|]; [|apply hub_ran_refl].
  destruct (Run_step p w) as [[] w'|w'|w'] eqn:H; simpl;
    [by eapply hub_ran_step|apply hub_ran_refl|apply hub_ran_refl].
Qed.

Lemma offer_all_hub_ran cmds : ∀ pending w,
  hub_ran w (world_of (offer_all pending cmds w)).
Proof.
  induction cmds as [|cmd cmds IH]; intros pending w; simpl;
    [apply hub_ran_refl|].
  unfold bind. pose proof (offer_hub_ran pending cmd w) as H.
  destruct (offer pending cmd w) as [[] w1|w1|w1]; simpl in *; [|done|done].
  eapply hub_ran_trans; [done|apply IH].
Qed.

(** A sender that finds the hub stopped waits at once. *)
Lemma offer_stopped pending cmd w :
  Hub.mutex (hub w) ≠ Free → offer pending cmd w = Blocked w.
Proof. intros Hm. unfold offer. by destruct (Hub.mutex (hub w)). Qed.

(** A send that returns found the hub in its select. *)
Lemma offer_Done pending cmd w w' :
  offer pending cmd w = Done tt w' → Hub.mutex (hub w) = Free.
Proof. unfold offer. by destruct (Hub.mutex (hub w)). Qed.

(** ** The store, while the hub runs commands that return *)

Lemma enqueue_or_evict_db roomID message x w :
  db (world_of (enqueue_or_evict roomID message x w)) = db w.
Proof.
  unfold enqueue_or_evict, bind at 1, deref.
  destruct (heap w !! x) as [c|]; [|done].
  destruct (Chan.try_send _ _) as [ch| |]; [done| |done].
  by destruct (Chan.close _) as [ch|].
Qed.

Lemma broadcastToRoom_db roomID message w :
  db (world_of (broadcastToRoom roomID message w)) = db w.
Proof.
  assert (Hunlock : ∀ w1, db w1 = db w → db (world_of (RUnlock w1)) = db w).
  { intros w1 <-. unfold RUnlock.
    destruct (Hub.mutex (hub w1)) as [| |[|n]]; done. }
  assert (H : ∀ w1, db w1 = db w →
                    db (world_of (broadcastToRoom roomID message w1)) = db w);
    [|by apply H].
  unfold broadcastToRoom.
  apply (world_of_bind (fun w1 => db w1 = db w)).
  { intros w1 <-. unfold RLock. by destruct (Hub.mutex (hub w1)). }
  intros _ w1 Hw1. unfold bind at 1, get.
  destruct (Hub.rooms (hub w1) !! roomID) as [room|].
  - revert w1 Hw1. apply (world_of_bind (fun w1 => db w1 = db w)).
    + apply (world_of_for_each (fun w1 => db w1 = db w)). intros x w1 <-.
      apply enqueue_or_evict_db.
    + intros _. apply Hunlock.
  - revert w1 Hw1. apply (world_of_bind (fun w1 => db w1 = db w)); [done|].
    intros _. apply Hunlock.
Qed.

Lemma sendOnlineUsers_db client w :
  db (world_of (sendOnlineUsers client w)) = db w.
Proof.
  unfold sendOnlineUsers, bind, deref, get.
  destruct (heap w !! client) as [c|]; [|done].
  destruct (GetOnlineUsers (Client.RoomID c) w) as [onlineUsers []]; [|done].
  destruct (Chan.try_send _ _) as [ch| |]; [done| |done].
  by destruct (Chan.close _) as [ch|].
Qed.

(** A registration that does not find the user row leaves the store as
    it is. *)
Lemma registered_db client c w :
  DB.FirstUser (Client.UserID c) (db (registered client c w)) = None →
  db (registered client c w) = db w.
Proof.
  unfold registered, UpdateOnline.
  match goal with |- context [SetUserOnline ?u ?r ?x] =>
    destruct (SetUserOnline_registry u r x) as (_ & _ & Hdb);
    set (w1 := (SetUserOnline u r x).2) in * end.
  simpl in Hdb. unfold DB.FirstUser.
  destruct (DB.Up (db w1)) eqn:Hup; [|by intros _].
  simpl. rewrite Hup. rewrite Hdb. intros Hnone.
  rewrite lookup_alter_eq in Hnone.
  destruct (DB.Users (db w) !! Client.UserID c) as [u|] eqn:Hu; [done|].
  assert (Halter : alter (fun u => User.mk (User.ID u) (User.Username u) true
                                     (User.LastSeen u))
                     (Client.UserID c) (DB.Users (db w)) = DB.Users (db w)).
  { apply map_eq. intros j. destruct (decide (Client.UserID c = j)) as [<-|Hne].
    - by rewrite lookup_alter_eq, Hu.
    - by rewrite lookup_alter_ne. }
  rewrite Halter. by destruct (db w).
Qed.

Lemma Run_step_Done_db cmd w w' : Run_step cmd w = Done tt w' → db w' = db w.
Proof.
  destruct cmd as [client|client|roomID message]; simpl; intros H.
  - destruct (Hub.mutex (hub w)) eqn:Hm;
      [|unfold registerClient, bind at 1, Lock in H; by rewrite Hm in H..].
    destruct (heap w !! client) as [c|] eqn:Hc.
    + rewrite (registerClient_cases client c w Hm Hc) in H.
      destruct (DB.FirstUser _ _) eqn:Hu; [done|].
      rewrite <- (registered_db client c w Hu).
      pose proof (sendOnlineUsers_db client (registered client c w)) as Hs.
      unfold bind in H.
      destruct (sendOnlineUsers client (registered client c w))
        as [[] w1|w1|w1]; [|done|done].
      simpl in Hs. unfold Unlock in H.
      destruct (Hub.mutex (hub w1)); [done| |done].
      injection H as <-. done.
    + unfold registerClient, bind at 1, Lock in H. rewrite Hm in H.
      unfold bind at 1, deref in H. simpl in H. by rewrite Hc in H.
  - destruct (Hub.mutex (hub w)) eqn:Hm;
      [|unfold unregisterClient, bind at 1, Lock in H; by rewrite Hm in H..].
    destruct (decide (client ∈ Hub.clients (hub w))) as [Hin|Hnot].
    + by destruct (unregisterClient_never_Done client w w' Hm Hin).
    + rewrite (unregisterClient_absent client w Hm Hnot) in H.
      by injection H as <-.
  - pose proof (broadcastToRoom_db roomID message w) as Hb.
    by rewrite H in Hb.
Qed.

Lemma hub_ran_db w w' : hub_ran w w' → db w' = db w.
Proof.
  intros [cmds H]. revert w H. unfold Run.
  induction cmds as [|cmd cmds IH]; intros w; simpl.
  - by intros [= ->].
  - unfold bind. destruct (Run_step cmd w) as [[] w1|w1|w1] eqn:Hs;
      [|done|done].
    intros H. rewrite (IH w1 H). by apply (Run_step_Done_db cmd).
Qed.

(** ** Invariants of the reader *)

(** A property of the state that every handler keeps, and the hub keeps
    while it runs commands that return, holds in every outcome of
    [ReadPump]. *)
Lemma world_of_ReadPump (I : World → Prop) client inbound :
  (∀ wsMessage w, I w → I (world_of (handleMessage client wsMessage w))) →
  (∀ w w', hub_ran w w' → I w → I w') →
  ∀ w, I w → I (world_of (ReadPump client inbound w)).
Proof.
  intros Hhandle Hhub.
  assert (Hloop : ∀ pending w, I w →
            I (world_of (ReadPump_loop client inbound pending w))).
  { induction inbound as [|[wsMessage|] rest IH]; intros pending w Hw;
      simpl; [done| |by apply IH].
    revert w Hw. apply (world_of_bind I); [apply Hhandle|].
    intros cmds. apply (world_of_bind I).
    - intros w Hw. eapply Hhub; [apply offer_all_hub_ran|done].
    - intros pending'. apply (world_of_bind I); [apply IH|].
      by intros more w Hw. }
  unfold ReadPump. apply (world_of_bind I); [apply Hloop|].
  intros taken. apply (world_of_bind I).
  - intros w Hw. eapply Hhub; [apply offer_hub_ran|done].
  - by intros _ w Hw.
Qed.

(** With the hub stopped, the reader handles frames until one of them
    makes a handler send, and waits in that send. *)
Lemma ReadPump_loop_stopped client inbound : ∀ c pending w,
  Hub.mutex (hub w) ≠ Free →
  heap w !! client = Some c →
  ∃ w', reader_step client w w' ∧
        (ReadPump_loop client inbound pending w = Blocked w' ∨
         ReadPump_loop client inbound pending w = Done ([], pending) w').
Proof.
  induction inbound as [|[wsMessage|] rest IH]; intros c pending w Hm Hc;
    simpl.
  - exists w. split; [apply reader_step_refl|by right].
  - pose proof (handleMessage_effect client wsMessage w) as Hstep.
    destruct (handleMessage_Done client c wsMessage w Hc)
      as (cmds & w1 & Hh & _).
    rewrite Hh in Hstep. simpl in Hstep.
    assert (Hm1 : Hub.mutex (hub w1) ≠ Free) by (by rewrite (proj1 Hstep)).
    destruct (proj2 (proj2 Hstep) client c Hc) as (c1 & Hc1 & _).
    rewrite (bind_Done _ _ _ _ _ Hh).
    destruct cmds as [|cmd cmds].
    + destruct (IH c1 pending w1 Hm1 Hc1) as (w2 & Hr & [Hl|Hl]);
        exists w2; (split; [by eapply reader_step_trans|]);
        simpl; unfold bind, ret; rewrite Hl; [by left|by right].
    + exists w1. split; [done|]. left. simpl. unfold bind.
      by rewrite (offer_stopped pending cmd w1 Hm1).
  - by apply (IH c).
Qed.

Lemma ReadPump_stopped client inbound c w :
  Hub.mutex (hub w) ≠ Free →
  heap w !! client = Some c →
  ∃ w', ReadPump client inbound w = Blocked w' ∧ reader_step client w w'.
Proof.
  intros Hm Hc.
  destruct (ReadPump_loop_stopped client inbound c None w Hm Hc)
    as (w' & Hr & [Hl|Hl]); exists w'; (split; [|done]);
    unfold ReadPump, bind at 1; rewrite Hl; [done|].
  simpl. unfold bind. rewrite offer_stopped; [done|].
  by rewrite (proj1 Hr).
Qed.

(** X2.  The reader of a connection never touches the registry, and it
    cannot end while the hub is stopped.  Whatever frame a handler of
    the reader is given, in every outcome the hub is as before, no
    client record appeared or disappeared, every record kept its
    identity and its queue, and no record but the reader's own changed
    at all.  When the hub is stopped, the reader of an existing client
    waits for good in its first send, at the latest in the send of its
    own unregistration, having changed nothing of the registry.  When
    the reader returns, the hub was in its select when the reader
    started, and the last command the hub took from it is the
    unregistration of the reader's own client. *)
Theorem ReadPump_leaves_registry client wsMessage inbound w :
  reader_step client w (world_of (handleMessage client wsMessage w)) ∧
  (is_Some (heap w !! client) →
   Hub.mutex (hub w) ≠ Free →
   ∃ w', ReadPump client inbound w = Blocked w' ∧ reader_step client w w') ∧
  (is_Some (heap w !! client) →
   ∀ cmds w', ReadPump client inbound w = Done cmds w' →
              Hub.mutex (hub w) = Free ∧ last cmds = Some (Unregister client)).
Proof.
  split; [apply handleMessage_effect|]. split.
  - intros [c Hc] Hm. by apply (ReadPump_stopped client inbound c).
  - intros [c Hc] cmds w' Hdone. split.
    + destruct (Hub.mutex (hub w)) eqn:Hm; [done| |];
        (destruct (ReadPump_stopped client inbound c w) as (w1 & Hb & _);
         [by rewrite Hm|done|congruence]).
    + unfold ReadPump, bind in Hdone.
      destruct (ReadPump_loop client inbound None w) as [taken w1|w1|w1];
        [|done|done].
      destruct (offer taken.2 (Unregister client) w1) as [[] w2|w2|w2];
        [|done|done].
      injection Hdone as <- _. by rewrite last_snoc.
Qed.

Lemma HandleWebSocket_bounded r w :
  bounded w → bounded (world_of (HandleWebSocket r w)).
Proof.
  intros Hinv. unfold HandleWebSocket.
  destruct (current_user r) as [userID|]; [|done].
  destruct (ParseUint _) as [roomID []]; [|done].
  destruct (upgradable r); simpl; [|done].
  unfold bind, get, store, modify, ret, offer. simpl.
  destruct (Hub.mutex (hub w)); simpl;
    (apply bounded_store; [simpl; lia|done]).
Qed.

Lemma WritePump_turn_bounded s client w :
  bounded w → bounded (world_of (WritePump_turn s client w)).
Proof.
  intros Hinv. unfold WritePump_turn, bind at 1, deref.
  destruct (heap w !! client) as [c|] eqn:Hc; [|done].
  pose proof (Hinv client c Hc) as Hlen.
  destruct (Chan.buf (Client.Send c)) as [|message queued] eqn:Hb.
  - by destruct (Chan.closed _).
  - destruct s; unfold bind, store, modify, ret; simpl;
      apply bounded_store; simpl in *; (done || lia).
Qed.

Lemma bounded_Run cmds w : bounded w → bounded (world_of (Run cmds w)).
Proof.
  apply heap_inv_Run.
  - apply bounded_heap.
  - apply bounded_send.
  - apply bounded_close.
Qed.

(** X3.  No queue ever holds more than 256 frames.  If that is so in a
    state, it is so after the hub ran any commands (whether the last one
    returned, blocked or panicked), after an attach, after the reader
    handled any inbound messages, and after a turn of the writer. *)
Theorem queues_stay_bounded cmds r client inbound s w :
  bounded w →
  bounded (world_of (Run cmds w)) ∧
  bounded (world_of (HandleWebSocket r w)) ∧
  bounded (world_of (ReadPump client inbound w)) ∧
  bounded (world_of (WritePump_turn s client w)).
Proof.
  intros Hinv. split; [|split; [|split]].
  - by apply bounded_Run.
  - by apply HandleWebSocket_bounded.
  - revert w Hinv. apply world_of_ReadPump.
    + intros wsMessage w Hw. eapply reader_step_bounded; [|done].
      apply handleMessage_effect.
    + intros w w' [l ->]%hub_ran_world_of Hw. by apply bounded_Run.
  - by apply WritePump_turn_bounded.
Qed.

(** * The presence cache and the message cache *)

Lemma elem_of_GetOnlineUsers roomID w r u :
  RedisClient w = Some r → Redis.Reachable r = true →
  u ∈ (GetOnlineUsers roomID w).1 ↔
  ∃ key fields, Redis.Online r !! key = Some (Object fields) ∧
                fields !! "room_id" = Some (JNumber roomID) ∧
                fields !! "user_id" = Some (JNumber u).
Proof.
  intros Hr Hreach. unfold GetOnlineUsers. rewrite Hr, Hreach. simpl.
  rewrite list_elem_of_omap. split.
  - intros ([key data] & Hin & Hu). simpl in Hu.
    apply elem_of_map_to_list in Hin.
    apply online_user_Some in Hu as (fields & -> & ? & ?).
    by exists key, fields.
  - intros (key & fields & Hk & Hroom & Hu).
    exists (key, Object fields). split.
    + by apply elem_of_map_to_list.
    + apply online_user_Some. by exists fields.
Qed.

Lemma presence_entry_fields userID roomID t :
  userID < 2 ^ 53 → roomID < 2 ^ 53 →
  ∃ fields, presence_entry userID roomID t = Object fields ∧
            fields !! "room_id" = Some (JNumber roomID) ∧
            fields !! "user_id" = Some (JNumber userID).
Proof.
  intros Hu Hr. unfold presence_entry.
  rewrite (float64_small _ Hu), (float64_small _ Hr).
  eexists. split; [reflexivity|]. split; reflexivity.
Qed.

(** X8.  A user is present in one room at a time, as long as the ids
    are below 2^53 (the listing reads them back through [float64]).  On
    a reachable cache whose entries sit under the key of their user,
    after [SetUserOnline u room] with such ids the listing of [room]
    contains [u], the listing of no other room does, membership of every
    other user in every listing is as before, and the entries still sit
    under the key of their user. *)
Theorem SetUserOnline_moves_presence userID roomID w r :
  RedisClient w = Some r → Redis.Reachable r = true → well_keyed r →
  userID < 2 ^ 53 → roomID < 2 ^ 53 →
  userID ∈ (GetOnlineUsers roomID (SetUserOnline userID roomID w).2).1 ∧
  (∀ room, room ≠ roomID →
     userID ∉ (GetOnlineUsers room (SetUserOnline userID roomID w).2).1) ∧
  (∀ room u, u ≠ userID →
     u ∈ (GetOnlineUsers room (SetUserOnline userID roomID w).2).1 ↔
     u ∈ (GetOnlineUsers room w).1) ∧
  (∃ r', RedisClient (SetUserOnline userID roomID w).2 = Some r' ∧
         Redis.Reachable r' = true ∧ well_keyed r').
Proof.
  intros Hr Hreach Hkeys Hsmall Hsmall'.
  destruct (presence_entry_fields userID roomID (now w) Hsmall Hsmall')
    as (f0 & Hf0 & Hf0r & Hf0u).
  assert (Hw' : (SetUserOnline userID roomID w).2 =
    with_redis (Some (Redis.with_Online
      (<[userID := presence_entry userID roomID (now w)]> (Redis.Online r)) r)) w).
  { unfold SetUserOnline. by rewrite Hr, Hreach. }
  rewrite Hw'.
  set (r' := Redis.with_Online _ r).
  assert (Hin : ∀ room u,
    u ∈ (GetOnlineUsers room (with_redis (Some r') w)).1 ↔
    ∃ key fields, Redis.Online r' !! key = Some (Object fields) ∧
                  fields !! "room_id" = Some (JNumber room) ∧
                  fields !! "user_id" = Some (JNumber u)).
  { intros room u. by apply elem_of_GetOnlineUsers. }
  assert (Hkeys' : well_keyed r').
  { intros key fields. subst r'. simpl.
    destruct (decide (userID = key)) as [<-|Hne].
    - rewrite lookup_insert_eq, Hf0. by intros [= <-].
    - rewrite lookup_insert_ne by done. apply Hkeys. }
  split; [|split; [|split]].
  - apply Hin. exists userID, f0. subst r'. simpl.
    by rewrite lookup_insert_eq, Hf0.
  - intros room Hroom (key & fields & Hk & Hfr & Hfu)%Hin.
    pose proof (Hkeys' key fields Hk) as Hku. rewrite Hfu in Hku.
    injection Hku as <-. subst r'. simpl in Hk.
    rewrite lookup_insert_eq, Hf0 in Hk. injection Hk as <-.
    rewrite Hf0r in Hfr. by injection Hfr as <-.
  - intros room u Hu. rewrite Hin, (elem_of_GetOnlineUsers room w r u Hr Hreach).
    split; intros (key & fields & Hk & Hfr & Hfu); exists key, fields;
      (split; [|done]).
    + pose proof (Hkeys' key fields Hk) as Hku. rewrite Hfu in Hku.
      injection Hku as <-. subst r'. simpl in Hk.
      by rewrite lookup_insert_ne in Hk.
    + pose proof (Hkeys key fields Hk) as Hku. rewrite Hfu in Hku.
      injection Hku as <-. subst r'. simpl.
      by rewrite lookup_insert_ne.
  - by exists r'.
Qed.

(** X9.  Going offline removes the user from every listing and no one
    else.  On a reachable cache whose entries sit under the key of their
    user, after [SetUserOffline u] no listing contains [u] and the
    membership of every other user in every listing is as before. *)
Theorem SetUserOffline_clears_presence userID w r :
  RedisClient w = Some r → Redis.Reachable r = true → well_keyed r →
  (∀ room, userID ∉ (GetOnlineUsers room (SetUserOffline userID w).2).1) ∧
  (∀ room u, u ≠ userID →
     u ∈ (GetOnlineUsers room (SetUserOffline userID w).2).1 ↔
     u ∈ (GetOnlineUsers room w).1).
Proof.
  intros Hr Hreach Hkeys.
  assert (Hw' : (SetUserOffline userID w).2 =
    with_redis (Some (Redis.with_Online (delete userID (Redis.Online r)) r)) w).
  { unfold SetUserOffline. by rewrite Hr, Hreach. }
  rewrite Hw'.
  set (r' := Redis.with_Online _ r).
  assert (Hin : ∀ room u,
    u ∈ (GetOnlineUsers room (with_redis (Some r') w)).1 ↔
    ∃ key fields, Redis.Online r' !! key = Some (Object fields) ∧
                  fields !! "room_id" = Some (JNumber room) ∧
                  fields !! "user_id" = Some (JNumber u)).
  { intros room u. by apply elem_of_GetOnlineUsers. }
  split.
  - intros room (key & fields & Hk & Hfr & Hfu)%Hin. subst r'. simpl in Hk.
    destruct (decide (userID = key)) as [<-|Hne].
    + by rewrite lookup_delete_eq in Hk.
    + rewrite lookup_delete_ne in Hk by done.
      pose proof (Hkeys key fields Hk) as Hku. rewrite Hfu in Hku.
      by injection Hku as <-.
  - intros room u Hu. rewrite Hin, (elem_of_GetOnlineUsers room w r u Hr Hreach).
    split; intros (key & fields & Hk & Hfr & Hfu); exists key, fields;
      (split; [|done]); subst r'; simpl in *.
    + destruct (decide (userID = key)) as [<-|Hne].
      * by rewrite lookup_delete_eq in Hk.
      * by rewrite lookup_delete_ne in Hk.
    + pose proof (Hkeys key fields Hk) as Hku. rewrite Hfu in Hku.
      injection Hku as <-. by rewrite lookup_delete_ne.
Qed.

Lemma int64_wrap_id z : (- 2 ^ 63 ≤ z < 2 ^ 63)%Z → int64_wrap z = z.
Proof.
  intros Hz. unfold int64_wrap.
  assert (H63 : (2 ^ 63 = 9223372036854775808)%Z) by reflexivity.
  assert (H64 : (2 ^ 64 = 18446744073709551616)%Z) by reflexivity.
  rewrite Z.mod_small; lia.
Qed.

(** [LRANGE key 0 stop]: the first [stop + 1] entries, counting a
    negative [stop] from the end of the list. *)
Lemma LRange_0 {A} (l : list A) (stop : Z) :
  LRange l 0 stop =
  take (Z.to_nat ((if (stop <? 0)%Z then Z.of_nat (length l) + stop else stop)
                  + 1)) l.
Proof.
  unfold LRange. simpl.
  set (llen := Z.of_nat (length l)).
  set (stop' := if (stop <? 0)%Z then (llen + stop)%Z else stop).
  assert (Hl : llen = Z.of_nat (length l)) by done. clearbody llen stop'.
  destruct (Z.ltb_spec stop' 0) as [Hneg|Hpos]; simpl.
  { replace (Z.to_nat (stop' + 1)) with 0%nat by lia. done. }
  destruct (Z.leb_spec llen 0) as [Hempty|Hne]; simpl.
  { destruct l; [by rewrite take_nil|simpl in Hl; lia]. }
  rewrite drop_0, Z.sub_0_r.
  destruct (Z.leb_spec llen stop') as [Hbig|Hsmall].
  - rewrite !take_ge; [done|lia|lia].
  - done.
Qed.

(** X10.  What a limit means to [GetCachedMessages].  On a reachable
    cache, a positive limit yields the first [limit] entries of the
    room's list (the whole list when it is shorter).  A limit of zero
    does not yield the empty list but the whole list, and a negative
    limit [-k] yields the list without its last [k] entries. *)
Theorem GetCachedMessages_limit roomID limit w r :
  RedisClient w = Some r → Redis.Reachable r = true →
  (- 2 ^ 63 < limit < 2 ^ 63)%Z →
  GetCachedMessages roomID limit w =
  (take (Z.to_nat (if (0 <? limit)%Z then limit
                   else Z.of_nat (length (default [] (Redis.RoomMessages r !! roomID)))
                        + limit))
        (default [] (Redis.RoomMessages r !! roomID)), nil).
Proof.
  intros Hr Hreach Hlim. unfold GetCachedMessages. rewrite Hr, Hreach.
  rewrite int64_wrap_id by lia. rewrite LRange_0. do 2 f_equal.
  destruct (Z.ltb_spec (limit - 1) 0); destruct (Z.ltb_spec 0 limit); lia.
Qed.

(** X11.  The message cache keeps the newest message first and at most
    100 of them.  On a reachable cache, right after [CacheMessage room m]
    a read of [room] with a positive limit returns [m] followed by the
    entries that were there, cut to the smaller of the limit and 100;
    the lists of the other rooms read as before. *)
Theorem CacheMessage_newest_first roomID message limit w r :
  RedisClient w = Some r → Redis.Reachable r = true →
  (0 < limit < 2 ^ 63)%Z →
  GetCachedMessages roomID limit (CacheMessage roomID message w).2 =
    (message ::
       take (Z.to_nat (Z.min limit 100 - 1))
            (default [] (Redis.RoomMessages r !! roomID)), nil) ∧
  ∀ room lim, room ≠ roomID →
    GetCachedMessages room lim (CacheMessage roomID message w).2 =
    GetCachedMessages room lim w.
Proof.
  intros Hr Hreach Hlim.
  assert (Hw' : (CacheMessage roomID message w).2 =
    with_redis (Some (Redis.with_RoomMessages
      (<[roomID := take 100 (message ::
                    default [] (Redis.RoomMessages r !! roomID))]>
         (Redis.RoomMessages r)) r)) w).
  { unfold CacheMessage. by rewrite Hr, Hreach. }
  rewrite Hw'. unfold GetCachedMessages. simpl. rewrite Hr, Hreach. split.
  - rewrite lookup_insert_eq. simpl.
    rewrite int64_wrap_id by lia. rewrite LRange_0.
    destruct (Z.ltb_spec (limit - 1) 0) as [|_]; [lia|].
    replace (limit - 1 + 1)%Z with limit by lia.
    set (l := default [] (Redis.RoomMessages r !! roomID)).
    change (message :: take 99 l) with (take 100 (message :: l)).
    rewrite take_take.
    replace (Z.to_nat limit `min` 100)%nat
      with (S (Z.to_nat (Z.min limit 100 - 1))) by lia.
    done.
  - intros room lim Hne. by rewrite lookup_insert_ne.
Qed.

(** * What a connection can write to the store *)

Lemma rows_appended_same userID n w w' :
  db w' = db w → rows_appended userID n w w'.
Proof.
  intros Hdb. unfold rows_appended. rewrite Hdb. repeat split; try done;
    exists []; rewrite app_nil_r; (split; [done|]); (split; [simpl; lia|done]).
Qed.

Lemma rows_appended_trans userID n1 n2 w1 w2 w3 :
  rows_appended userID n1 w1 w2 → rows_appended userID n2 w2 w3 →
  rows_appended userID (n1 + n2) w1 w3.
Proof.
  intros (Hu1 & Hr1 & Hup1 & (ms1 & Hm1 & Hl1 & Hf1) & (rs1 & Hs1 & Hk1 & Hg1))
         (Hu2 & Hr2 & Hup2 & (ms2 & Hm2 & Hl2 & Hf2) & (rs2 & Hs2 & Hk2 & Hg2)).
  split; [congruence|]. split; [congruence|]. split; [congruence|]. split.
  - exists (ms1 ++ ms2). rewrite Hm2, Hm1, <- app_assoc. split; [done|].
    split; [rewrite length_app; lia|by apply Forall_app].
  - exists (rs1 ++ rs2). rewrite Hs2, Hs1, <- app_assoc. split; [done|].
    split; [rewrite length_app; lia|by apply Forall_app].
Qed.

Lemma handleMessage_rows client c wsMessage w :
  heap w !! client = Some c →
  rows_appended (Client.UserID c) 1 w
    (world_of (handleMessage client wsMessage w)).
Proof.
  intros Hc. unfold handleMessage.
  destruct (String.eqb _ "message"); [|destruct (String.eqb _ "join_room");
    [|destruct (String.eqb _ "leave_room")]].
  - unfold handleChatMessage, bind at 1, deref. rewrite Hc.
    unfold bind at 1, get.
    destruct (DB.FirstRoomMember _ _ _); [|by apply rows_appended_same].
    destruct (CreateMessage _ w) as [[message w1]|] eqn:Hcm;
      [|by apply rows_appended_same].
    unfold bind, modify, ignore_error, ret. simpl.
    unfold CreateMessage in Hcm. destruct (DB.Up (db w)) eqn:Hup; [|done].
    destruct (DB.Accepts _ _) in Hcm; [|done]. simpl in Hcm.
    injection Hcm as <- <-.
    assert (Hdb : ∀ room p w2, db (CacheMessage room p w2).2 = db w2).
    { intros room p w2. unfold CacheMessage.
      destruct (RedisClient w2) as [r|]; [destruct (Redis.Reachable r)|]; done. }
    unfold rows_appended. rewrite Hdb. simpl. rewrite Hup.
    repeat split; try done.
    + eexists [_]. split; [done|]. split; [simpl; lia|].
      by apply Forall_singleton.
    + exists []. rewrite app_nil_r. split; [done|]. split; [simpl; lia|done].
  - unfold handleJoinRoom.
    destruct (WebSocketMessage.RoomID wsMessage =? 0);
      [by apply rows_appended_same|].
    unfold bind at 1, get.
    destruct (DB.FirstRoom _ _); simpl; [|by apply rows_appended_same].
    unfold bind at 1, deref. rewrite Hc.
    destruct (DB.FirstRoomMember _ _ _);
      unfold bind, ret, modify, store, ignore_error; simpl;
      unfold rows_appended;
      match goal with |- context [SetUserOnline ?u ?r ?x] =>
        destruct (SetUserOnline_registry u r x) as (_ & _ & ->) end; simpl.
    + repeat split; try done;
        exists []; rewrite app_nil_r; (split; [done|]);
        (split; [simpl; lia|done]).
    + unfold CreateRoomMember. destruct (DB.Up (db w)) eqn:Hup; simpl.
      * rewrite Hup. repeat split; try done.
        -- exists []. rewrite app_nil_r. split; [done|]. split; [simpl; lia|done].
        -- eexists [_]. split; [done|]. split; [simpl; lia|].
           by apply Forall_singleton.
      * repeat split; try done;
          exists []; rewrite app_nil_r; (split; [done|]);
          (split; [simpl; lia|done]).
  - unfold handleLeaveRoom, bind at 1, deref. rewrite Hc.
    unfold bind, ignore_error, modify, ret. simpl.
    apply rows_appended_same.
    by destruct (SetUserOffline_registry (Client.UserID c) w) as (_ & _ & ->).
  - by apply rows_appended_same.
Qed.

Lemma rows_appended_db userID n w1 w1' w2 w2' :
  db w1' = db w1 → db w2' = db w2 →
  rows_appended userID n w1 w2 → rows_appended userID n w1' w2'.
Proof. unfold rows_appended. by intros -> ->. Qed.

Lemma hub_ran_UserID client c w w' :
  hub_ran w w' → heap w !! client = Some c →
  ∃ c', heap w' !! client = Some c' ∧ Client.UserID c' = Client.UserID c.
Proof.
  intros [cmds ->]%hub_ran_world_of Hc.
  destruct (heap_grown_Run cmds w client c Hc) as (c' & Hc' & _ & Hu & _).
  by exists c'.
Qed.

Lemma ReadPump_loop_rows client inbound : ∀ c pending w,
  heap w !! client = Some c →
  rows_appended (Client.UserID c) (length inbound) w
    (world_of (ReadPump_loop client inbound pending w)).
Proof.
  induction inbound as [|[wsMessage|] rest IH]; intros c pending w Hc; simpl.
  - by apply rows_appended_same.
  - destruct (handleMessage_Done client c wsMessage w Hc)
      as (cmds & w1 & Hm & _).
    pose proof (handleMessage_effect client wsMessage w) as Hstep.
    pose proof (handleMessage_rows client c wsMessage w Hc) as Hrows.
    rewrite Hm in Hstep, Hrows. simpl in Hstep, Hrows.
    destruct (proj2 (proj2 Hstep) client c Hc) as (c1 & Hc1 & _ & Hu & _).
    rewrite (bind_Done _ _ _ _ _ Hm).
    pose proof (offer_all_hub_ran cmds pending w1) as Hran.
    pose proof (hub_ran_db _ _ Hran) as Hdb.
    unfold bind at 1.
    destruct (offer_all pending cmds w1) as [pending' w2|w2|w2];
      simpl in Hran, Hdb.
    + destruct (hub_ran_UserID client c1 w1 w2 Hran Hc1) as (c2 & Hc2 & Hu2).
      pose proof (IH c2 pending' w2 Hc2) as Hrest.
      rewrite Hu2, Hu in Hrest.
      apply (rows_appended_trans _ 1 _ _ _ _ Hrows).
      apply (rows_appended_db _ _ w2 w1 _ _ (eq_sym Hdb) eq_refl).
      unfold bind, ret.
      by destruct (ReadPump_loop client rest pending' w2).
    + apply (rows_appended_trans _ 1 _ _ _ _ Hrows).
      by apply rows_appended_same.
    + apply (rows_appended_trans _ 1 _ _ _ _ Hrows).
      by apply rows_appended_same.
  - apply (rows_appended_trans _ 1 (length rest) w w); [|by apply IH].
    by apply rows_appended_same.
Qed.

Lemma ReadPump_rows client c inbound w :
  heap w !! client = Some c →
  rows_appended (Client.UserID c) (length inbound) w
    (world_of (ReadPump client inbound w)).
Proof.
  intros Hc. pose proof (ReadPump_loop_rows client inbound c None w Hc) as H.
  unfold ReadPump, bind at 1.
  destruct (ReadPump_loop client inbound None w) as [taken w1|w1|w1];
    simpl in *; [|done|done].
  pose proof (hub_ran_db _ _ (offer_hub_ran taken.2 (Unregister client) w1))
    as Hdb.
  apply (rows_appended_db _ _ w w _ _ eq_refl Hdb) in H.
  unfold bind, ret.
  by destruct (offer taken.2 (Unregister client) w1) as [[] w2|w2|w2].
Qed.

(** X12.  A connection writes to the store only under its own user.
    Whatever messages arrive on the connection of a client, when its
    reader is done the users and the rooms of the store are as before,
    every message and membership that was stored is still there
    unchanged, and what was added (at most one message and one
    membership for each inbound message) carries the user id of that
    client; an added membership has the role member. *)
Theorem ReadPump_writes_own_rows client c inbound w :
  heap w !! client = Some c →
  rows_appended (Client.UserID c) (length inbound) w
    (world_of (ReadPump client inbound w)).
Proof. apply ReadPump_rows. Qed.

(** * A join followed by a message *)

Lemma find_app_Some {A} (f : A → bool) (l l' : list A) :
  is_Some (find f l) ∨ is_Some (find f l') → is_Some (find f (l ++ l')).
Proof.
  induction l as [|a l IH]; simpl.
  - intros [[x [=]]|H]; done.
  - destruct (f a); [by eexists|]. done.
Qed.

(** A join_room frame for a live room other than 0, on a store that is
    up: the handler returns without a command for the hub, the user has
    a membership of the room, the record of the client names the room
    and nothing else about it changed, and no message was stored. *)
Lemma handleJoinRoom_joins client c wsMessage w :
  heap w !! client = Some c →
  DB.Up (db w) = true →
  WebSocketMessage.RoomID wsMessage ≠ 0 →
  WebSocketMessage.RoomID wsMessage ∈ DB.Rooms (db w) →
  ∃ w',
    handleJoinRoom client wsMessage w = Done [] w' ∧
    heap w' !! client =
      Some (Client.with_RoomID (WebSocketMessage.RoomID wsMessage) c) ∧
    DB.Up (db w') = true ∧
    DB.Messages (db w') = DB.Messages (db w) ∧
    is_Some (DB.FirstRoomMember (WebSocketMessage.RoomID wsMessage)
               (Client.UserID c) (db w')).
Proof.
  intros Hc Hup Hne Hin. unfold handleJoinRoom.
  destruct (N.eqb_spec (WebSocketMessage.RoomID wsMessage) 0) as [|_]; [done|].
  unfold bind at 1, get. unfold DB.FirstRoom. rewrite Hup.
  rewrite bool_decide_eq_true_2 by done. simpl.
  unfold bind at 1, deref. rewrite Hc.
  destruct (DB.FirstRoomMember _ _ (db w)) as [row|] eqn:Hrow;
    unfold bind, ret, modify, store, ignore_error; simpl;
    eexists; (split; [done|]);
    match goal with |- context [SetUserOnline ?u ?r ?x] =>
      destruct (SetUserOnline_registry u r x) as (_ & -> & ->) end; simpl.
  - rewrite lookup_insert_eq, Hrow. done.
  - rewrite lookup_insert_eq. unfold CreateRoomMember. rewrite Hup. simpl.
    split; [done|]. split; [done|]. split; [done|].
    unfold DB.FirstRoomMember. simpl. rewrite Hup.
    apply find_app_Some. right. simpl. unfold DB.member_row. simpl.
    rewrite !N.eqb_refl. by eexists.
Qed.

Lemma handleChatMessage_member client c wsMessage w row :
  heap w !! client = Some c →
  DB.FirstRoomMember (Client.RoomID c) (Client.UserID c) (db w) = Some row →
  handleChatMessage client wsMessage w =
  if DB.Accepts (db w) (chat_record c wsMessage w)
  then Done [Broadcast (Client.RoomID c)
               (WebSocketMessage.mk "message" (Client.RoomID c) ""
                  (MessageData (chat_record c wsMessage w)))]
         (CacheMessage (Client.RoomID c)
            (MessageData (chat_record c wsMessage w))
            (with_db (DB.with_Messages
                        (DB.Messages (db w) ++ [chat_record c wsMessage w])
                        (db w)) w)).2
  else Done [] w.
Proof.
  intros Hc Hrow. unfold handleChatMessage.
  rewrite (bind_Done _ _ _ _ _ (deref_Some _ _ _ Hc)).
  unfold bind at 1, get. rewrite Hrow.
  assert (Hup : DB.Up (db w) = true).
  { unfold DB.FirstRoomMember in Hrow. by destruct (DB.Up (db w)). }
  unfold CreateMessage. rewrite Hup. simpl.
  fold (chat_record c wsMessage w).
  by destruct (DB.Accepts (db w) (chat_record c wsMessage w)).
Qed.

(** X13.  A join takes effect for the next message.  On a store that is
    up, the handler of a join_room frame for a live room other than 0
    sends nothing to the hub and makes the record of the client name
    that room.  The handler of a message frame that follows builds its
    row for the joined room and the user of the connection, with the
    content of the frame; the room id the message frame itself carries
    plays no part.  When the store takes the row it is stored once and
    the handler sends the hub exactly one broadcast, for the joined
    room; when the insert fails nothing is stored and nothing sent. *)
Theorem join_room_then_message client c join message w :
  heap w !! client = Some c →
  DB.Up (db w) = true →
  WebSocketMessage.Type_ join = "join_room" →
  WebSocketMessage.Type_ message = "message" →
  WebSocketMessage.RoomID join ≠ 0 →
  WebSocketMessage.RoomID join ∈ DB.Rooms (db w) →
  ∃ w1 row,
    handleMessage client join w = Done [] w1 ∧
    Client.RoomID <$> heap w1 !! client = Some (WebSocketMessage.RoomID join) ∧
    DB.Messages (db w1) = DB.Messages (db w) ∧
    Message.RoomID row = WebSocketMessage.RoomID join ∧
    Message.UserID row = Client.UserID c ∧
    Message.Content row = WebSocketMessage.Content message ∧
    (DB.Accepts (db w1) row = true →
     ∃ w2,
       handleMessage client message w1 =
         Done [Broadcast (WebSocketMessage.RoomID join)
                 (WebSocketMessage.mk "message" (WebSocketMessage.RoomID join)
                    "" (MessageData row))] w2 ∧
       DB.Messages (db w2) = DB.Messages (db w) ++ [row]) ∧
    (DB.Accepts (db w1) row = false →
     handleMessage client message w1 = Done [] w1).
Proof.
  intros Hc Hup Hj Hm Hne Hin.
  destruct (handleJoinRoom_joins client c join w Hc Hup Hne Hin)
    as (w1 & Hjoin & Hc1 & Hup1 & Hmsgs1 & [mrow Hrow1]).
  pose proof (handleChatMessage_member client _ message w1 mrow Hc1 Hrow1)
    as Hchat.
  exists w1,
    (chat_record (Client.with_RoomID (WebSocketMessage.RoomID join) c)
       message w1).
  assert (Ejoin : handleMessage client join = handleJoinRoom client join).
  { unfold handleMessage. by rewrite Hj. }
  assert (Emsg : handleMessage client message =
                 handleChatMessage client message).
  { unfold handleMessage. by rewrite Hm. }
  rewrite Ejoin, Emsg.
  split; [done|]. split; [by rewrite Hc1|]. split; [done|].
  split; [done|]. split; [done|]. split; [done|]. split.
  - intros Hacc. rewrite Hacc in Hchat. eexists. split; [exact Hchat|].
    rewrite <- Hmsgs1. unfold CacheMessage. simpl.
    destruct (RedisClient w1) as [r|]; [destruct (Redis.Reachable r)|]; done.
  - intros Hacc. by rewrite Hacc in Hchat.
Qed.

(** * What an attach does to the process *)

(** X14.  An attach touches nothing that exists, and it ends only when
    the hub takes the registration.  In every outcome the hub, the store
    and the presence cache are as before and every client record is
    exactly what it was; the handler never panics.  Every refusal (401,
    400, a failed upgrade) returns with the process as it was and
    nothing sent to the hub; a request without a user is refused with
    401 whatever its room_id.  An upgraded request allocates one record,
    at an address no record had, for the user of the request and with
    an empty open queue, and sends its registration: the handler returns
    only if the hub was in its select to take it, and when the hub is
    stopped it waits in that send for good, the record allocated and
    not registered. *)
Theorem HandleWebSocket_effect r w :
  (hub (world_of (HandleWebSocket r w)) = hub w ∧
   db (world_of (HandleWebSocket r w)) = db w ∧
   RedisClient (world_of (HandleWebSocket r w)) = RedisClient w ∧
   ∀ x c, heap w !! x = Some c →
          heap (world_of (HandleWebSocket r w)) !! x = Some c) ∧
  match HandleWebSocket r w with
  | Done (resp, cmds) w' =>
      match resp with
      | Upgraded client =>
          Hub.mutex (hub w) = Free ∧
          heap w !! client = None ∧
          cmds = [Register client] ∧
          dom (heap w') = {[client]} ∪ dom (heap w) ∧
          ∃ userID roomID,
            current_user r = Some userID ∧
            heap w' !! client =
              Some (Client.mk (uuid r) userID roomID Chan.make)
      | _ => w' = w ∧ cmds = []
      end
  | Blocked w' =>
      Hub.mutex (hub w) ≠ Free ∧
      upgradable r = true ∧
      dom (heap w') = {[fresh (dom (heap w))]} ∪ dom (heap w)
  | Panicked _ => False
  end ∧
  (current_user r = None →
   HandleWebSocket r w = Done (StatusUnauthorized, []) w).
Proof.
  unfold HandleWebSocket.
  destruct (current_user r) as [userID|]; [|done].
  destruct (ParseUint _) as [roomID []]; [|done].
  destruct (upgradable r); simpl; [|done].
  unfold bind, get, store, modify, ret, offer. simpl.
  assert (Hfresh : heap w !! fresh (dom (heap w)) = None).
  { apply not_elem_of_dom. apply is_fresh. }
  assert (Hold : ∀ x c, heap w !! x = Some c →
    <[fresh (dom (heap w)) := Client.mk (uuid r) userID roomID Chan.make]>
      (heap w) !! x = Some c).
  { intros x c Hx. rewrite lookup_insert_ne; [done|]. intros <-. congruence. }
  split; [|split; [|done]].
  - by destruct (Hub.mutex (hub w)).
  - destruct (Hub.mutex (hub w)); simpl;
      [|by rewrite dom_insert_L..].
    split; [done|]. split; [done|]. split; [done|].
    split; [by rewrite dom_insert_L|].
    exists userID, roomID. split; [done|]. by rewrite lookup_insert_eq.
Qed.

(** * The lock of the hub *)

Lemma index_client_clients client c h :
  client ∈ Hub.clients (index_client client c h) ∧
  Hub.mutex (index_client client c h) = Hub.mutex h.
Proof.
  unfold index_client. simpl.
  destruct (Hub.rooms h !! Client.RoomID c); simpl; split; try done; set_solver.
Qed.

(** X15.  The first registration of a user the store knows stops the
    hub.  From an unlocked hub, [Run] blocks inside the registration of a
    client whose user row is found: the client is indexed, the write
    lock is held and never released, no command behind the registration
    is handled, and any command that would be handled in that state
    blocks at once. *)
Theorem first_registration_stops_hub client c user rest w :
  Hub.mutex (hub w) = Free →
  heap w !! client = Some c →
  DB.FirstUser (Client.UserID c) (db w) = Some user →
  ∃ w',
    Run (Register client :: rest) w = Blocked w' ∧
    Hub.mutex (hub w') = Write ∧
    client ∈ Hub.clients (hub w') ∧
    heap w' = heap w ∧
    ∀ cmd, Run_step cmd w' = Blocked w'.
Proof.
  intros Hm Hc Hu. exists (registered client c w).
  destruct (registered_registry client c w) as [Hhub Hheap].
  assert (Hw : Hub.mutex (hub (registered client c w)) = Write).
  { rewrite Hhub. by rewrite (proj2 (index_client_clients _ _ _)). }
  split; [|split; [done|split; [|split; [done|]]]].
  - unfold Run. simpl for_each. apply bind_Blocked. simpl.
    rewrite (registerClient_cases client c w Hm Hc).
    assert (Hfound : is_Some (DB.FirstUser (Client.UserID c)
                                (db (registered client c w)))).
    { unfold registered, UpdateOnline.
      match goal with |- context [SetUserOnline ?u ?r ?x] =>
        destruct (SetUserOnline_registry u r x) as (_ & _ & Hdb) end.
      rewrite Hdb. simpl. unfold DB.FirstUser in *.
      destruct (DB.Up (db w)) eqn:Hup; [|done]. simpl. rewrite Hup.
      rewrite lookup_alter_eq, Hu. by eexists. }
    by destruct Hfound as [u ->].
  - rewrite Hhub. apply index_client_clients.
  - intros [x|x|roomID message]; simpl.
    + unfold registerClient. apply bind_Blocked. unfold Lock. by rewrite Hw.
    + unfold unregisterClient. apply bind_Blocked. unfold Lock. by rewrite Hw.
    + by apply broadcastToRoom_Blocked.
Qed.

(** X16.  A client the fan-out evicted is never marked offline.  When a
    broadcast from the unlocked hub meets a member whose queue is full,
    and the reader of that member then hands in its unregistration, both
    commands return, and the state of the store and of the presence
    cache and the [users] map are what they were before the two
    commands: the unregistration finds the client gone from [clients]
    and does nothing. *)
Theorem evicted_client_is_never_marked_offline roomID message room x c w :
  Hub.mutex (hub w) = Free →
  Hub.rooms (hub w) !! roomID = Some room →
  (∀ y, y ∈ room →
        ∃ cy, heap w !! y = Some cy ∧ Chan.closed (Client.Send cy) = false) →
  x ∈ room →
  heap w !! x = Some c →
  Chan.full (Client.Send c) = true →
  ∃ w',
    Run [Broadcast roomID message; Unregister x] w = Done tt w' ∧
    x ∉ Hub.clients (hub w') ∧
    Hub.users (hub w') = Hub.users (hub w) ∧
    db w' = db w ∧
    RedisClient w' = RedisClient w.
Proof.
  intros Hm Hroom Hopen Hx Hc Hfull.
  exists (loop_result roomID message (elements room) w).
  assert (Hgone : x ∉ Hub.clients
                        (hub (loop_result roomID message (elements room) w))).
  { simpl. intros [_ Hn]%elem_of_difference. apply Hn.
    apply elem_of_evicted. split; [by apply elem_of_elements|].
    unfold slow. by rewrite Hc. }
  split; [|done].
  unfold Run. simpl for_each.
  rewrite (bind_Done _ _ _ _ _ (broadcastToRoom_Done _ message _ _ Hm Hroom Hopen)).
  assert (Hm' : Hub.mutex
                  (hub (loop_result roomID message (elements room) w)) = Free)
    by done.
  rewrite (bind_Done _ _ _ tt _ (unregisterClient_absent x _ Hm' Hgone)).
  done.
Qed.

(** * Joining and leaving a room over HTTP *)

Lemma store_system_message_frame enforced m w :
  DB.RoomMembers (db (store_system_message enforced m w)) =
    DB.RoomMembers (db w) ∧
  DB.Up (db (store_system_message enforced m w)) = DB.Up (db w) ∧
  DB.Users (db (store_system_message enforced m w)) = DB.Users (db w) ∧
  DB.Rooms (db (store_system_message enforced m w)) = DB.Rooms (db w) ∧
  hub (store_system_message enforced m w) = hub w ∧
  heap (store_system_message enforced m w) = heap w ∧
  RedisClient (store_system_message enforced m w) = RedisClient w.
Proof.
  unfold store_system_message, CreateMessage.
  destruct enforced; [done|]. by destruct (_ && _).
Qed.

Lemma find_filter_nil {A} (f : A → bool) (l : list A) :
  find f l = None ↔ List.filter f l = [].
Proof.
  induction l as [|a l IH]; simpl; [done|]. by destruct (f a).
Qed.

Lemma delete_first_app {A} (f : A → bool) (l : list A) (a : A) :
  find f l = None → f a = true → delete_first f (l ++ [a]) = l.
Proof.
  intros Hl Ha. induction l as [|b l IH]; simpl in *.
  - by rewrite Ha.
  - destruct (f b); [done|]. by rewrite IH.
Qed.

Lemma filter_delete_first {A} (f g : A → bool) (l : list A) :
  (∀ a, f a = true → g a = false) →
  List.filter g (delete_first f l) = List.filter g l.
Proof.
  intros Hfg. induction l as [|a l IH]; simpl; [done|].
  destruct (f a) eqn:Hf.
  - by rewrite (Hfg a Hf).
  - simpl. by rewrite IH.
Qed.

Lemma member_row_other room user room' user' m :
  room ≠ room' ∨ user ≠ user' →
  DB.member_row room user m = true → DB.member_row room' user' m = false.
Proof.
  unfold DB.member_row. intros Hne [H1 H2]%andb_true_iff.
  apply N.eqb_eq in H1, H2. apply andb_false_iff.
  destruct Hne as [Hne|Hne]; [left|right]; apply N.eqb_neq; congruence.
Qed.

(** On a store that is up, [IsMember] holds exactly when the query of
    the websocket handlers finds a membership row. *)
Lemma IsMember_FirstRoomMember room d userID :
  DB.Up d = true →
  IsMember room d userID = true ↔
  is_Some (DB.FirstRoomMember (Room.ID room) userID d).
Proof.
  intros Hup. unfold IsMember, Count, DB.FirstRoomMember. rewrite Hup.
  destruct (find _ _) as [m|] eqn:Hf.
  - split; [by eexists|]. intros _.
    destruct (List.filter _ _) eqn:Hl; [|simpl; apply Z.ltb_lt; lia].
    apply find_filter_nil in Hl. congruence.
  - apply find_filter_nil in Hf. rewrite Hf. simpl. split; [done|].
    by intros [? [=]].
Qed.

Lemma FirstRoomRow_ID rooms roomID d room :
  FirstRoomRow rooms roomID d = Row room →
  Room.ID room = roomID ∧ DB.Up d = true.
Proof.
  unfold FirstRoomRow. destruct (DB.Up d); [|done].
  destruct (find _ _) as [x|] eqn:Hf; [|done]. intros [= <-].
  apply find_some in Hf as [_ Hf]. by apply N.eqb_eq in Hf.
Qed.

Lemma CreateRoomMember_db m w :
  DB.Up (db w) = true →
  db (CreateRoomMember m w) =
  DB.with_RoomMembers (DB.RoomMembers (db w) ++ [m]) (db w).
Proof. intros Hup. unfold CreateRoomMember. by rewrite Hup. Qed.

(** What an admitted [JoinRoom] finds and leaves. *)
Lemma JoinRoom_OK rooms nickname enforced r w text w' :
  JoinRoom rooms nickname enforced r w = ((200, text), w') →
  ∃ roomID userID room,
    ParseUint (id_param r) = (roomID, nil) ∧
    user r = Some userID ∧
    FirstRoomRow rooms roomID (db w) = Row room ∧
    IsMember room (db w) userID = false ∧
    (GetMemberCount room (db w) < Room.MaxMembers room)%Z ∧
    (Room.IsPrivate room = true → Room.Password room ≠ "" →
     body_password r = Room.Password room) ∧
    DB.RoomMembers (db w') =
      DB.RoomMembers (db w) ++ [RoomMember.mk roomID userID "member" (now w)] ∧
    DB.Up (db w') = true.
Proof.
  unfold JoinRoom.
  destruct (ParseUint _) as [roomID []] eqn:Hp; [|done].
  destruct (user r) as [userID|] eqn:Hu; [|done].
  destruct (FirstRoomRow _ _ _) as [room| |] eqn:Hr; [|done|done].
  destruct (FirstRoomRow_ID _ _ _ _ Hr) as [_ Hup].
  destruct (IsMember _ _ _) eqn:Hmem; [done|].
  destruct (Z.leb_spec (Room.MaxMembers room) (GetMemberCount room (db w)))
    as [|Hcap]; [done|].
  destruct (_ && _) eqn:Hpw; [done|].
  rewrite Hup. simpl. intros [= _ <-].
  exists roomID, userID, room.
  destruct (store_system_message_frame enforced
    (CreateSystemMessage roomID
       (loaded_nickname nickname userID
          (CreateRoomMember (RoomMember.mk roomID userID "member" (now w)) w)
        ++ " 加入了房间"))
    (CreateRoomMember (RoomMember.mk roomID userID "member" (now w)) w))
    as (-> & -> & _).
  rewrite (CreateRoomMember_db _ _ Hup). simpl.
  repeat split; try done.
  intros Hpriv Hne. rewrite Hpriv in Hpw. simpl in Hpw.
  destruct (String.eqb_spec (Room.Password room) "") as [|_]; [done|].
  simpl in Hpw. by destruct (String.eqb_spec (Room.Password room) (body_password r)).
Qed.

Lemma Count_snoc cond d d' m :
  DB.Up d = true → DB.Up d' = true →
  DB.RoomMembers d' = DB.RoomMembers d ++ [m] →
  Count cond d' = (Count cond d + (if cond m then 1 else 0))%Z.
Proof.
  intros Hup Hup' Hl. unfold Count. rewrite Hup, Hup', Hl.
  rewrite List.filter_app, length_app.
  simpl. destruct (cond m); simpl; lia.
Qed.

Lemma JoinRoom_refused rooms nickname enforced r w code text w' :
  JoinRoom rooms nickname enforced r w = ((code, text), w') →
  code ≠ 200 → w' = w.
Proof.
  unfold JoinRoom.
  destruct (ParseUint _) as [roomID []]; [|by intros [= _ _ <-]].
  destruct (user r) as [userID|]; [|by intros [= _ _ <-]].
  destruct (FirstRoomRow _ _ _) as [room| |];
    [|by intros [= _ _ <-]|by intros [= _ _ <-]].
  destruct (IsMember _ _ _); [by intros [= _ _ <-]|].
  destruct (_ <=? _)%Z; [by intros [= _ _ <-]|].
  destruct (_ && _); [by intros [= _ _ <-]|].
  destruct (negb _); [by intros [= _ _ <-]|].
  by intros [= <- _ _].
Qed.

Lemma LeaveRoom_refused rooms nickname enforced r w code text w' :
  LeaveRoom rooms nickname enforced r w = ((code, text), w') →
  code ≠ 200 → w' = w.
Proof.
  unfold LeaveRoom.
  destruct (ParseUint _) as [roomID []]; [|by intros [= _ _ <-]].
  destruct (user r) as [userID|]; [|by intros [= _ _ <-]].
  destruct (negb _); [by intros [= _ _ <-]|].
  destruct (DB.FirstRoomMember _ _ _); [|by intros [= _ _ <-]].
  destruct (_ =? _); [by intros [= _ _ <-]|].
  by intros [= <- _ _].
Qed.

(** What an accepted [LeaveRoom] finds and leaves. *)
Lemma LeaveRoom_OK rooms nickname enforced r w text w' :
  LeaveRoom rooms nickname enforced r w = ((200, text), w') →
  ∃ roomID userID,
    ParseUint (id_param r) = (roomID, nil) ∧
    user r = Some userID ∧
    is_Some (DB.FirstRoomMember roomID userID (db w)) ∧
    (∀ room, FirstRoomRow rooms roomID (db w) = Row room →
             Room.CreatorID room ≠ userID) ∧
    DB.RoomMembers (db w') =
      delete_first (DB.member_row roomID userID) (DB.RoomMembers (db w)) ∧
    DB.Up (db w') = true.
Proof.
  unfold LeaveRoom.
  destruct (ParseUint _) as [roomID []] eqn:Hp; [|done].
  destruct (user r) as [userID|] eqn:Hu; [|done].
  destruct (DB.Up (db w)) eqn:Hup; [|done]. simpl.
  destruct (DB.FirstRoomMember _ _ _) as [row|] eqn:Hrow; [|done].
  match goal with |- context [?a =? userID] =>
    destruct (N.eqb_spec a userID) as [|Hcr]; [done|] end.
  intros [= _ <-]. exists roomID, userID.
  match goal with |- context [store_system_message ?e ?m ?x] =>
    destruct (store_system_message_frame e m x) as (-> & -> & _) end.
  simpl. repeat split; try done.
  intros room Hroom. rewrite Hroom in Hcr. done.
Qed.

(** X17.  [JoinRoom] admits within the capacity.  Every answer other
    than 200 leaves the process as it was.  An answer of 200 is given
    only to an authenticated user who had no membership of a live room
    that was not full and, for a private room with a password, who sent
    that password; the user then is a member, the room counts exactly
    one member more, and not more than its capacity. *)
Theorem JoinRoom_admits_within_capacity rooms nickname enforced r w code text w' :
  JoinRoom rooms nickname enforced r w = ((code, text), w') →
  (code ≠ 200 → w' = w) ∧
  (code = 200 →
   ∃ roomID userID room,
     ParseUint (id_param r) = (roomID, nil) ∧
     user r = Some userID ∧
     FirstRoomRow rooms roomID (db w) = Row room ∧
     IsMember room (db w) userID = false ∧
     IsMember room (db w') userID = true ∧
     GetMemberCount room (db w') = (GetMemberCount room (db w) + 1)%Z ∧
     (GetMemberCount room (db w') ≤ Room.MaxMembers room)%Z ∧
     (Room.IsPrivate room = true → Room.Password room ≠ "" →
      body_password r = Room.Password room)).
Proof.
  intros Hj. split; [by apply (JoinRoom_refused _ _ _ _ _ _ _ _ Hj)|].
  intros ->.
  destruct (JoinRoom_OK _ _ _ _ _ _ _ Hj)
    as (roomID & userID & room & Hp & Hu & Hr & Hmem & Hcap & Hpw & Hrows & Hup').
  destruct (FirstRoomRow_ID _ _ _ _ Hr) as [Hid Hup].
  exists roomID, userID, room.
  assert (Hcount : GetMemberCount room (db w') =
                   (GetMemberCount room (db w) + 1)%Z).
  { unfold GetMemberCount. rewrite (Count_snoc _ _ _ _ Hup Hup' Hrows).
    simpl. by rewrite Hid, N.eqb_refl. }
  repeat split; try done; [|lia].
  unfold IsMember. rewrite (Count_snoc _ _ _ _ Hup Hup' Hrows).
  unfold DB.member_row. simpl. rewrite Hid, !N.eqb_refl. simpl.
  apply Z.ltb_lt. unfold Count. rewrite Hup. lia.
Qed.

(** X18.  Leaving undoes joining, except for the creator.  After
    [JoinRoom] answered 200, a [LeaveRoom] of the same request is
    answered 200 and leaves the membership table exactly as it was
    before the join, unless the user is the creator of the room: the
    creator is refused with 403 and keeps the membership. *)
Theorem JoinRoom_then_LeaveRoom rooms nickname enforced r w text w1 :
  JoinRoom rooms nickname enforced r w = ((200, text), w1) →
  ∃ room,
    FirstRoomRow rooms (ParseUint (id_param r)).1 (db w) = Row room ∧
    (user r ≠ Some (Room.CreatorID room) →
     ∃ w2,
       LeaveRoom rooms nickname enforced r w1 =
         ((200, "Successfully left room"), w2) ∧
       DB.RoomMembers (db w2) = DB.RoomMembers (db w)) ∧
    (user r = Some (Room.CreatorID room) →
     LeaveRoom rooms nickname enforced r w1 =
       ((403, "Room creator cannot leave the room"), w1)).
Proof.
  intros Hj.
  destruct (JoinRoom_OK _ _ _ _ _ _ _ Hj)
    as (roomID & userID & room & Hp & Hu & Hr & Hmem & _ & _ & Hrows & Hup').
  destruct (FirstRoomRow_ID _ _ _ _ Hr) as [Hid Hup].
  exists room. rewrite Hp. split; [done|].
  assert (Hnone : find (DB.member_row roomID userID) (DB.RoomMembers (db w))
                  = None).
  { destruct (find _ _) as [m|] eqn:Hf; [|done].
    assert (IsMember room (db w) userID = true); [|congruence].
    apply IsMember_FirstRoomMember; [done|].
    unfold DB.FirstRoomMember. rewrite Hup, Hid, Hf. by eexists. }
  assert (Hrow : DB.member_row roomID userID
                   (RoomMember.mk roomID userID "member" (now w)) = true).
  { unfold DB.member_row. simpl. by rewrite !N.eqb_refl. }
  assert (Hfirst : DB.FirstRoomMember roomID userID (db w1) =
                   Some (RoomMember.mk roomID userID "member" (now w))).
  { unfold DB.FirstRoomMember. rewrite Hup', Hrows.
    clear - Hnone Hrow. induction (DB.RoomMembers (db w)) as [|a l IH]; simpl in *.
    - by rewrite Hrow.
    - destruct (DB.member_row roomID userID a); [done|]. by apply IH. }
  assert (Hroom1 : FirstRoomRow rooms roomID (db w1) = Row room).
  { unfold FirstRoomRow in *. rewrite Hup in Hr. by rewrite Hup'. }
  unfold LeaveRoom. rewrite Hp, Hu, Hup', Hfirst, Hroom1. simpl. split.
  - intros Hne.
    destruct (N.eqb_spec (Room.CreatorID room) userID) as [Heq|_];
      [by rewrite Heq in Hne|].
    eexists. split; [done|].
    match goal with |- context [store_system_message ?e ?m ?x] =>
      destruct (store_system_message_frame e m x) as (-> & _) end.
    simpl. rewrite Hrows. by apply delete_first_app.
  - intros [= ->]. by rewrite N.eqb_refl.
Qed.

(** X19.  Neither handler touches the membership of anyone else.
    Whatever the request and however it is answered, for every room and
    user other than the room and the user of the request the membership
    rows are the same before and after [JoinRoom] and [LeaveRoom], and
    so are the users table, the hub, the client records and the
    presence cache. *)
Theorem JoinRoom_LeaveRoom_touch_one_membership
    rooms nickname enforced r w room' user' handler :
  handler = JoinRoom ∨ handler = LeaveRoom →
  (ParseUint (id_param r)).1 ≠ room' ∨ user r ≠ Some user' →
  List.filter (DB.member_row room' user')
    (DB.RoomMembers (db (handler rooms nickname enforced r w).2)) =
  List.filter (DB.member_row room' user') (DB.RoomMembers (db w)) ∧
  DB.Users (db (handler rooms nickname enforced r w).2) = DB.Users (db w) ∧
  hub (handler rooms nickname enforced r w).2 = hub w ∧
  heap (handler rooms nickname enforced r w).2 = heap w ∧
  RedisClient (handler rooms nickname enforced r w).2 = RedisClient w.
Proof.
  intros Hh Hother.
  assert (Hcase :
    (handler rooms nickname enforced r w).2 = w ∨
    ∃ roomID userID m w1,
      ParseUint (id_param r) = (roomID, nil) ∧ user r = Some userID ∧
      (handler rooms nickname enforced r w).2 = store_system_message enforced m w1 ∧
      DB.Users (db w1) = DB.Users (db w) ∧ hub w1 = hub w ∧
      heap w1 = heap w ∧ RedisClient w1 = RedisClient w ∧
      (DB.RoomMembers (db w1) =
         DB.RoomMembers (db w) ++ [RoomMember.mk roomID userID "member" (now w)] ∨
       DB.RoomMembers (db w1) =
         delete_first (DB.member_row roomID userID) (DB.RoomMembers (db w)))).
  { destruct Hh as [-> | ->].
    - unfold JoinRoom.
      destruct (ParseUint _) as [roomID []]; [|by left].
      destruct (user r) as [userID|]; [|by left].
      destruct (FirstRoomRow _ _ _) as [room| |] eqn:Hr; [|by left|by left].
      destruct (FirstRoomRow_ID _ _ _ _ Hr) as [_ Hup].
      destruct (IsMember _ _ _); [by left|].
      destruct (_ <=? _)%Z; [by left|].
      destruct (_ && _); [by left|].
      rewrite Hup. simpl. right. eexists roomID, userID, _, _.
      do 2 (split; [done|]). split; [done|].
      unfold CreateRoomMember. rewrite Hup. simpl.
      repeat split; try done. by left.
    - unfold LeaveRoom.
      destruct (ParseUint _) as [roomID []]; [|by left].
      destruct (user r) as [userID|]; [|by left].
      destruct (negb _); [by left|].
      destruct (DB.FirstRoomMember _ _ _); [|by left].
      destruct (_ =? _); [by left|].
      simpl. right. eexists roomID, userID, _, _.
      do 2 (split; [done|]). split; [done|].
      simpl. repeat split; try done. by right. }
  destruct Hcase as [->|(roomID & userID & m & w1 & Hp & Hu & -> & HU & Hh1 & Hp1 & Hr1 & Hrows)];
    [done|].
  destruct (store_system_message_frame enforced m w1)
    as (-> & _ & -> & _ & -> & -> & ->).
  split; [|done].
  assert (Hne : roomID ≠ room' ∨ userID ≠ user').
  { rewrite Hp, Hu in Hother. simpl in Hother.
    destruct Hother as [H|H]; [by left|right; congruence]. }
  destruct Hrows as [-> | ->].
  - rewrite List.filter_app. simpl.
    rewrite (member_row_other roomID userID room' user' _ Hne);
      [by rewrite app_nil_r|].
    unfold DB.member_row. simpl. by rewrite !N.eqb_refl.
  - apply filter_delete_first. intros a. by apply member_row_other.
Qed.

Lemma handleJoinRoom_adds_row client c wsMessage w :
  heap w !! client = Some c →
  DB.Up (db w) = true →
  WebSocketMessage.RoomID wsMessage ≠ 0 →
  WebSocketMessage.RoomID wsMessage ∈ DB.Rooms (db w) →
  DB.FirstRoomMember (WebSocketMessage.RoomID wsMessage) (Client.UserID c)
    (db w) = None →
  ∃ w',
    handleJoinRoom client wsMessage w = Done [] w' ∧
    DB.Up (db w') = true ∧
    DB.RoomMembers (db w') =
      DB.RoomMembers (db w) ++
      [RoomMember.mk (WebSocketMessage.RoomID wsMessage) (Client.UserID c)
         "member" (now w)].
Proof.
  intros Hc Hup Hne Hin Hnone. unfold handleJoinRoom.
  destruct (N.eqb_spec (WebSocketMessage.RoomID wsMessage) 0) as [|_]; [done|].
  unfold bind at 1, get. unfold DB.FirstRoom. rewrite Hup.
  rewrite bool_decide_eq_true_2 by done. simpl.
  unfold bind at 1, deref. rewrite Hc, Hnone.
  unfold bind, ret, modify, store, ignore_error. simpl.
  eexists. split; [done|].
  match goal with |- context [SetUserOnline ?u ?r ?x] =>
    destruct (SetUserOnline_registry u r x) as (_ & _ & ->) end.
  simpl. unfold CreateRoomMember. rewrite Hup. simpl. by rewrite Hup.
Qed.

(** X20.  The join_room frame asks for none of what [JoinRoom] asks.
    A user whom [JoinRoom] refuses with 403, because the room is full or
    because the password is wrong, becomes a member of that room by
    sending a join_room frame for it on a connection: the handler of
    the frame adds the membership row, and the room then counts one
    member more, above its capacity when it was full. *)
Theorem join_room_frame_skips_the_checks
    rooms nickname enforced r w text w' client c wsMessage :
  JoinRoom rooms nickname enforced r w = ((403, text), w') →
  heap w !! client = Some c →
  user r = Some (Client.UserID c) →
  ParseUint (id_param r) = (WebSocketMessage.RoomID wsMessage, nil) →
  WebSocketMessage.RoomID wsMessage ≠ 0 →
  WebSocketMessage.RoomID wsMessage ∈ DB.Rooms (db w) →
  ∃ room w1,
    FirstRoomRow rooms (WebSocketMessage.RoomID wsMessage) (db w) = Row room ∧
    handleJoinRoom client wsMessage w = Done [] w1 ∧
    IsMember room (db w) (Client.UserID c) = false ∧
    IsMember room (db w1) (Client.UserID c) = true ∧
    GetMemberCount room (db w1) = (GetMemberCount room (db w) + 1)%Z ∧
    ((Room.MaxMembers room < GetMemberCount room (db w1))%Z ∨
     (Room.IsPrivate room = true ∧ Room.Password room ≠ body_password r)).
Proof.
  intros Hj Hc Hu Hp Hne Hin.
  unfold JoinRoom in Hj. rewrite Hp, Hu in Hj.
  destruct (FirstRoomRow _ _ _) as [room| |] eqn:Hr; [|done|done].
  destruct (FirstRoomRow_ID _ _ _ _ Hr) as [Hid Hup].
  destruct (IsMember _ _ _) eqn:Hmem; [done|].
  assert (Hnone : DB.FirstRoomMember (WebSocketMessage.RoomID wsMessage)
                    (Client.UserID c) (db w) = None).
  { destruct (DB.FirstRoomMember _ _ _) as [m|] eqn:Hf; [|done].
    assert (IsMember room (db w) (Client.UserID c) = true); [|congruence].
    apply IsMember_FirstRoomMember; [done|]. rewrite Hid, Hf. by eexists. }
  destruct (handleJoinRoom_adds_row client c wsMessage w Hc Hup Hne Hin Hnone)
    as (w1 & Hjoin & Hup1 & Hrows).
  exists room, w1.
  assert (Hcount : GetMemberCount room (db w1) =
                   (GetMemberCount room (db w) + 1)%Z).
  { unfold GetMemberCount. rewrite (Count_snoc _ _ _ _ Hup Hup1 Hrows).
    simpl. by rewrite Hid, N.eqb_refl. }
  do 3 (split; [done|]). split; [|split; [done|]].
  - unfold IsMember. rewrite (Count_snoc _ _ _ _ Hup Hup1 Hrows).
    unfold DB.member_row. simpl. rewrite Hid, !N.eqb_refl. simpl.
    apply Z.ltb_lt. unfold Count. rewrite Hup. lia.
  - destruct (Z.leb_spec (Room.MaxMembers room) (GetMemberCount room (db w)))
      as [Hfull|_]; [left; lia|].
    destruct (_ && _) eqn:Hpw.
    + right. apply andb_true_iff in Hpw as [[Hpriv _]%andb_true_iff Hwrong].
      split; [done|]. intros Heq. rewrite Heq, String.eqb_refl in Hwrong. done.
    + rewrite Hup in Hj. simpl in Hj. done.
Qed.

Lemma Count_admin_rows room userID d d' rows :
  DB.Up d' = DB.Up d →
  DB.RoomMembers d' = DB.RoomMembers d ++ rows →
  Forall (fun m => RoomMember.Role m = "member") rows →
  IsAdmin room d' userID = IsAdmin room d userID.
Proof.
  intros Hup Hrows Hall. unfold IsAdmin, Count. rewrite Hup, Hrows.
  destruct (DB.Up d); [|done].
  rewrite List.filter_app, length_app.
  replace (List.filter _ rows) with ([] : list RoomMember.t); [by rewrite Nat.add_0_r|].
  symmetry. clear Hrows.
  induction Hall as [|m rows Hm _ IH]; simpl; [done|].
  rewrite Hm, IH. simpl. by rewrite andb_false_r.
Qed.

(** X21.  Joining never makes an admin.  Whoever [IsAdmin] holds for
    after [JoinRoom], or after the reader of a connection handled any
    inbound messages, it held for before, and the other way round: for
    every room and every user the answer of [IsAdmin] is the same. *)
Theorem joining_never_makes_an_admin
    rooms nickname enforced r client c inbound w room userID :
  heap w !! client = Some c →
  IsAdmin room (db (JoinRoom rooms nickname enforced r w).2) userID =
    IsAdmin room (db w) userID ∧
  IsAdmin room (db (world_of (ReadPump client inbound w))) userID =
    IsAdmin room (db w) userID.
Proof.
  intros Hc. split.
  - destruct (JoinRoom rooms nickname enforced r w) as [[code text] w'] eqn:Hj.
    simpl. destruct (decide (code = 200)) as [->|Hne].
    + destruct (JoinRoom_OK _ _ _ _ _ _ _ Hj)
        as (roomID & u & room0 & _ & _ & Hr & _ & _ & _ & Hrows & Hup').
      destruct (FirstRoomRow_ID _ _ _ _ Hr) as [_ Hup].
      apply (Count_admin_rows _ _ _ _ _ (eq_trans Hup' (eq_sym Hup)) Hrows).
      by apply Forall_singleton.
    + by rewrite (JoinRoom_refused _ _ _ _ _ _ _ _ Hj Hne).
  - destruct (ReadPump_rows client c inbound w Hc)
      as (_ & _ & Hup & _ & (rows & Hrows & _ & Hall)).
    apply (Count_admin_rows _ _ _ _ rows Hup Hrows).
    eapply Forall_impl; [exact Hall|]. by intros m [_ ?].
Qed.

(** * The statements of the last sections at the scenarios *)

Lemma indexed_w_ab_stalled : indexed w_ab_stalled.
Proof.
  intros client Hin. simpl in Hin.
  apply elem_of_union in Hin as [Hin|Hin]; apply elem_of_singleton in Hin as ->.
  - exists conn_a_stalled, {[1%positive; 2%positive]}.
    split; [reflexivity|]. split; [reflexivity|set_solver].
  - exists conn_b, {[1%positive; 2%positive]}.
    split; [reflexivity|]. split; [reflexivity|set_solver].
Defined.

Lemma bounded_w_ab_stalled : bounded w_ab_stalled.
Proof.
  intros x c Hx. simpl in Hx.
  apply lookup_insert_Some in Hx as [[_ <-]|[_ Hx]].
  - apply Nat.leb_le. vm_compute. reflexivity.
  - apply lookup_singleton_Some in Hx as [_ <-]. simpl. lia.
Defined.

Lemma no_empty_rooms_hub_ab : no_empty_rooms hub_ab.
Proof.
  intros r room Hr. simpl in Hr.
  apply lookup_singleton_Some in Hr as [_ <-]. set_solver.
Defined.

Lemma well_keyed_cache0 : well_keyed cache0.
Proof.
  intros key fields Hk. simpl in Hk.
  apply lookup_insert_Some in Hk as [[<- Hk]|[_ Hk]].
  - injection Hk as <-. reflexivity.
  - apply lookup_singleton_Some in Hk as [<- Hk]. injection Hk as <-.
    reflexivity.
Defined.

(** X1 at the broadcast that evicts Alice's stalled connection, followed
    by the unregistration her reader hands in. *)
Lemma Run_keeps_index_witness :
  indexed w_ab_stalled ∧
  indexed (world_of (Run [Broadcast 1 hi; Unregister 1%positive] w_ab_stalled)).
Proof.
  split; [exact indexed_w_ab_stalled|].
  apply (Run_keeps_index [Broadcast 1 hi; Unregister 1%positive] w_ab_stalled).
  exact indexed_w_ab_stalled.
Defined.

(** X3 where Alice's queue holds 256 frames. *)
Lemma queues_stay_bounded_witness :
  bounded w_ab_stalled ∧
  bounded (world_of (Run [Broadcast 1 hi; Register 2%positive] w_ab_stalled)) ∧
  bounded (world_of (HandleWebSocket req_42 w_ab_stalled)) ∧
  bounded (world_of (ReadPump 1%positive [Some stranger_message; None]
                       w_ab_stalled)) ∧
  bounded (world_of (WritePump_turn Healthy 1%positive w_ab_stalled)).
Proof.
  split; [exact bounded_w_ab_stalled|].
  apply (queues_stay_bounded [Broadcast 1 hi; Register 2%positive] req_42
           1%positive [Some stranger_message; None] Healthy w_ab_stalled).
  exact bounded_w_ab_stalled.
Defined.

(** X4 at Alice's stalled connection: her 256 frames survive the
    broadcast that evicts her. *)
Lemma Run_never_drops_frames_witness :
  ∃ c', heap (world_of (Run [Broadcast 1 hi; Unregister 2%positive]
                          w_ab_stalled)) !! 1%positive = Some c' ∧
        replicate 256 hi `prefix_of` Chan.buf (Client.Send c') ∧
        Client.UserID c' = 7.
Proof.
  destruct (Run_never_drops_frames [Broadcast 1 hi; Unregister 2%positive]
              w_ab_stalled 1%positive conn_a_stalled eq_refl)
    as (c' & H1 & _ & H3 & _ & H5 & _).
  exists c'. split; [exact H1|]. split; [exact H5|exact H3].
Defined.

(** X5 at Alice's stalled connection, once her writer runs again. *)
Lemma writer_delivers_in_order_witness :
  ∃ batch w',
    WritePump_turn Healthy 1%positive
      (world_of (Run [Broadcast 1 hi] w_ab_stalled)) =
      Done (TextMessage batch) w' ∧
    replicate 256 hi `prefix_of` batch.
Proof.
  destruct (writer_delivers_in_order [Broadcast 1 hi] w_ab_stalled 1%positive
              conn_a_stalled eq_refl)
    as (batch & w' & H1 & H2 & _); [discriminate|].
  exists batch, w'. split; [exact H1|exact H2].
Defined.

(** X6 at Bob, while Alice is registered and unregistered. *)
Lemma register_unregister_reach_nobody_witness :
  heap (world_of (registerClient 1%positive w_ab)) !! 2%positive =
    heap w_ab !! 2%positive ∧
  heap (world_of (unregisterClient 1%positive w_ab)) !! 2%positive =
    heap w_ab !! 2%positive.
Proof.
  apply (register_unregister_reach_nobody 1%positive w_ab 2%positive).
  discriminate.
Defined.

(** X7 where Alice and Bob are registered in room 1. *)
Lemma register_unregister_keep_rooms_inhabited_witness :
  no_empty_rooms (hub w_ab) ∧
  no_empty_rooms (hub (world_of (registerClient 1%positive w_ab))) ∧
  no_empty_rooms (hub (world_of (unregisterClient 1%positive w_ab))).
Proof.
  split; [exact no_empty_rooms_hub_ab|].
  apply (register_unregister_keep_rooms_inhabited 1%positive w_ab).
  exact no_empty_rooms_hub_ab.
Defined.

(** X8 when Alice, present in room 1, goes online in room 2. *)
Lemma SetUserOnline_moves_presence_witness :
  well_keyed cache0 ∧
  7 ∈ (GetOnlineUsers 2 (SetUserOnline 7 2 w_cached).2).1 ∧
  (7 ∉ (GetOnlineUsers 1 (SetUserOnline 7 2 w_cached).2).1).
Proof.
  split; [exact well_keyed_cache0|].
  destruct (SetUserOnline_moves_presence 7 2 w_cached cache0 eq_refl eq_refl
              well_keyed_cache0 eq_refl eq_refl) as (H1 & H2 & _).
  split; [exact H1|]. apply H2. discriminate.
Defined.

(** X9 when Alice goes offline: Bob stays listed in room 2. *)
Lemma SetUserOffline_clears_presence_witness :
  (7 ∉ (GetOnlineUsers 1 (SetUserOffline 7 w_cached).2).1) ∧
  (8 ∈ (GetOnlineUsers 2 (SetUserOffline 7 w_cached).2).1 ↔
   8 ∈ (GetOnlineUsers 2 w_cached).1).
Proof.
  destruct (SetUserOffline_clears_presence 7 w_cached cache0 eq_refl eq_refl
              well_keyed_cache0) as (H1 & H2).
  split; [apply H1|]. apply H2. discriminate.
Defined.

(** X10 at a list of three messages, read with the limits 2, 0 and -1. *)
Lemma GetCachedMessages_limit_witness :
  GetCachedMessages 1 2 w_messages =
    ([cached_message 3 "c"; cached_message 2 "b"], nil) ∧
  GetCachedMessages 1 0 w_messages =
    ([cached_message 3 "c"; cached_message 2 "b"; cached_message 1 "a"], nil) ∧
  GetCachedMessages 1 (-1) w_messages =
    ([cached_message 3 "c"; cached_message 2 "b"], nil).
Proof.
  split; [|split].
  - rewrite (GetCachedMessages_limit 1 2 w_messages cache_messages eq_refl
               eq_refl); [reflexivity|split; reflexivity].
  - rewrite (GetCachedMessages_limit 1 0 w_messages cache_messages eq_refl
               eq_refl); [reflexivity|split; reflexivity].
  - rewrite (GetCachedMessages_limit 1 (-1) w_messages cache_messages eq_refl
               eq_refl); [reflexivity|split; reflexivity].
Defined.

(** X11 when a fourth message is cached and two are read. *)
Lemma CacheMessage_newest_first_witness :
  GetCachedMessages 1 2 (CacheMessage 1 (cached_message 4 "d") w_messages).2 =
    ([cached_message 4 "d"; cached_message 3 "c"], nil).
Proof.
  destruct (CacheMessage_newest_first 1 (cached_message 4 "d") 2 w_messages
              cache_messages eq_refl eq_refl) as [H _];
    [split; reflexivity|].
  rewrite H. reflexivity.
Defined.

(** X12 at Alice's reader, handed a chat frame and a join_room frame. *)
Lemma ReadPump_writes_own_rows_witness :
  rows_appended 7 2 w_ab
    (world_of (ReadPump 1%positive [Some empty_message; Some join_room_2] w_ab)).
Proof.
  apply (ReadPump_writes_own_rows 1%positive conn_a
           [Some empty_message; Some join_room_2] w_ab).
  reflexivity.
Defined.

(** X13 when Alice, attached to room 1, joins room 2 and sends a frame
    that names room 1. *)
Lemma join_room_then_message_witness :
  ∃ w1 row w2,
    handleMessage 1%positive join_room_2 w_ab = Done [] w1 ∧
    handleMessage 1%positive empty_message w1 =
      Done [Broadcast 2 (WebSocketMessage.mk "message" 2 "" (MessageData row))]
        w2 ∧
    Message.RoomID row = 2 ∧
    Message.UserID row = 7 ∧
    DB.Messages (db w2) = [row].
Proof.
  destruct (join_room_then_message 1%positive conn_a join_room_2 empty_message
              w_ab eq_refl eq_refl eq_refl eq_refl)
    as (w1 & row & H1 & _ & Hm & H2 & H3 & _ & Htaken & _);
    [discriminate|reflexivity|].
  assert (Hacc : DB.Accepts (db w1) row = true).
  { injection H1 as <-. reflexivity. }
  destruct (Htaken Hacc) as (w2 & H4 & H5).
  exists w1, row, w2. split; [exact H1|]. split; [exact H4|].
  split; [exact H2|]. split; [exact H3|exact H5].
Defined.

(** X15 at Alice's attach on a store that knows her. *)
Lemma first_registration_stops_hub_witness :
  ∃ w',
    Run [Register 1%positive; Broadcast 1 hi] w_attached = Blocked w' ∧
    Hub.mutex (hub w') = Write ∧
    Run_step (Unregister 1%positive) w' = Blocked w'.
Proof.
  destruct (first_registration_stops_hub 1%positive conn_a alice
              [Broadcast 1 hi] w_attached eq_refl eq_refl eq_refl)
    as (w' & H1 & H2 & _ & _ & H5).
  exists w'. split; [exact H1|]. split; [exact H2|apply H5].
Defined.

(** X16 at Alice's stalled connection. *)
Lemma evicted_client_is_never_marked_offline_witness :
  ∃ w',
    Run [Broadcast 1 hi; Unregister 1%positive] w_ab_stalled = Done tt w' ∧
    Hub.users (hub w') !! 7 = Some 1%positive ∧
    db w' = store0.
Proof.
  destruct (evicted_client_is_never_marked_offline 1 hi
              {[1%positive; 2%positive]} 1%positive conn_a_stalled w_ab_stalled
              eq_refl eq_refl)
    as (w' & H1 & _ & H3 & H4 & _).
  - intros y Hy. apply elem_of_union in Hy as [Hy|Hy];
      apply elem_of_singleton in Hy as ->; eexists; split; reflexivity.
  - set_solver.
  - reflexivity.
  - vm_compute. reflexivity.
  - exists w'. split; [exact H1|]. split; [by rewrite H3|exact H4].
Defined.

(** X17 when Alice joins room 2 with its password. *)
Lemma JoinRoom_admits_within_capacity_witness :
  ∃ room,
    FirstRoomRow rooms0 2 (db w_ab) = Row room ∧
    IsMember room (db (JoinRoom rooms0 nickname0 false join_2_alice w_ab).2) 7
      = true ∧
    (GetMemberCount room
       (db (JoinRoom rooms0 nickname0 false join_2_alice w_ab).2)
     ≤ Room.MaxMembers room)%Z.
Proof.
  destruct (JoinRoom_admits_within_capacity rooms0 nickname0 false join_2_alice
              w_ab 200 "Successfully joined room"
              (JoinRoom rooms0 nickname0 false join_2_alice w_ab).2 eq_refl)
    as [_ H].
  destruct (H eq_refl)
    as (roomID & userID & room & Hp & Hu & Hr & _ & Hm & _ & Hc & _).
  injection Hp as <-. injection Hu as <-.
  exists room. split; [exact Hr|]. split; [exact Hm|exact Hc].
Defined.

(** X18 when Alice joins room 2, which Bob created, and leaves it. *)
Lemma JoinRoom_then_LeaveRoom_witness :
  ∃ w2,
    LeaveRoom rooms0 nickname0 false join_2_alice
      (JoinRoom rooms0 nickname0 false join_2_alice w_ab).2 =
      ((200, "Successfully left room"), w2) ∧
    DB.RoomMembers (db w2) = DB.RoomMembers (db w_ab).
Proof.
  destruct (JoinRoom_then_LeaveRoom rooms0 nickname0 false join_2_alice w_ab
              "Successfully joined room"
              (JoinRoom rooms0 nickname0 false join_2_alice w_ab).2 eq_refl)
    as (room & Hr & Hleave & _).
  injection Hr as <-. apply Hleave. discriminate.
Defined.

(** X19 at Bob's membership of room 1 while Alice joins room 2. *)
Lemma JoinRoom_LeaveRoom_touch_one_membership_witness :
  List.filter (DB.member_row 1 8)
    (DB.RoomMembers (db (JoinRoom rooms0 nickname0 false join_2_alice w_ab).2)) =
  List.filter (DB.member_row 1 8) (DB.RoomMembers (db w_ab)).
Proof.
  apply (JoinRoom_LeaveRoom_touch_one_membership rooms0 nickname0 false
           join_2_alice w_ab 1 8 JoinRoom (or_introl eq_refl)).
  left. discriminate.
Defined.

(** X20 when user 9, refused by [JoinRoom] because room 1 is full, sends
    a join_room frame for room 1. *)
Lemma join_room_frame_skips_the_checks_witness :
  JoinRoom rooms0 nickname0 false join_1_stranger w_stranger =
    ((403, "Room is full"), w_stranger) ∧
  ∃ room w1,
    FirstRoomRow rooms0 1 (db w_stranger) = Row room ∧
    handleJoinRoom 4%positive join_room_1 w_stranger = Done [] w1 ∧
    IsMember room (db w1) 9 = true ∧
    (Room.MaxMembers room < GetMemberCount room (db w1))%Z.
Proof.
  split; [reflexivity|].
  destruct (join_room_frame_skips_the_checks rooms0 nickname0 false
              join_1_stranger w_stranger "Room is full" w_stranger 4%positive
              conn_c join_room_1 eq_refl eq_refl eq_refl eq_refl)
    as (room & w1 & Hr & Hjoin & _ & Hm & _ & Hover);
    [discriminate|reflexivity|].
  exists room, w1. split; [exact Hr|]. split; [exact Hjoin|].
  split; [exact Hm|].
  destruct Hover as [Hover|[Hpriv _]]; [exact Hover|].
  injection Hr as <-. discriminate Hpriv.
Defined.

(** X21 at Alice's join of room 2: she is no admin of it, before and
    after. *)
Lemma joining_never_makes_an_admin_witness :
  IsAdmin (Room.mk 2 true "s3cret" 10 8)
    (db (JoinRoom rooms0 nickname0 false join_2_alice w_ab).2) 7 =
  IsAdmin (Room.mk 2 true "s3cret" 10 8) (db w_ab) 7.
Proof.
  apply (joining_never_makes_an_admin rooms0 nickname0 false join_2_alice
           1%positive conn_a [] w_ab (Room.mk 2 true "s3cret" 10 8) 7).
  reflexivity.
Defined.

(** * The lock, by the way a command ends *)

(** A turn of the loop of [broadcastToRoom] never blocks (the send is
    inside a [select] with a default case) and leaves the lock alone. *)
Lemma enqueue_or_evict_mutex roomID message x w :
  match enqueue_or_evict roomID message x w with
  | Done _ w' => Hub.mutex (hub w') = Hub.mutex (hub w)
  | Blocked _ => False
  | Panicked _ => True
  end.
Proof.
  unfold enqueue_or_evict, bind at 1, deref.
  destruct (heap w !! x) as [c|]; [|done].
  destruct (Chan.try_send _ _) as [ch| |]; [done| |done].
  by destruct (Chan.close _) as [ch|].
Qed.

Lemma for_each_enqueue_or_evict_mutex roomID message l : ∀ w,
  match for_each l (enqueue_or_evict roomID message) w with
  | Done _ w' => Hub.mutex (hub w') = Hub.mutex (hub w)
  | Blocked _ => False
  | Panicked _ => True
  end.
Proof.
  induction l as [|x l IH]; intros w; simpl; [done|].
  unfold bind. pose proof (enqueue_or_evict_mutex roomID message x w) as Hx.
  destruct (enqueue_or_evict roomID message x w) as [[] w1|w1|w1]; [|done|done].
  specialize (IH w1). destruct (for_each l _ w1) as [[] w2|w2|w2];
    [congruence|done|done].
Qed.

Lemma broadcastToRoom_lock roomID message w :
  Hub.mutex (hub w) = Free → lock_after (broadcastToRoom roomID message w).
Proof.
  intros Hm. unfold broadcastToRoom.
  unfold bind at 1. unfold RLock. rewrite Hm.
  unfold bind at 1. unfold get. simpl.
  destruct (Hub.rooms (hub w) !! roomID) as [room|].
  - unfold bind.
    match goal with |- context [for_each ?l ?b ?x] =>
      pose proof (for_each_enqueue_or_evict_mutex roomID message l x) as Hl;
      destruct (for_each l b x) as [[] w1|w1|w1] end; [|done|done].
    simpl in Hl. unfold RUnlock. by rewrite Hl.
  - done.
Qed.

Lemma registerClient_lock client w :
  Hub.mutex (hub w) = Free → lock_after (registerClient client w).
Proof.
  intros Hm. destruct (heap w !! client) as [c|] eqn:Hc.
  - rewrite (registerClient_cases client c w Hm Hc).
    destruct (registered_registry client c w) as [Hhub _].
    assert (Hw : Hub.mutex (hub (registered client c w)) = Write).
    { rewrite Hhub. by rewrite (proj2 (index_client_clients _ _ _)). }
    destruct (DB.FirstUser _ _); [done|].
    pose proof (sendOnlineUsers_frame client (registered client c w)) as [Hh _].
    unfold bind.
    destruct (sendOnlineUsers client (registered client c w)) as [[] w1|w1|w1];
      simpl in *; [|by rewrite Hh|done].
    unfold Unlock. by rewrite Hh, Hw.
  - unfold registerClient, bind at 1, Lock. rewrite Hm.
    unfold bind at 1, deref. simpl. by rewrite Hc.
Qed.

Lemma unregisterClient_lock client w :
  Hub.mutex (hub w) = Free → lock_after (unregisterClient client w).
Proof.
  intros Hm. destruct (decide (client ∈ Hub.clients (hub w))) as [Hin|Hnot].
  - destruct (heap w !! client) as [c|] eqn:Hc.
    + destruct (Chan.closed (Client.Send c)) eqn:Hcl.
      * by rewrite (unregisterClient_closed client c w Hm Hin Hc Hcl).
      * rewrite (unregisterClient_Blocked client c w Hm Hin Hc Hcl). simpl.
        destruct (unregistered_registry client c w) as [-> _].
        by rewrite unindex_client_mutex.
    + by rewrite (unregisterClient_no_record client w Hm Hin Hc).
  - by rewrite (unregisterClient_absent client w Hm Hnot).
Qed.

(** X22.  The hub blocks only on itself, and a command that returns has
    released the lock.  From an unlocked hub, whatever commands [Run] is
    handed: when it has handled them all the lock is free, and when it
    blocks, the lock is held for writing, that is, by the hub goroutine
    itself, the only one that takes it for writing; it never waits for
    a reader. *)
Theorem Run_blocks_only_on_itself cmds w :
  Hub.mutex (hub w) = Free → lock_after (Run cmds w).
Proof.
  revert w. unfold Run. induction cmds as [|cmd cmds IH]; intros w Hm; [done|].
  simpl for_each. unfold bind.
  assert (Hstep : lock_after (Run_step cmd w)).
  { destruct cmd as [client|client|roomID message]; simpl.
    - by apply registerClient_lock.
    - by apply unregisterClient_lock.
    - by apply broadcastToRoom_lock. }
  destruct (Run_step cmd w) as [[] w1|w1|w1]; [by apply IH|done|done].
Qed.

(** X22 at the first attach of Alice (the hub blocks) and at the
    eviction of her stalled connection (the hub returns). *)
Lemma Run_blocks_only_on_itself_witness :
  lock_after (Run [Register 1%positive; Broadcast 1 hi] w_attached) ∧
  lock_after (Run [Broadcast 1 hi; Unregister 1%positive] w_ab_stalled).
Proof.
  split.
  - apply (Run_blocks_only_on_itself [Register 1%positive; Broadcast 1 hi]
             w_attached). reflexivity.
  - apply (Run_blocks_only_on_itself [Broadcast 1 hi; Unregister 1%positive]
             w_ab_stalled). reflexivity.
Defined.

(** * Creating a room *)

Lemma find_app_None {A} (f : A → bool) (l l' : list A) :
  find f l = None → find f (l ++ l') = find f l'.
Proof.
  induction l as [|a l IH]; simpl; [done|]. destruct (f a); [done|]. exact IH.
Qed.


Lemma find_fresh {A} (f : A → bool) (l : list A) :
  (∀ a, a ∈ l → f a = false) → find f l = None.
Proof.
  intros Hl. induction l as [|a l IH]; simpl; [done|].
  rewrite (Hl a) by apply list_elem_of_here.
  apply IH. intros b Hb. apply Hl. by apply list_elem_of_further.
Qed.


(** What an answer of 201 says about the request and the state. *)
Lemma CreateRoom_Created next rooms r w text rooms' w' :
  CreateRoom next rooms r w = ((201, text), rooms', w') →
  ∃ userID req,
    creator r = Some userID ∧ bound r = inl req ∧
    DB.Up (db w) = true ∧ DB.Up (db w') = true ∧
    rooms' =
      rooms ++
      [Room.mk next (req_IsPrivate req)
         (if req_IsPrivate req && negb (String.eqb (req_Password req) "")
          then req_Password req else "")
         (if (req_MaxMembers req <=? 0)%Z then 100%Z else req_MaxMembers req)
         userID] ∧
    DB.RoomMembers (db w') =
      DB.RoomMembers (db w) ++ [RoomMember.mk next userID "admin" (now w)] ∧
    DB.Rooms (db w') = {[next]} ∪ DB.Rooms (db w) ∧
    DB.Users (db w') = DB.Users (db w) ∧
    DB.Messages (db w') = DB.Messages (db w) ∧
    hub w' = hub w ∧ heap w' = heap w.
Proof.
  unfold CreateRoom.
  destruct (creator r) as [userID|]; [|done].
  destruct (bound r) as [req|err]; [|done].
  destruct (DB.Up (db w)) eqn:Hup; [|done]. simpl.
  intros [= _ <- <-]. exists userID, req.
  unfold CreateRoomMember. simpl. repeat split; done.
Qed.


(** X24.  The creator of a room is locked in.  After [CreateRoom]
    answered 201 the creator is refused by [JoinRoom] with 409 and by
    [LeaveRoom] with 403, for whatever body, and both leave the state as
    it is: the membership the creation made stays. *)
Theorem creator_is_locked_in
    next rooms r w text rooms' w' nickname enforced q userID :
  CreateRoom next rooms r w = ((201, text), rooms', w') →
  (∀ room, room ∈ rooms → Room.ID room ≠ next) →
  (∀ m, m ∈ DB.RoomMembers (db w) → RoomMember.RoomID m ≠ next) →
  creator r = Some userID →
  user q = Some userID →
  ParseUint (id_param q) = (next, nil) →
  JoinRoom rooms' nickname enforced q w' =
    ((409, "Already a member of this room"), w') ∧
  LeaveRoom rooms' nickname enforced q w' =
    ((403, "Room creator cannot leave the room"), w').
Proof.
  intros Hc Hrooms Hrows Hu Hq Hp.
  destruct (CreateRoom_Created _ _ _ _ _ _ _ Hc)
    as (userID' & req & Hu' & Hb & Hup & Hup' & -> & Hm & _).
  rewrite Hu in Hu'. injection Hu' as <-.
  assert (Hnone : find (fun x => Room.ID x =? next) rooms = None).
  { apply find_fresh. intros x Hx. apply N.eqb_neq. by apply Hrooms. }
  set (room := Room.mk next _ _ _ userID).
  assert (Hroom : FirstRoomRow (rooms ++ [room]) next (db w') = Row room).
  { unfold FirstRoomRow. rewrite Hup', (find_app_None _ _ _ Hnone). simpl.
    by rewrite N.eqb_refl. }
  assert (Hrow : DB.FirstRoomMember next userID (db w') =
                 Some (RoomMember.mk next userID "admin" (now w))).
  { unfold DB.FirstRoomMember. rewrite Hup', Hm, find_app_None.
    - simpl. unfold DB.member_row. simpl. by rewrite !N.eqb_refl.
    - apply find_fresh. intros m Hin. unfold DB.member_row.
      apply andb_false_iff. left. apply N.eqb_neq. by apply Hrows. }
  split.
  - unfold JoinRoom. rewrite Hp, Hq, Hroom.
    replace (IsMember room (db w') userID) with true; [done|].
    symmetry. apply IsMember_FirstRoomMember; [done|]. simpl. rewrite Hrow.
    by eexists.
  - unfold LeaveRoom. rewrite Hp, Hq, Hup', Hrow, Hroom. simpl.
    by rewrite N.eqb_refl.
Qed.

Lemma rooms0_fresh_3 :
  (∀ room, room ∈ rooms0 → Room.ID room ≠ 3) ∧
  (∀ m, m ∈ DB.RoomMembers (db w_ab) → RoomMember.RoomID m ≠ 3).
Proof.
  split.
  - intros room Hin. unfold rooms0 in Hin.
    apply elem_of_cons in Hin as [->|Hin]; [discriminate|].
    apply list_elem_of_singleton in Hin as ->. discriminate.
  - intros m Hin. simpl in Hin.
    apply elem_of_cons in Hin as [->|Hin]; [discriminate|].
    apply list_elem_of_singleton in Hin as ->. discriminate.
Defined.


(** X24 when user 9 asks to join and to leave the room just created. *)
Lemma creator_is_locked_in_witness :
  JoinRoom (CreateRoom 3 rooms0 create_private w_ab).1.2 nickname0 false
    room_3_stranger (CreateRoom 3 rooms0 create_private w_ab).2 =
    ((409, "Already a member of this room"),
     (CreateRoom 3 rooms0 create_private w_ab).2) ∧
  LeaveRoom (CreateRoom 3 rooms0 create_private w_ab).1.2 nickname0 false
    room_3_stranger (CreateRoom 3 rooms0 create_private w_ab).2 =
    ((403, "Room creator cannot leave the room"),
     (CreateRoom 3 rooms0 create_private w_ab).2).
Proof.
  apply (creator_is_locked_in 3 rooms0 create_private w_ab ""
           (CreateRoom 3 rooms0 create_private w_ab).1.2
           (CreateRoom 3 rooms0 create_private w_ab).2
           nickname0 false room_3_stranger 9 eq_refl
           (proj1 rooms0_fresh_3) (proj2 rooms0_fresh_3));
    reflexivity.
Defined.

(** * Seeing a room *)

(** X25.  Who joined sees the room, who left a private room no longer
    does.  After [JoinRoom] answered 200, [GetRoom] of the same request
    answers 200 and shows the room.  If the room is private and a
    [LeaveRoom] of the same request is then answered 200, [GetRoom]
    answers 403 and shows nothing. *)
Theorem GetRoom_follows_membership rooms nickname enforced r w text w1 :
  JoinRoom rooms nickname enforced r w = ((200, text), w1) →
  ∃ room,
    FirstRoomRow rooms (ParseUint (id_param r)).1 (db w) = Row room ∧
    GetRoom rooms r w1 = ((200, ""), Some room) ∧
    ∀ text2 w2,
      Room.IsPrivate room = true →
      LeaveRoom rooms nickname enforced r w1 = ((200, text2), w2) →
      GetRoom rooms r w2 = ((403, "Access denied"), None).
Proof.
  intros Hj.
  destruct (JoinRoom_OK _ _ _ _ _ _ _ Hj)
    as (roomID & userID & room & Hp & Hu & Hr & Hmem & _ & _ & Hrows & Hup1).
  destruct (FirstRoomRow_ID _ _ _ _ Hr) as [Hid Hup].
  exists room. rewrite Hp. split; [done|].
  assert (Hroom : ∀ w', DB.Up (db w') = true →
                        FirstRoomRow rooms roomID (db w') = Row room).
  { intros w' Hup'. unfold FirstRoomRow in *. rewrite Hup in Hr.
    by rewrite Hup'. }
  assert (Hrow : DB.member_row roomID userID
                   (RoomMember.mk roomID userID "member" (now w)) = true).
  { unfold DB.member_row. simpl. by rewrite !N.eqb_refl. }
  split.
  - unfold GetRoom. rewrite Hp, (Hroom w1 Hup1), Hu. simpl.
    replace (IsMember room (db w1) userID) with true;
      [by rewrite !andb_false_r|].
    symmetry. unfold IsMember.
    rewrite (Count_snoc _ _ _ _ Hup Hup1 Hrows), Hid, Hrow.
    apply Z.ltb_lt. unfold Count. rewrite Hup. lia.
  - intros text2 w2 Hpriv Hl.
    destruct (LeaveRoom_OK _ _ _ _ _ _ _ Hl)
      as (roomID' & userID' & Hp' & Hu' & _ & Hcr & Hrows2 & Hup2).
    rewrite Hp in Hp'. injection Hp' as <-.
    rewrite Hu in Hu'. injection Hu' as <-.
    assert (Hnone : find (DB.member_row roomID userID)
                      (DB.RoomMembers (db w)) = None).
    { destruct (find _ _) as [m|] eqn:Hf; [|done].
      assert (IsMember room (db w) userID = true); [|congruence].
      apply IsMember_FirstRoomMember; [done|].
      unfold DB.FirstRoomMember. rewrite Hup, Hid, Hf. by eexists. }
    rewrite Hrows, (delete_first_app _ _ _ Hnone Hrow) in Hrows2.
    unfold GetRoom. rewrite Hp, (Hroom w2 Hup2), Hu, Hpriv. simpl.
    destruct (N.eqb_spec (Room.CreatorID room) userID) as [Heq|_].
    { by destruct (Hcr room (Hroom w1 Hup1)). }
    replace (IsMember room (db w2) userID) with false; [done|].
    symmetry. unfold IsMember, Count. rewrite Hup2, Hrows2, Hid.
    apply find_filter_nil in Hnone. by rewrite Hnone.
Qed.

(** X25 when Alice joins the private room 2 and leaves it. *)
Lemma GetRoom_follows_membership_witness :
  GetRoom rooms0 join_2_alice w_ab = ((403, "Access denied"), None) ∧
  GetRoom rooms0 join_2_alice
    (JoinRoom rooms0 nickname0 false join_2_alice w_ab).2 =
    ((200, ""), Some (Room.mk 2 true "s3cret" 10 8)) ∧
  GetRoom rooms0 join_2_alice
    (LeaveRoom rooms0 nickname0 false join_2_alice
       (JoinRoom rooms0 nickname0 false join_2_alice w_ab).2).2 =
    ((403, "Access denied"), None).
Proof.
  split; [reflexivity|].
  destruct (GetRoom_follows_membership rooms0 nickname0 false join_2_alice w_ab
              "Successfully joined room"
              (JoinRoom rooms0 nickname0 false join_2_alice w_ab).2 eq_refl)
    as (room & Hr & Hsee & Hgone).
  injection Hr as <-. split; [exact Hsee|].
  apply (Hgone "Successfully left room"); reflexivity.
Defined.
